(** * E-Vidwan forum back end: controller, notification schema and router

    A shallow embedding of [back/controllers/forumController.js],
    [back/routes/forumRoutes.js] and the notification schema.  Every
    controller action is an [async (req, res, next)] function whose body is
    one [try]/[catch]: it either sends a JSON envelope with a status code or
    hands an error to [next].  Here an action is a function from the database
    to a response and the database it leaves behind.

    Conventions of the embedding.
    - A MongoDB collection is the list of its documents in insertion order.
    - An [ObjectId] is the string [toString()] gives; the controller compares
      ids through [toString()] only.
    - A field the request may leave out ([undefined]) is an [option].
    - [populate] replaces a reference by (part of) the document it names; it
      changes no collection and is not represented.
    - A write to the database may reject.  The rejections are scheduled by the
      field [rejects] of the database: each write consumes one flag.  Reads
      resolve, except that the server refuses a negative [skip].
    - The schema of the posts ([models/forumModel.js]) is not modelled: a
      created post carries the fields the controller passes, a field it does
      not pass is [None], and the array paths [likes] and [replies] start
      empty.  Of a post only the fields the controller reads or writes are
      kept, and [createdAt], on which it sorts.
    - [page] and [limit] of a query string are given by the integer they
      denote, and the arithmetic on them is that of [Z].  The code computes
      with doubles, which agree with [Z] as long as every value stays within
      [Js.MAX_SAFE_INTEGER]; a statement that speaks of a page number assumes
      as much.
    - The regular-expression engine is a total test: what the server does
      with a pattern it cannot compile is not represented, so a statement
      about a search either speaks of the match set or supposes that the
      request is answered. *)

From Stdlib Require Import List String Ascii ZArith Bool Lia Permutation Arith
  DecimalString.
From Stdlib Require Import Sorted.
Import ListNotations.
Local Open Scope string_scope.
Local Open Scope list_scope.

Set Implicit Arguments.

(* ================================================================== *)
(** ** The JavaScript primitives the controller relies on *)

Module Js.

(** [String.prototype.toLowerCase] on the ASCII range. *)
Definition lowerChar (c : ascii) : ascii :=
  let n := nat_of_ascii c in
  if (65 <=? n)%nat && (n <=? 90)%nat then ascii_of_nat (n + 32) else c.

Fixpoint toLowerCase (s : string) : string :=
  match s with
  | EmptyString => EmptyString
  | String c r => String (lowerChar c) (toLowerCase r)
  end.

(** A JavaScript number as far as the pagination arithmetic produces one. *)
Inductive number : Type :=
| Finite (z : Z)
| Infinity
| NaN.

(** [Number.MAX_SAFE_INTEGER]: up to here the integers are doubles. *)
Definition MAX_SAFE_INTEGER : Z := (2 ^ 53 - 1)%Z.

(** [Math.ceil(a / b)] for integers [a >= 0] and [b]; the quotient is the
    exact one. *)
Definition ceilDiv (a b : Z) : number :=
  if (b =? 0)%Z then (if (a =? 0)%Z then NaN else Infinity)
  else Finite (- ((- a) / b))%Z.

(** [Array.prototype.indexOf] : the first index holding [x], or [-1]. *)
Fixpoint indexOfFrom (x : string) (l : list string) (i : Z) : Z :=
  match l with
  | [] => (-1)%Z
  | y :: t => if String.eqb y x then i else indexOfFrom x t (i + 1)%Z
  end.

Definition indexOf (l : list string) (x : string) : Z := indexOfFrom x l 0%Z.

(** [Array.prototype.splice(start, deleteCount)] with no inserted items. *)
Definition splice {A : Type} (l : list A) (start : Z) (deleteCount : nat)
  : list A :=
  let len := Z.of_nat (List.length l) in
  let s := if (start <? 0)%Z then Z.max (len + start) 0 else Z.min start len in
  firstn (Z.to_nat s) l ++ skipn (Z.to_nat s + deleteCount) l.

(** [Array.prototype.push]. *)
Definition push {A : Type} (l : list A) (x : A) : list A := l ++ [x].

(** [a || b] on a value that may be [undefined]. *)
Definition orElse {A : Type} (a : option A) (b : A) : A :=
  match a with Some v => v | None => b end.

(** A template literal prints a missing value as [undefined]. *)
Definition show (s : option string) : string := orElse s "undefined".

(** Truthiness of a string that may be missing. *)
Definition truthy (s : option string) : bool :=
  match s with
  | Some (String _ _) => true
  | _ => false
  end.

Definition dquote : string := String (ascii_of_nat 34) EmptyString.

End Js.

(* ================================================================== *)
(** ** Documents *)

Definition ObjectId : Type := string.

(** The notification schema. *)
Module Notification.

(** The [enum] of the path [type], in the order of the schema. *)
Definition typeEnum : list string :=
  [ "Password Reset"; "Email Verification"; "Login Alert";
    "Assignment Due"; "New Material"; "Announcement"; "Welcome";
    "Course Enrollment"; "Assignment Graded"; "Forum Reply";
    "Course Deletion"; "Assignment Submitted"; "New Course";
    "New Submission"; "Course Created"; "Student Enrolled";
    "Annnouncement Posted"; "Course Updated"; "Course Deleted";
    "Forum Post" ].

Record t : Type := make {
  userId : ObjectId;
  message : string;
  type : string;
  isRead : bool;
  createdAt : Z
}.

Definition inEnum (s : string) : bool := existsb (String.eqb s) typeEnum.

(** Validation on save: [message] and [type] are required strings (the
    empty string does not satisfy [required]) and [type] is in the enum. *)
Definition validate (n : t) : bool :=
  negb (String.eqb (message n) EmptyString) && inEnum (type n).

End Notification.

Record Attachment : Type := {
  filename : string;
  url : string
}.

Record Reply : Type := mkReply {
  reply_id : ObjectId;
  reply_author : ObjectId;
  reply_content : option string;
  reply_attachments : list Attachment;
  reply_likes : list ObjectId;
  reply_updatedAt : option Z
}.

Record ForumPost : Type := mkPost {
  post_id : ObjectId;
  courseId : ObjectId;
  author : ObjectId;
  title : option string;
  content : option string;
  category : option string;
  tags : option (list string);
  attachments : list Attachment;
  likes : list ObjectId;
  replies : list Reply;
  isPinned : option bool;
  isAnnouncement : option bool;
  createdAt : Z
}.

Record Course : Type := {
  course_id : ObjectId;
  course_title : string;
  instructor : ObjectId;
  enrolledStudents : list ObjectId
}.

Record User : Type := {
  user_id : ObjectId;
  username : string;
  role : option string
}.

(* ================================================================== *)
(** ** Requests and responses *)

Record Body : Type := {
  b_courseId : option ObjectId;
  b_title : option string;
  b_content : option string;
  b_category : option string;
  b_tags : option (list string);
  b_attachments : option (list Attachment)
}.

(** [req.query]; [page] and [limit] are given by the integer they denote. *)
Record Query : Type := {
  q_page : option Z;
  q_limit : option Z;
  q_search : option string;
  q_category : option string;
  q_courseId : option ObjectId
}.

Record Params : Type := {
  p_postId : ObjectId;
  p_replyId : ObjectId;
  p_courseId : ObjectId
}.

Record Request : Type := {
  user : User;
  params : Params;
  body : Body;
  query : Query
}.

Inductive Error : Type :=
| HttpError (status : nat) (msg : string)   (* createError(status, msg) *)
| TypeError (msg : string)                  (* a property read on null *)
| ValidationError (msg : string)
| MongoError (msg : string).

Record Pagination : Type := {
  total : Z;
  page : Z;
  pages : Js.number
}.

Inductive Payload : Type :=
| PostData (p : ForumPost)
| UpdatedPost (p : option ForumPost)
| PostPage (ps : list ForumPost) (pg : Pagination)
| PostList (ps : list ForumPost)
| LikeData (likeCount : nat) (isLiked : bool)
| PinData (pinned : option bool)
| ReplyData (r : option Reply)
| Message (m : string).

Inductive Response : Type :=
| Json (status : nat) (data : Payload)   (* res.status(s).json({success: true, ...}) *)
| Next (e : Error).                      (* next(e) *)

Definition createError (status : nat) (msg : string) : Error :=
  HttpError status msg.

(* ================================================================== *)
(** ** The database and the action monad *)

Record DB : Type := mkDB {
  posts : list ForumPost;
  courses : list Course;
  notifications : list Notification.t;
  rejects : list bool;   (* the writes to come: [true] rejects *)
  clock : Z;             (* Date.now() *)
  nextId : nat           (* ObjectId generator *)
}.

(** A step of an action either goes on with a value or has answered. *)
Inductive Step (A : Type) : Type :=
| Go (a : A)
| Answered (r : Response).

Arguments Go {A} a.
Arguments Answered {A} r.

Definition Action (A : Type) : Type := DB -> Step A * DB.

Definition ret {A : Type} (a : A) : Action A := fun db => (Go a, db).

Definition bind {A B : Type} (m : Action A) (k : A -> Action B) : Action B :=
  fun db =>
    match m db with
    | (Go a, db') => k a db'
    | (Answered r, db') => (Answered r, db')
    end.

Declare Scope action_scope.
Delimit Scope action_scope with action.
Notation "x <- m ;; k" := (bind m (fun x => k))
  (at level 61, m at next level, right associativity) : action_scope.
Notation "m ;;; k" := (bind m (fun _ => k))
  (at level 61, right associativity) : action_scope.
Local Open Scope action_scope.

(** [return next(e)] and a [throw] caught by the action's [catch]. *)
Definition next {A : Type} (e : Error) : Action A :=
  fun db => (Answered (Next e), db).

(** [if (c) { return next(e) }]. *)
Definition rejectIf (c : bool) (e : Error) : Action unit :=
  if c then next e else ret tt.

(** The whole [try { ... } catch (error) { next(error) }]. *)
Definition handle (m : Action Response) : DB -> Response * DB :=
  fun db =>
    match m db with
    | (Go r, db') => (r, db')
    | (Answered r, db') => (r, db')
    end.

(** One write reaches the database: it consumes the next scheduled flag. *)
Definition write : Action unit :=
  fun db =>
    match rejects db with
    | true :: rest =>
        (Answered (Next (MongoError "write rejected")),
         mkDB (posts db) (courses db) (notifications db) rest (clock db) (nextId db))
    | false :: rest =>
        (Go tt,
         mkDB (posts db) (courses db) (notifications db) rest (clock db) (nextId db))
    | [] => (Go tt, db)
    end.

(** The next write is not scheduled to reject; the database once it has
    been counted. *)
Definition writeOk (db : DB) : bool :=
  match rejects db with
  | true :: _ => false
  | _ => true
  end.

Definition setPosts (ps : list ForumPost) : Action unit :=
  fun db =>
    (Go tt, mkDB ps (courses db) (notifications db) (rejects db) (clock db) (nextId db)).

Definition setNotifications (ns : list Notification.t) : Action unit :=
  fun db =>
    (Go tt, mkDB (posts db) (courses db) ns (rejects db) (clock db) (nextId db)).

Definition getPosts : Action (list ForumPost) := fun db => (Go (posts db), db).
Definition getCourses : Action (list Course) := fun db => (Go (courses db), db).
Definition getNotifications : Action (list Notification.t) :=
  fun db => (Go (notifications db), db).
Definition Date_now : Action Z := fun db => (Go (clock db), db).

(** A new ObjectId, printed in decimal. *)
Definition newObjectId : Action ObjectId :=
  fun db =>
    (Go (NilZero.string_of_uint (Nat.to_uint (nextId db))),
     mkDB (posts db) (courses db) (notifications db) (rejects db) (clock db)
          (S (nextId db))).

(* ================================================================== *)
(** ** Mongoose: the model and document methods the controller calls *)

Definition idEq (a b : ObjectId) : bool := String.eqb a b.

(** [x === 'literal'] on a string that may be missing. *)
Definition isString (x : option string) (lit : string) : bool :=
  match x with
  | Some s => String.eqb s lit
  | None => false
  end.

(** Reading a property of [o]: a [TypeError] is thrown when [o] is null. *)
Definition deref {A : Type} (o : option A) (prop : string) : Action A :=
  match o with
  | Some a => ret a
  | None =>
      next (TypeError ("Cannot read properties of null (reading '" ++ prop ++ "')")%string)
  end.

Definition setLikes (p : ForumPost) (l : list ObjectId) : ForumPost :=
  mkPost (post_id p) (courseId p) (author p) (title p) (content p) (category p)
         (tags p) (attachments p) l (replies p) (isPinned p) (isAnnouncement p)
         (createdAt p).

Definition setReplies (p : ForumPost) (rs : list Reply) : ForumPost :=
  mkPost (post_id p) (courseId p) (author p) (title p) (content p) (category p)
         (tags p) (attachments p) (likes p) rs (isPinned p) (isAnnouncement p)
         (createdAt p).

Definition setIsPinned (p : ForumPost) (b : option bool) : ForumPost :=
  mkPost (post_id p) (courseId p) (author p) (title p) (content p) (category p)
         (tags p) (attachments p) (likes p) (replies p) b (isAnnouncement p)
         (createdAt p).

Definition setReplyLikes (r : Reply) (l : list ObjectId) : Reply :=
  mkReply (reply_id r) (reply_author r) (reply_content r) (reply_attachments r)
          l (reply_updatedAt r).

(** The first document of the collection with the given [_id].  The id is
    taken to be a string that casts to an ObjectId; what [findById] does
    with another string is not represented. *)
Definition Course_findById (id : option ObjectId) : Action (option Course) :=
  cs <- getCourses ;;
  ret (match id with
       | Some i => find (fun c => idEq (course_id c) i) cs
       | None => None
       end).

Definition ForumPost_findById (id : ObjectId) : Action (option ForumPost) :=
  ps <- getPosts ;;
  ret (find (fun p => idEq (post_id p) id) ps).

(** [ForumPost.create({...})]. *)
Definition ForumPost_create (course : ObjectId) (by_ : ObjectId)
    (ttl cnt cat : option string) (tgs : option (list string))
    (atts : list Attachment) (isAnn : option bool) : Action ForumPost :=
  write ;;;
  id <- newObjectId ;;
  now <- Date_now ;;
  ps <- getPosts ;;
  let p := mkPost id course by_ ttl cnt cat tgs atts [] [] None isAnn now in
  setPosts (ps ++ [p]) ;;;
  ret p.

(** The stored document with the [_id] of [p] becomes [p]. *)
Fixpoint replacePost (p : ForumPost) (ps : list ForumPost) : list ForumPost :=
  match ps with
  | [] => []
  | q :: rest =>
      if idEq (post_id q) (post_id p) then p :: rest else q :: replacePost p rest
  end.

Fixpoint removePost (id : ObjectId) (ps : list ForumPost) : list ForumPost :=
  match ps with
  | [] => []
  | q :: rest => if idEq (post_id q) id then rest else q :: removePost id rest
  end.

(** [post.save()] and [post.remove()]. *)
Definition post_save (p : ForumPost) : Action unit :=
  write ;;;
  ps <- getPosts ;;
  setPosts (replacePost p ps).

Definition post_remove (p : ForumPost) : Action unit :=
  write ;;;
  ps <- getPosts ;;
  setPosts (removePost (post_id p) ps).

(** The update document of [updatePost]: five paths, each possibly
    [undefined]. *)
Record Update : Type := {
  u_title : option string;
  u_content : option string;
  u_category : option string;
  u_tags : option (list string);
  u_attachments : option (list Attachment)
}.

(** A path whose value is [undefined] is dropped from the update, as
    mongoose does from version 6 on; the document keeps what it has there. *)
Definition setPath {A : Type} (old new : option A) : option A :=
  match new with
  | Some v => Some v
  | None => old
  end.

Definition applyUpdate (u : Update) (p : ForumPost) : ForumPost :=
  mkPost (post_id p) (courseId p) (author p)
         (setPath (title p) (u_title u))
         (setPath (content p) (u_content u))
         (setPath (category p) (u_category u))
         (setPath (tags p) (u_tags u))
         (Js.orElse (u_attachments u) (attachments p))
         (likes p) (replies p) (isPinned p) (isAnnouncement p) (createdAt p).

(** [ForumPost.findByIdAndUpdate(id, update, { new: true, runValidators: true })]. *)
Definition ForumPost_findByIdAndUpdate (id : ObjectId) (u : Update)
  : Action (option ForumPost) :=
  write ;;;
  ps <- getPosts ;;
  match find (fun p => idEq (post_id p) id) ps with
  | None => ret None
  | Some p =>
      let p' := applyUpdate u p in
      setPosts (replacePost p' ps) ;;;
      ret (Some p')
  end.

(** [post.replies.id(replyId)] and the sub-document array it aliases. *)
Definition replies_id (rs : list Reply) (id : ObjectId) : option Reply :=
  find (fun r => idEq (reply_id r) id) rs.

Fixpoint replaceReply (r : Reply) (rs : list Reply) : list Reply :=
  match rs with
  | [] => []
  | q :: rest =>
      if idEq (reply_id q) (reply_id r) then r :: rest else q :: replaceReply r rest
  end.

(** [reply.remove()] pulls from the array every sub-document with the
    [_id] of the reply, and [post.save()] sends that [$pull]. *)
Fixpoint removeReply (id : ObjectId) (rs : list Reply) : list Reply :=
  match rs with
  | [] => []
  | q :: rest =>
      if idEq (reply_id q) id then removeReply id rest
      else q :: removeReply id rest
  end.

(** [new Notification({ userId, message, type, isRead })]: [createdAt]
    defaults to [Date.now]. *)
Definition Notification_new (uid : ObjectId) (msg ty : string) (rd : bool)
  : Action Notification.t :=
  now <- Date_now ;;
  ret (Notification.make uid msg ty rd now).

Definition Notification_save (n : Notification.t) : Action unit :=
  rejectIf (negb (Notification.validate n))
           (ValidationError "Notification validation failed") ;;;
  write ;;;
  ns <- getNotifications ;;
  setNotifications (ns ++ [n]).

Definition Notification_insertMany (docs : list Notification.t) : Action unit :=
  rejectIf (negb (forallb Notification.validate docs))
           (ValidationError "Notification validation failed") ;;;
  write ;;;
  ns <- getNotifications ;;
  setNotifications (ns ++ docs).

(** *** Queries *)

Inductive Path : Type := PTitle | PContent.

(** [{ <path>: { $regex: pattern, $options: options } }]. *)
Record RegexCond : Type := {
  path : Path;
  regex : string;
  options : string
}.

(** The query objects the controller builds. *)
Record Filter : Type := {
  f_courseId : option ObjectId;
  f_category : option string;
  f_author : option ObjectId;
  f_or : option (list RegexCond)
}.

Definition emptyFilter : Filter :=
  {| f_courseId := None; f_category := None; f_author := None; f_or := None |}.

Inductive SortKey : Type := CreatedAtDesc | IsPinnedDesc.

(** BSON order of a boolean that may be missing. *)
Definition boolRank (b : option bool) : Z :=
  match b with
  | None => 0
  | Some false => 1
  | Some true => 2
  end.

(** [a] may stand before [b] under the sort specification. *)
Fixpoint before (keys : list SortKey) (a b : ForumPost) : bool :=
  match keys with
  | [] => true
  | CreatedAtDesc :: rest =>
      if (createdAt b <? createdAt a)%Z then true
      else if (createdAt a <? createdAt b)%Z then false
      else before rest a b
  | IsPinnedDesc :: rest =>
      if (boolRank (isPinned b) <? boolRank (isPinned a))%Z then true
      else if (boolRank (isPinned a) <? boolRank (isPinned b))%Z then false
      else before rest a b
  end.

Fixpoint insertSorted (keys : list SortKey) (x : ForumPost) (l : list ForumPost)
  : list ForumPost :=
  match l with
  | [] => [x]
  | y :: rest =>
      if before keys x y then x :: l else y :: insertSorted keys x rest
  end.

Definition sortPosts (keys : list SortKey) (l : list ForumPost) : list ForumPost :=
  fold_right (insertSorted keys) [] l.

(** [skip] then [limit] on the server: a limit of 0 is no limit, a negative
    limit is the limit of its absolute value. *)
Definition skipLimit {A : Type} (skip limit : Z) (l : list A) : list A :=
  let rest := skipn (Z.to_nat skip) l in
  if (limit =? 0)%Z then rest else firstn (Z.to_nat (Z.abs limit)) rest.

Section Queries.

(** The server's regular-expression engine:
    [regexTest pattern options subject]. *)
Variable regexTest : string -> string -> string -> bool.

Definition readPath (pa : Path) (p : ForumPost) : option string :=
  match pa with
  | PTitle => title p
  | PContent => content p
  end.

Definition condHolds (c : RegexCond) (p : ForumPost) : bool :=
  match readPath (path c) p with
  | Some s => regexTest (regex c) (options c) s
  | None => false
  end.

Definition eqOrAny (want : option string) (has : option string) : bool :=
  match want with
  | None => true
  | Some w => isString has w
  end.

Definition matches (f : Filter) (p : ForumPost) : bool :=
  eqOrAny (f_courseId f) (Some (courseId p))
  && eqOrAny (f_category f) (category p)
  && eqOrAny (f_author f) (Some (author p))
  && match f_or f with
     | None => true
     | Some cs => existsb (fun c => condHolds c p) cs
     end.

(** The documents a query selects, before sort, skip and limit. *)
Definition matchSet (f : Filter) (ps : list ForumPost) : list ForumPost :=
  filter (matches f) ps.

(** [ForumPost.find(f).skip(s).limit(l).sort(keys)]; the order in which
    the builder methods are chained does not matter. *)
Definition ForumPost_find (f : Filter) (keys : list SortKey) (skip limit : Z)
  : Action (list ForumPost) :=
  ps <- getPosts ;;
  rejectIf (skip <? 0)%Z (MongoError "Skip value must be non-negative") ;;;
  ret (skipLimit skip limit (sortPosts keys (matchSet f ps))).

Definition ForumPost_countDocuments (f : Filter) : Action Z :=
  ps <- getPosts ;;
  ret (Z.of_nat (List.length (matchSet f ps))).

End Queries.

(* ================================================================== *)
(** ** The controller *)

(** [req.user.role && req.user.role.toLowerCase() === 'instructor']. *)
Definition isInstructorRole (r : option string) : bool :=
  match r with
  | Some s => Js.truthy r && String.eqb (Js.toLowerCase s) "instructor"
  | None => false
  end.

(** [course.enrolledStudents.some(s => s._id.toString() === uid.toString())]. *)
Definition isEnrolled (c : Course) (uid : ObjectId) : bool :=
  existsb (fun s => idEq s uid) (enrolledStudents c).

(** The access test of the listing and reply actions. *)
Definition noAccess (c : Course) (uid : ObjectId) : bool :=
  negb (isEnrolled c uid) && negb (idEq (instructor c) uid).

(** [!x] on a boolean that may be missing. *)
Definition jsNot (b : option bool) : bool :=
  match b with
  | Some v => negb v
  | None => true
  end.

(** The [$or] of the two case-insensitive regular expressions. *)
Definition searchClause (s : string) : list RegexCond :=
  [ {| path := PTitle; regex := s; options := "i" |};
    {| path := PContent; regex := s; options := "i" |} ].

Definition allPostsQuery (q : Query) : Filter :=
  {| f_courseId := None; f_category := None; f_author := None;
     f_or := if Js.truthy (q_search q)
             then Some (searchClause (Js.orElse (q_search q) EmptyString))
             else None |}.

Definition courseDiscussionsQuery (course : ObjectId) (q : Query) : Filter :=
  {| f_courseId := Some course;
     f_category := if Js.truthy (q_category q) then q_category q else None;
     f_author := None;
     f_or := if Js.truthy (q_search q)
             then Some (searchClause (Js.orElse (q_search q) EmptyString))
             else None |}.

Definition myPostsQuery (uid : ObjectId) : Filter :=
  {| f_courseId := None; f_category := None; f_author := Some uid; f_or := None |}.

Definition announcementsQuery (course : option ObjectId) : Filter :=
  {| f_courseId := course; f_category := Some "Announcement";
     f_author := None; f_or := None |}.

Definition forumPostMessage (c : Course) (u : User) (ttl : option string) : string :=
  ("New post in " ++ course_title c ++ " by " ++ username u ++ ": "
   ++ Js.dquote ++ Js.show ttl ++ Js.dquote)%string.

Definition studentAnnouncementMessage (c : Course) (ttl : option string) : string :=
  ("New announcement in " ++ course_title c ++ ": "
   ++ Js.dquote ++ Js.show ttl ++ Js.dquote)%string.

Definition instructorAnnouncementMessage (c : Course) (ttl : option string) : string :=
  ("You created a new announcement in " ++ course_title c ++ ": "
   ++ Js.dquote ++ Js.show ttl ++ Js.dquote)%string.

Definition replyMessage (p : ForumPost) (u : User) (c : Course) : string :=
  ("You have a new reply on your post " ++ Js.dquote ++ Js.show (title p)
   ++ " from " ++ username u ++ " in " ++ course_title c ++ Js.dquote)%string.

(** The notification [createAnnouncement] builds for one enrolled student. *)
Definition studentNotification (c : Course) (ttl : option string) (now : Z)
    (student : ObjectId) : Notification.t :=
  Notification.make student (studentAnnouncementMessage c ttl) "Announcement"
                    false now.

(** [(page - 1) * limit] with the defaults of the destructuring. *)
Definition pageOf (q : Query) : Z := Js.orElse (q_page q) 1%Z.
Definition limitOf (q : Query) : Z := Js.orElse (q_limit q) 10%Z.

Section Controller.

Variable regexTest : string -> string -> string -> bool.

(** Create a forum post.  [Course.findById(undefined)] finds nothing, so a
    course that is found comes with the [courseId] of the body. *)
Definition createForumPost (req : Request) : DB -> Response * DB :=
  handle (
    let b := body req in
    let category := b_category b in
    course <- Course_findById (b_courseId b) ;;
    match course, b_courseId b with
    | Some course, Some cid =>
        (if isInstructorRole (role (user req)) then
           rejectIf (negb (isString category "Announcement"))
             (createError 400 "Instructors can only create announcements. To answer questions, reply to a student post.")
         else
           rejectIf (isString category "Announcement")
             (createError 400 "Only instructors can create announcements.")) ;;;
        post <- ForumPost_create cid (user_id (user req)) (b_title b)
                  (b_content b) category (b_tags b)
                  (Js.orElse (b_attachments b) [])
                  (Some (isString category "Announcement")) ;;
        (if negb (idEq (instructor course) (user_id (user req))) then
           n <- Notification_new (instructor course)
                  (forumPostMessage course (user req) (b_title b))
                  "Forum Post" false ;;
           Notification_save n
         else ret tt) ;;;
        ret (Json 201 (PostData post))
    | _, _ => next (createError 404 "Course not found")
    end).

(** Get all posts (admin only) *)
Definition getAllPosts (req : Request) : DB -> Response * DB :=
  handle (
    let page := pageOf (query req) in
    let limit := limitOf (query req) in
    let q := allPostsQuery (query req) in
    posts <- ForumPost_find regexTest q [CreatedAtDesc]
               ((page - 1) * limit)%Z limit ;;
    total <- ForumPost_countDocuments regexTest q ;;
    ret (Json 200 (PostPage posts
           {| total := total; page := page; pages := Js.ceilDiv total limit |}))).

(** Get post by ID *)
Definition getPostById (req : Request) : DB -> Response * DB :=
  handle (
    post <- ForumPost_findById (p_postId (params req)) ;;
    match post with
    | None => next (createError 404 "Post not found")
    | Some post =>
        found <- Course_findById (Some (courseId post)) ;;
        course <- deref found "enrolledStudents" ;;
        rejectIf (noAccess course (user_id (user req)))
          (createError 403 "You do not have access to this post") ;;;
        ret (Json 200 (PostData post))
    end).

(** Update post *)
Definition updatePost (req : Request) : DB -> Response * DB :=
  handle (
    post <- ForumPost_findById (p_postId (params req)) ;;
    match post with
    | None => next (createError 404 "Post not found")
    | Some post =>
        rejectIf (negb (idEq (author post) (user_id (user req))))
          (createError 403 "You are not authorized to update this post") ;;;
        updatedPost <- ForumPost_findByIdAndUpdate (p_postId (params req))
          {| u_title := b_title (body req);
             u_content := b_content (body req);
             u_category := b_category (body req);
             u_tags := b_tags (body req);
             u_attachments := b_attachments (body req) |} ;;
        ret (Json 200 (UpdatedPost updatedPost))
    end).

(** Delete post *)
Definition deletePost (req : Request) : DB -> Response * DB :=
  handle (
    post <- ForumPost_findById (p_postId (params req)) ;;
    match post with
    | None => next (createError 404 "Post not found")
    | Some post =>
        found <- Course_findById (Some (courseId post)) ;;
        denied <- (if negb (idEq (author post) (user_id (user req))) then
                     course <- deref found "instructor" ;;
                     ret (negb (idEq (instructor course) (user_id (user req))))
                   else ret false) ;;
        rejectIf denied
          (createError 403 "You are not authorized to delete this post") ;;;
        post_remove post ;;;
        ret (Json 200 (Message "Post deleted successfully"))
    end).

(** Get course discussions *)
Definition getCourseDiscussions (req : Request) : DB -> Response * DB :=
  handle (
    let courseId := p_courseId (params req) in
    let page := pageOf (query req) in
    let limit := limitOf (query req) in
    course <- Course_findById (Some courseId) ;;
    match course with
    | None => next (createError 404 "Course not found")
    | Some course =>
        rejectIf (noAccess course (user_id (user req)))
          (createError 403 "You do not have access to this course") ;;;
        let q := courseDiscussionsQuery courseId (query req) in
        posts <- ForumPost_find regexTest q [IsPinnedDesc; CreatedAtDesc]
                   ((page - 1) * limit)%Z limit ;;
        total <- ForumPost_countDocuments regexTest q ;;
        ret (Json 200 (PostPage posts
               {| total := total; page := page;
                  pages := Js.ceilDiv total limit |}))
    end).

(** Toggle like on post *)
Definition toggleLikePost (req : Request) : DB -> Response * DB :=
  handle (
    post <- ForumPost_findById (p_postId (params req)) ;;
    match post with
    | None => next (createError 404 "Post not found")
    | Some post =>
        let likeIndex := Js.indexOf (likes post) (user_id (user req)) in
        let post' :=
          if (likeIndex =? -1)%Z
          then setLikes post (Js.push (likes post) (user_id (user req)))
          else setLikes post (Js.splice (likes post) likeIndex 1) in
        post_save post' ;;;
        ret (Json 200 (LikeData (List.length (likes post')) (likeIndex =? -1)%Z))
    end).

(** Toggle like on reply *)
Definition toggleLikeReply (req : Request) : DB -> Response * DB :=
  handle (
    post <- ForumPost_findById (p_postId (params req)) ;;
    match post with
    | None => next (createError 404 "Post not found")
    | Some post =>
        match replies_id (replies post) (p_replyId (params req)) with
        | None => next (createError 404 "Reply not found")
        | Some reply =>
            let likeIndex := Js.indexOf (reply_likes reply) (user_id (user req)) in
            let reply' :=
              if (likeIndex =? -1)%Z
              then setReplyLikes reply
                     (Js.push (reply_likes reply) (user_id (user req)))
              else setReplyLikes reply
                     (Js.splice (reply_likes reply) likeIndex 1) in
            post_save (setReplies post (replaceReply reply' (replies post))) ;;;
            ret (Json 200 (LikeData (List.length (reply_likes reply'))
                                    (likeIndex =? -1)%Z))
        end
    end).

(** Get announcements *)
Definition getAnnouncements (req : Request) : DB -> Response * DB :=
  handle (
    let courseId := q_courseId (query req) in
    (if Js.truthy courseId then
       course <- Course_findById courseId ;;
       match course with
       | None => next (createError 404 "Course not found")
       | Some course =>
           rejectIf (noAccess course (user_id (user req)))
             (createError 403 "You do not have access to this course")
       end
     else ret tt) ;;;
    announcements <- ForumPost_find regexTest
      (announcementsQuery (if Js.truthy courseId then courseId else None))
      [CreatedAtDesc] 0%Z 0%Z ;;
    ret (Json 200 (PostList announcements))).

(** Create announcement (instructor only).  No [isAnnouncement] is passed
    to [ForumPost.create] here. *)
Definition createAnnouncement (req : Request) : DB -> Response * DB :=
  handle (
    let b := body req in
    course <- Course_findById (b_courseId b) ;;
    match course, b_courseId b with
    | Some course, Some cid =>
        rejectIf (negb (idEq (instructor course) (user_id (user req))))
          (createError 403 "Only instructors can create announcements") ;;;
        announcement <- ForumPost_create cid (user_id (user req)) (b_title b)
                          (b_content b) (Some "Announcement") None
                          (Js.orElse (b_attachments b) []) None ;;
        (if (0 <? List.length (enrolledStudents course))%nat then
           now <- Date_now ;;
           Notification_insertMany
             (map (studentNotification course (b_title b) now)
                  (enrolledStudents course))
         else ret tt) ;;;
        n <- Notification_new (instructor course)
               (instructorAnnouncementMessage course (b_title b))
               "Announcement" false ;;
        Notification_save n ;;;
        ret (Json 201 (PostData announcement))
    | _, _ => next (createError 404 "Course not found")
    end).

(** Pin/Unpin post (instructor only) *)
Definition pinPost (req : Request) : DB -> Response * DB :=
  handle (
    post <- ForumPost_findById (p_postId (params req)) ;;
    match post with
    | None => next (createError 404 "Post not found")
    | Some post =>
        found <- Course_findById (Some (courseId post)) ;;
        course <- deref found "instructor" ;;
        rejectIf (negb (idEq (instructor course) (user_id (user req))))
          (createError 403 "Only instructors can pin/unpin posts") ;;;
        let post' := setIsPinned post (Some (jsNot (isPinned post))) in
        post_save post' ;;;
        ret (Json 200 (PinData (isPinned post')))
    end).

(** Get user's posts *)
Definition getMyPosts (req : Request) : DB -> Response * DB :=
  handle (
    let page := pageOf (query req) in
    let limit := limitOf (query req) in
    let q := myPostsQuery (user_id (user req)) in
    posts <- ForumPost_find regexTest q [CreatedAtDesc]
               ((page - 1) * limit)%Z limit ;;
    total <- ForumPost_countDocuments regexTest q ;;
    ret (Json 200 (PostPage posts
           {| total := total; page := page; pages := Js.ceilDiv total limit |}))).

(** Add reply to post *)
Definition addReply (req : Request) : DB -> Response * DB :=
  handle (
    post <- ForumPost_findById (p_postId (params req)) ;;
    match post with
    | None => next (createError 404 "Post not found")
    | Some post =>
        found <- Course_findById (Some (courseId post)) ;;
        course <- deref found "enrolledStudents" ;;
        rejectIf (noAccess course (user_id (user req)))
          (createError 403 "You are not authorized to reply to this post") ;;;
        rid <- newObjectId ;;
        let reply := mkReply rid (user_id (user req)) (b_content (body req))
                       (Js.orElse (b_attachments (body req)) []) [] None in
        post_save (setReplies post (Js.push (replies post) reply)) ;;;
        found' <- ForumPost_findById (post_id post) ;;
        populatedPost <- deref found' "replies" ;;
        let newReply := last (map Some (replies populatedPost)) None in
        n <- Notification_new (author post) (replyMessage post (user req) course)
               "Forum Reply" false ;;
        Notification_save n ;;;
        ret (Json 201 (ReplyData newReply))
    end).

(** Update reply *)
Definition updateReply (req : Request) : DB -> Response * DB :=
  handle (
    post <- ForumPost_findById (p_postId (params req)) ;;
    match post with
    | None => next (createError 404 "Post not found")
    | Some post =>
        match replies_id (replies post) (p_replyId (params req)) with
        | None => next (createError 404 "Reply not found")
        | Some reply =>
            rejectIf (negb (idEq (reply_author reply) (user_id (user req))))
              (createError 403 "You are not authorized to update this reply") ;;;
            now <- Date_now ;;
            let reply' :=
              mkReply (reply_id reply) (reply_author reply)
                      (b_content (body req))
                      (Js.orElse (b_attachments (body req))
                                 (reply_attachments reply))
                      (reply_likes reply) (Some now) in
            post_save (setReplies post (replaceReply reply' (replies post))) ;;;
            ret (Json 200 (ReplyData (Some reply')))
        end
    end).

(** Delete reply *)
Definition deleteReply (req : Request) : DB -> Response * DB :=
  handle (
    post <- ForumPost_findById (p_postId (params req)) ;;
    match post with
    | None => next (createError 404 "Post not found")
    | Some post =>
        match replies_id (replies post) (p_replyId (params req)) with
        | None => next (createError 404 "Reply not found")
        | Some reply =>
            found <- Course_findById (Some (courseId post)) ;;
            denied <- (if negb (idEq (reply_author reply) (user_id (user req))) then
                         course <- deref found "instructor" ;;
                         ret (negb (idEq (instructor course) (user_id (user req))))
                       else ret false) ;;
            rejectIf denied
              (createError 403 "You are not authorized to delete this reply") ;;;
            post_save (setReplies post
                         (removeReply (reply_id reply) (replies post))) ;;;
            ret (Json 200 (Message "Reply deleted successfully"))
        end
    end).

End Controller.

(* ================================================================== *)
(** ** The router *)

Module ForumRoutes.

Inductive Method : Type := GET | POST | PUT | DELETE.

(** The exports of the controller a route can name. *)
Inductive Export : Type :=
| CreateForumPost | GetAllPosts | GetPostById | UpdatePost | DeletePost
| AddReply | UpdateReply | DeleteReply | GetCourseDiscussions
| ToggleLikePost | ToggleLikeReply | GetAnnouncements | CreateAnnouncement
| PinPost | GetMyPosts.

Inductive Middleware : Type :=
| authorizeRoles (roles : list string).

Record Route : Type := mkRoute {
  method : Method;
  pattern : string;
  guards : list Middleware;
  handler : Export
}.

(** The routes in the order [forumRouter] registers them, all behind
    [forumRouter.use(authenticateUser)]. *)
Definition forumRouter : list Route :=
  [ mkRoute GET "/course/:courseId" [] GetCourseDiscussions;
    mkRoute GET "/my-posts" [] GetMyPosts;
    mkRoute GET "/announcements" [] GetAnnouncements;
    mkRoute GET "/:postId" [] GetPostById;
    mkRoute POST "/create" [] CreateForumPost;
    mkRoute PUT "/:postId" [] UpdatePost;
    mkRoute DELETE "/:postId" [] DeletePost;
    mkRoute POST "/:postId/reply" [] AddReply;
    mkRoute PUT "/:postId/reply/:replyId" [] UpdateReply;
    mkRoute DELETE "/:postId/reply/:replyId" [] DeleteReply;
    mkRoute POST "/:postId/like" [] ToggleLikePost;
    mkRoute POST "/:postId/reply/:replyId/like" [] ToggleLikeReply;
    mkRoute POST "/announcement" [authorizeRoles ["Instructor"]] CreateAnnouncement;
    mkRoute PUT "/:postId/pin" [authorizeRoles ["Instructor"]] PinPost;
    mkRoute GET "/all" [authorizeRoles ["Instructor"]] GetAllPosts ].

Definition methodEq (a b : Method) : bool :=
  match a, b with
  | GET, GET | POST, POST | PUT, PUT | DELETE, DELETE => true
  | _, _ => false
  end.

(** The segments of a path between its slashes; empty ones are dropped, as
    the router is not strict about a trailing slash.  A path is taken to
    hold no two slashes in a row. *)
Fixpoint splitAcc (s : string) (cur : string) : list string :=
  match s with
  | EmptyString =>
      match cur with EmptyString => [] | _ => [cur] end
  | String c r =>
      if Ascii.eqb c "/"%char
      then match cur with
           | EmptyString => splitAcc r EmptyString
           | _ => cur :: splitAcc r EmptyString
           end
      else splitAcc r (cur ++ String c EmptyString)%string
  end.

Definition segments (s : string) : list string := splitAcc s EmptyString.

(** One pattern segment against one path segment: [:name] binds any
    segment, a literal matches up to case. *)
Definition matchSegment (pat seg : string) : option (list (string * string)) :=
  match pat with
  | String ":" name => Some [(name, seg)]
  | _ => if String.eqb (Js.toLowerCase pat) (Js.toLowerCase seg)
         then Some [] else None
  end.

Fixpoint matchSegments (pats segs : list string)
  : option (list (string * string)) :=
  match pats, segs with
  | [], [] => Some []
  | p :: ps, s :: ss =>
      match matchSegment p s, matchSegments ps ss with
      | Some b, Some bs => Some (b ++ bs)
      | _, _ => None
      end
  | _, _ => None
  end.

Definition matchRoute (r : Route) (m : Method) (url : string)
  : option (list (string * string)) :=
  if methodEq (method r) m
  then matchSegments (segments (pattern r)) (segments url)
  else None.

(** The first registered route that matches takes the request: no action
    of the controller calls [next()] without an error, so no later route
    is tried after it. *)
Fixpoint dispatchIn (rs : list Route) (m : Method) (url : string)
  : option (Route * list (string * string)) :=
  match rs with
  | [] => None
  | r :: rest =>
      match matchRoute r m url with
      | Some bs => Some (r, bs)
      | None => dispatchIn rest m url
      end
  end.

Definition dispatch (m : Method) (url : string)
  : option (Route * list (string * string)) :=
  dispatchIn forumRouter m url.

Fixpoint param (bs : list (string * string)) (name : string) : string :=
  match bs with
  | [] => EmptyString
  | (k, v) :: rest => if String.eqb k name then v else param rest name
  end.

(** [req.params] of the matched route, for path segments that hold no
    percent-encoded character. *)
Definition paramsOf (bs : list (string * string)) : Params :=
  {| p_postId := param bs "postId";
     p_replyId := param bs "replyId";
     p_courseId := param bs "courseId" |}.

Section Serve.

Variable regexTest : string -> string -> string -> bool.

(** The middleware [authorizeRoles] ([middleware/auth.js]) is not modelled:
    the error [authorizeRoles(roles)] hands to [next] for a user, if any, is
    a parameter. *)
Variable refusal : list string -> User -> option Error.

Definition controller (e : Export) : Request -> DB -> Response * DB :=
  match e with
  | CreateForumPost => createForumPost
  | GetAllPosts => getAllPosts regexTest
  | GetPostById => getPostById
  | UpdatePost => updatePost
  | DeletePost => deletePost
  | AddReply => addReply
  | UpdateReply => updateReply
  | DeleteReply => deleteReply
  | GetCourseDiscussions => getCourseDiscussions regexTest
  | ToggleLikePost => toggleLikePost
  | ToggleLikeReply => toggleLikeReply
  | GetAnnouncements => getAnnouncements regexTest
  | CreateAnnouncement => createAnnouncement
  | PinPost => pinPost
  | GetMyPosts => getMyPosts regexTest
  end.

(** The guards of a route run in order; the first refusal ends the
    request. *)
Fixpoint refused (u : User) (gs : list Middleware) : option Error :=
  match gs with
  | [] => None
  | authorizeRoles roles :: rest =>
      match refusal roles u with
      | Some e => Some e
      | None => refused u rest
      end
  end.

(** An authenticated request on the router: [None] when no route
    matches. *)
Definition serve (m : Method) (url : string) (u : User) (b : Body)
    (q : Query) (db : DB) : option (Response * DB) :=
  match dispatch m url with
  | None => None
  | Some (r, bs) =>
      match refused u (guards r) with
      | Some e => Some (Next e, db)
      | None =>
          Some (controller (handler r)
                  {| user := u; params := paramsOf bs; body := b; query := q |}
                  db)
      end
  end.

End Serve.

End ForumRoutes.

(* ================================================================== *)
(** ** A sample database *)

Module Sample.

(** A regular-expression engine for patterns without metacharacters: the
    pattern occurs in the subject, up to case under the option [i]. *)
Definition literalTest (pattern opts subject : string) : bool :=
  let fold := fun s => if String.eqb opts "i" then Js.toLowerCase s else s in
  match String.index 0 (fold pattern) (fold subject) with
  | Some _ => true
  | None => false
  end.

Definition alice : User :=
  {| user_id := "u1"; username := "alice"; role := Some "Student" |}.
Definition bob : User :=
  {| user_id := "u2"; username := "bob"; role := Some "Student" |}.
Definition ines : User :=
  {| user_id := "t1"; username := "ines"; role := Some "Instructor" |}.

Definition logic : Course :=
  {| course_id := "c1"; course_title := "Logic"; instructor := "t1";
     enrolledStudents := ["u1"; "u2"] |}.

Definition answer : Reply :=
  mkReply "r1" "u2" (Some "Next week") [] ["u1"; "u2"] None.

Definition examPost : ForumPost :=
  mkPost "p1" "c1" "u1" (Some "Exam dates") (Some "When is the exam?")
         (Some "Question") (Some ["exam"]) [] ["u1"; "u2"] [answer]
         (Some false) (Some false) 100.

Definition notesPost : ForumPost :=
  mkPost "p2" "c1" "u2" (Some "Lecture notes") (Some "Chapter 3 is missing")
         (Some "General") None [] [] [] None (Some false) 200.

(** A post whose course has been deleted. *)
Definition orphanPost : ForumPost :=
  mkPost "p3" "c9" "u1" (Some "Exam room") (Some "Which room?")
         (Some "Question") None [] [] [] None (Some false) 300.

Definition db : DB :=
  mkDB [examPost; notesPost; orphanPost] [logic] [] [] 1000 7.

Definition noBody : Body :=
  {| b_courseId := None; b_title := None; b_content := None;
     b_category := None; b_tags := None; b_attachments := None |}.

Definition noQuery : Query :=
  {| q_page := None; q_limit := None; q_search := None;
     q_category := None; q_courseId := None |}.

Definition onPost (u : User) (pid rid : ObjectId) (b : Body) : Request :=
  {| user := u;
     params := {| p_postId := pid; p_replyId := rid; p_courseId := EmptyString |};
     body := b; query := noQuery |}.

Definition edit : Body :=
  {| b_courseId := None; b_title := Some "Exam dates (updated)";
     b_content := Some "When and where is the exam?";
     b_category := Some "Question"; b_tags := Some ["exam"; "dates"];
     b_attachments := Some [] |}.

(** [examPost] once Alice has sent [edit]. *)
Definition editedPost : ForumPost :=
  mkPost "p1" "c1" "u1" (Some "Exam dates (updated)")
         (Some "When and where is the exam?") (Some "Question")
         (Some ["exam"; "dates"]) [] ["u1"; "u2"] [answer]
         (Some false) (Some false) 100.

(** The same database when the second write to come is rejected. *)
Definition flaky : DB :=
  mkDB [examPost; notesPost; orphanPost] [logic] [] [false; true] 1000 7.

Definition listing (u : User) (course : ObjectId) (q : Query) : Request :=
  {| user := u;
     params := {| p_postId := EmptyString; p_replyId := EmptyString;
                  p_courseId := course |};
     body := noBody; query := q |}.

Definition secondPage : Query :=
  {| q_page := Some 2%Z; q_limit := Some 1%Z; q_search := None;
     q_category := None; q_courseId := None |}.

Definition limitZero : Query :=
  {| q_page := Some 1%Z; q_limit := Some 0%Z; q_search := None;
     q_category := None; q_courseId := None |}.

Definition searchExam : Query :=
  {| q_page := None; q_limit := None; q_search := Some "exam";
     q_category := None; q_courseId := None |}.

Definition announcement : Body :=
  {| b_courseId := Some "c1"; b_title := Some "No lecture on Friday";
     b_content := Some "The lecture moves to Monday.";
     b_category := None; b_tags := None; b_attachments := None |}.

(** A general post for a course that does not exist. *)
Definition stray : Body :=
  {| b_courseId := Some "c404"; b_title := Some "Office hours";
     b_content := Some "Moved to Tuesday."; b_category := Some "General";
     b_tags := None; b_attachments := None |}.

Definition general : Body :=
  {| b_courseId := Some "c1"; b_title := Some "Office hours";
     b_content := Some "Moved to Tuesday."; b_category := Some "General";
     b_tags := None; b_attachments := None |}.

Definition question : Body :=
  {| b_courseId := Some "c1"; b_title := Some "Homework 2";
     b_content := Some "Is exercise 4 graded?";
     b_category := Some "Question"; b_tags := None;
     b_attachments := None |}.


Definition announcementsOf (course : option ObjectId) : Query :=
  {| q_page := None; q_limit := None; q_search := None;
     q_category := None; q_courseId := course |}.


(** Carol is neither enrolled in [c1] nor its instructor. *)
Definition carol : User :=
  {| user_id := "u3"; username := "carol"; role := Some "Student" |}.


Definition thanks : Body :=
  {| b_courseId := None; b_title := None; b_content := Some "Thanks!";
     b_category := None; b_tags := None; b_attachments := None |}.

Definition slides : Attachment :=
  {| filename := "slides.pdf"; url := "/files/slides.pdf" |}.

(** A reply with an attachment, and the post [p2] carrying it. *)
Definition pointer : Reply :=
  mkReply "r2" "u1" (Some "See the slides") [slides] ["u2"] None.



(** The course [c1] with a pinned post, the oldest of all, and a second post
    whose flag is false. *)
Definition pinnedPost : ForumPost :=
  mkPost "p5" "c1" "t1" (Some "Reading list") (Some "Read chapter 1 first.")
         (Some "Announcement") None [] [] [] (Some true) (Some true) 50.

Definition latePost : ForumPost :=
  mkPost "p6" "c1" "u1" (Some "Exam results") (Some "When are they out?")
         (Some "Question") None [] [] [] (Some false) (Some false) 500.

Definition pinned : DB :=
  mkDB [examPost; notesPost; pinnedPost; latePost] [logic] [] [] 1000 7.

(** The post [p2] when it holds the reply [r2] twice. *)
Definition twice : DB :=
  mkDB [examPost; setReplies notesPost [pointer; answer; pointer]; orphanPost]
       [logic] [] [] 1000 7.



(** An announcement of Ines in [c1], and the database holding it. *)
Definition noticePost : ForumPost :=
  mkPost "p4" "c1" "t1" (Some "No lecture on Friday")
         (Some "The lecture moves to Monday.") (Some "Announcement") None
         [] [] [] None None 400.

Definition db3 : DB :=
  mkDB [examPost; notesPost; orphanPost; noticePost] [logic] [] [] 1000 7.


(** Ids as the database prints them. *)
Definition postOid : ObjectId := "64b7f1c2a9e4d3001f5e8a01".
Definition replyOid : ObjectId := "64b7f1c2a9e4d3001f5e8a02".
Definition courseOid : ObjectId := "64b7f1c2a9e4d3001f5e8a03".


(** Alice turns her question into an announcement. *)
Definition promote : Body :=
  {| b_courseId := None; b_title := None; b_content := None;
     b_category := Some "Announcement"; b_tags := None; b_attachments := None |}.

End Sample.

(* ================================================================== *)
(** ** Vocabulary of the statements *)

(** [r] is the page [p] of size [l] of the posts of [db] that match [f],
    sorted by [keys]: the posts after the first [(p - 1) * l], at most [l] of
    them, with the number of matching posts as [total] and its quotient by
    [l], rounded up, as [pages]. *)
Definition isPage (rx : string -> string -> string -> bool) (db : DB)
    (f : Filter) (keys : list SortKey) (p l : Z) (r : Response) : Prop :=
  exists data k,
    r = Json 200 (PostPage data
          {| total := Z.of_nat (List.length (matchSet rx f (posts db)));
             page := p; pages := Js.Finite k |})
    /\ data = firstn (Z.to_nat l)
                (skipn (Z.to_nat ((p - 1) * l))
                   (sortPosts keys (matchSet rx f (posts db))))
    /\ (List.length data <= Z.to_nat l)%nat
    /\ (l * (k - 1) < Z.of_nat (List.length (matchSet rx f (posts db))) <= l * k)%Z.

(** The pattern [s] matches the title or the content of [p], ignoring case. *)
Definition searchHit (rx : string -> string -> string -> bool) (s : string)
    (p : ForumPost) : Prop :=
  (exists t, title p = Some t /\ rx s "i" t = true)
  \/ (exists c, content p = Some c /\ rx s "i" c = true).

(** [db'] is [db] with the post named by [req] replaced, where it stands,
    by the post [data] carries.  Of the title, content, category, tags and
    attachments that post has the value the body supplies, and the value of
    the stored post where the body supplies none; its other fields are those
    of the stored post. *)
Definition updatesInPlace (req : Request) (db db' : DB) (data : Payload) : Prop :=
  exists post post' before after,
    data = UpdatedPost (Some post')
    /\ posts db = before ++ post :: after
    /\ posts db' = before ++ post' :: after
    /\ post_id post = p_postId (params req)
    /\ Forall (fun q => post_id q <> p_postId (params req)) before
    /\ ((forall v, b_title (body req) = Some v -> title post' = Some v)
        /\ (forall v, b_content (body req) = Some v -> content post' = Some v)
        /\ (forall v, b_category (body req) = Some v -> category post' = Some v)
        /\ (forall v, b_tags (body req) = Some v -> tags post' = Some v)
        /\ (forall v, b_attachments (body req) = Some v -> attachments post' = v))
    /\ ((b_title (body req) = None -> title post' = title post)
        /\ (b_content (body req) = None -> content post' = content post)
        /\ (b_category (body req) = None -> category post' = category post)
        /\ (b_tags (body req) = None -> tags post' = tags post)
        /\ (b_attachments (body req) = None -> attachments post' = attachments post))
    /\ (post_id post' = post_id post
        /\ author post' = author post
        /\ courseId post' = courseId post
        /\ likes post' = likes post
        /\ replies post' = replies post
        /\ isPinned post' = isPinned post
        /\ isAnnouncement post' = isAnnouncement post
        /\ createdAt post' = createdAt post)
    /\ courses db' = courses db
    /\ notifications db' = notifications db.

(** The notifications of one announcement: one for each enrolled student,
    then one for the instructor. *)
Definition announcementNotifications (c : Course) (ttl : option string) (now : Z)
  : list Notification.t :=
  map (studentNotification c ttl now) (enrolledStudents c)
  ++ [Notification.make (instructor c) (instructorAnnouncementMessage c ttl)
        "Announcement" false now].

(** The likes list after one toggle by [uid], as both like actions compute
    it. *)
Definition toggled (ls : list ObjectId) (uid : ObjectId) : list ObjectId :=
  if (Js.indexOf ls uid =? -1)%Z
  then Js.push ls uid
  else Js.splice ls (Js.indexOf ls uid) 1.

(** The likes list the database holds for a post, and for a reply of a
    post. *)
Definition storedLikes (pid : ObjectId) (db : DB) : option (list ObjectId) :=
  option_map likes (find (fun p => idEq (post_id p) pid) (posts db)).

Definition storedReplyLikes (pid rid : ObjectId) (db : DB)
  : option (list ObjectId) :=
  match find (fun p => idEq (post_id p) pid) (posts db) with
  | Some p => option_map reply_likes (replies_id (replies p) rid)
  | None => None
  end.

(** What one and two applications of the like action [act] by [uid] do to
    the likes list [ls] that [stored] reads in [db]. *)
Definition togglesLikes (uid : ObjectId) (stored : DB -> option (list ObjectId))
    (act : DB -> Response * DB) (db : DB) (ls : list ObjectId) : Prop :=
  (~ In uid ls ->
     fst (act db) = Json 200 (LikeData (List.length ls + 1) true)
     /\ stored (snd (act db)) = Some (ls ++ [uid]))
  /\ (In uid ls ->
       exists l1 l2,
         ls = l1 ++ uid :: l2 /\ ~ In uid l1
         /\ fst (act db) = Json 200 (LikeData (List.length ls - 1) false)
         /\ stored (snd (act db)) = Some (l1 ++ l2))
  /\ (NoDup ls ->
       exists ls2,
         stored (snd (act (snd (act db)))) = Some ls2
         /\ Permutation ls2 ls
         /\ (~ In uid ls -> ls2 = ls)).

(** The orders of the listings.  Newest first; and, for the discussions of
    a course, the pinned posts, then the posts whose flag [isPinned] is
    false, then the posts that have no such flag (a descending sort puts a
    missing value last), newest first within each of the three groups. *)
Definition newestFirst (a b : ForumPost) : Prop :=
  (createdAt b <= createdAt a)%Z.

Definition pinnedThenNewest (a b : ForumPost) : Prop :=
  match isPinned a, isPinned b with
  | Some true, Some true => (createdAt b <= createdAt a)%Z
  | Some true, _ => True
  | Some false, Some true => False
  | Some false, Some false => (createdAt b <= createdAt a)%Z
  | Some false, None => True
  | None, Some _ => False
  | None, None => (createdAt b <= createdAt a)%Z
  end.

(** The requester is the instructor of the course a post belongs to. *)
Definition instructsCourseOf (db : DB) (post : ForumPost) (uid : ObjectId) : Prop :=
  exists course,
    find (fun c => idEq (course_id c) (courseId post)) (courses db) = Some course
    /\ instructor course = uid.

(** [db'] is [db] without the post named [pid], the first of that name;
    [post] is that post. *)
Definition removesPost (pid : ObjectId) (post : ForumPost) (db db' : DB) : Prop :=
  exists before after,
    posts db = before ++ post :: after
    /\ post_id post = pid
    /\ Forall (fun q => post_id q <> pid) before
    /\ posts db' = before ++ after
    /\ courses db' = courses db
    /\ notifications db' = notifications db.

(** [db'] is [db] with the post named [pid] replaced, where it stands, by
    [post']; [post] is the post it replaces. *)
Definition replacesPost (pid : ObjectId) (post post' : ForumPost) (db db' : DB)
  : Prop :=
  exists before after,
    posts db = before ++ post :: after
    /\ post_id post = pid
    /\ Forall (fun q => post_id q <> pid) before
    /\ posts db' = before ++ post' :: after
    /\ courses db' = courses db.

(** The flag [isPinned] the database holds for a post. *)
Definition storedPinned (pid : ObjectId) (db : DB) : option (option bool) :=
  option_map isPinned (find (fun p => idEq (post_id p) pid) (posts db)).

(** [post'] is [post] without the replies named [rid]: [reply] is the first
    of them, the replies before it stay, and of the replies after it those
    of another name stay, in their order.  Where [reply] is the only reply
    of that name, [post'] is [post] with [reply] taken out. *)
Definition removesReply (rid : ObjectId) (reply : Reply) (post post' : ForumPost)
  : Prop :=
  exists before after,
    replies post = before ++ reply :: after
    /\ reply_id reply = rid
    /\ Forall (fun r => reply_id r <> rid) before
    /\ post' = setReplies post
                 (before ++ filter (fun r => negb (String.eqb (reply_id r) rid)) after)
    /\ (Forall (fun r => reply_id r <> rid) after ->
        post' = setReplies post (before ++ after)).


(** The answer is a schema validation error. *)
Definition isValidationError (r : Response) : bool :=
  match r with
  | Next (ValidationError _) => true
  | _ => false
  end.

(* ================================================================== *)
(** ** The chat router *)

Module ChatRoutes.

(** The exports of the chat controller the router names. *)
Inductive Export : Type :=
| GetConversation | GetRecentConversations | MarkAsRead | GetUnreadCount
| DeleteMessage | GetCourseParticipants.

Record Route : Type := mkRoute {
  method : ForumRoutes.Method;
  pattern : string;
  handler : Export
}.

(** The routes in the order [chatRouter] registers them, all behind
    [chatRouter.use(authenticateUser)]. *)
Definition chatRouter : list Route :=
  [ mkRoute ForumRoutes.GET "/conversation/:courseId/:userId" GetConversation;
    mkRoute ForumRoutes.GET "/recent/:courseId" GetRecentConversations;
    mkRoute ForumRoutes.PUT "/read/:messageId" MarkAsRead;
    mkRoute ForumRoutes.GET "/unread" GetUnreadCount;
    mkRoute ForumRoutes.DELETE "/:messageId" DeleteMessage;
    mkRoute ForumRoutes.GET "/participants/:courseId" GetCourseParticipants ].

Definition matchRoute (r : Route) (m : ForumRoutes.Method) (url : string)
  : option (list (string * string)) :=
  if ForumRoutes.methodEq (method r) m
  then ForumRoutes.matchSegments (ForumRoutes.segments (pattern r))
         (ForumRoutes.segments url)
  else None.

Fixpoint dispatchIn (rs : list Route) (m : ForumRoutes.Method) (url : string)
  : option (Route * list (string * string)) :=
  match rs with
  | [] => None
  | r :: rest =>
      match matchRoute r m url with
      | Some bs => Some (r, bs)
      | None => dispatchIn rest m url
      end
  end.

Definition dispatch (m : ForumRoutes.Method) (url : string)
  : option (Route * list (string * string)) :=
  dispatchIn chatRouter m url.

End ChatRoutes.

(* ================================================================== *)
(** ** The client *)

(** [ForumService], the calls the client makes with axios.  A call is given
    by its method, its URL up to the query string, its search parameters and
    the data it sends; the [Authorization] header, which carries the token of
    the session, is left out. *)
Module ForumService.

Definition API_URL : string := "http://localhost:5000/api".

Record Call : Type := mkCall {
  verb : ForumRoutes.Method;
  url : string;
  search : list (string * string);
  data : option Body
}.

(** [Number.prototype.toString] on an integer below [10 ^ 21], which is
    printed in decimal digits. *)
Definition toString (n : Z) : string := NilZero.string_of_int (Z.to_int n).

(** [...(v && { key: v })] in the object given to [URLSearchParams]. *)
Definition optional (key : string) (v : option string) : list (string * string) :=
  if Js.truthy v then [(key, Js.orElse v EmptyString)] else [].

Definition withCategory (b : Body) (c : option string) : Body :=
  {| b_courseId := b_courseId b; b_title := b_title b; b_content := b_content b;
     b_category := c; b_tags := b_tags b; b_attachments := b_attachments b |}.

(** The empty object [{}]. *)
Definition nothing : Body :=
  {| b_courseId := None; b_title := None; b_content := None;
     b_category := None; b_tags := None; b_attachments := None |}.

(** Get course discussions with pagination and filters *)
Definition getCourseDiscussions (courseId : string) (page limit : option Z)
    (category search : option string) : Call :=
  mkCall ForumRoutes.GET (API_URL ++ "/forum/course/" ++ courseId)%string
    ([("page", toString (Js.orElse page 1%Z));
      ("limit", toString (Js.orElse limit 10%Z))]
     ++ optional "category" category ++ optional "search" search)
    None.

(** Create a new forum post: for an instructor the category is forced to
    [Announcement].  [sessionRole] is [sessionStorage.getItem('role')]. *)
Definition createPost (sessionRole : option string) (d : Body) : Call :=
  let userRole := Js.toLowerCase (Js.orElse sessionRole EmptyString) in
  let postData :=
    if String.eqb userRole "instructor"
    then withCategory d (Some "Announcement") else d in
  mkCall ForumRoutes.POST (API_URL ++ "/forum/create")%string [] (Some postData).

(** Get a specific post by ID *)
Definition getPostById (postId : string) : Call :=
  mkCall ForumRoutes.GET (API_URL ++ "/forum/" ++ postId)%string [] None.

(** Update a forum post *)
Definition updatePost (postId : string) (d : Body) : Call :=
  mkCall ForumRoutes.PUT (API_URL ++ "/forum/" ++ postId)%string [] (Some d).

(** Delete a forum post *)
Definition deletePost (postId : string) : Call :=
  mkCall ForumRoutes.DELETE (API_URL ++ "/forum/" ++ postId)%string [] None.

(** Add a reply to a post *)
Definition addReply (postId : string) (d : Body) : Call :=
  mkCall ForumRoutes.POST (API_URL ++ "/forum/" ++ postId ++ "/reply")%string
    [] (Some d).

(** Update a reply *)
Definition updateReply (postId replyId : string) (d : Body) : Call :=
  mkCall ForumRoutes.PUT
    (API_URL ++ "/forum/" ++ postId ++ "/reply/" ++ replyId)%string [] (Some d).

(** Delete a reply *)
Definition deleteReply (postId replyId : string) : Call :=
  mkCall ForumRoutes.DELETE
    (API_URL ++ "/forum/" ++ postId ++ "/reply/" ++ replyId)%string [] None.

(** Toggle like on a post *)
Definition toggleLikePost (postId : string) : Call :=
  mkCall ForumRoutes.POST (API_URL ++ "/forum/" ++ postId ++ "/like")%string
    [] (Some nothing).

(** Toggle like on a reply *)
Definition toggleLikeReply (postId replyId : string) : Call :=
  mkCall ForumRoutes.POST
    (API_URL ++ "/forum/" ++ postId ++ "/reply/" ++ replyId ++ "/like")%string
    [] (Some nothing).

(** Get announcements (optionally filtered by course) *)
Definition getAnnouncements (courseId : option string) : Call :=
  mkCall ForumRoutes.GET (API_URL ++ "/forum/announcements")%string
    (optional "courseId" courseId) None.

(** Create an announcement (instructor only) *)
Definition createAnnouncement (d : Body) : Call :=
  mkCall ForumRoutes.POST (API_URL ++ "/forum/announcement")%string [] (Some d).

(** Pin/Unpin a post (instructor only) *)
Definition togglePinPost (postId : string) : Call :=
  mkCall ForumRoutes.PUT (API_URL ++ "/forum/" ++ postId ++ "/pin")%string
    [] (Some nothing).

(** Get user's own posts *)
Definition getMyPosts (page limit : option Z) : Call :=
  mkCall ForumRoutes.GET (API_URL ++ "/forum/my-posts")%string
    [("page", toString (Js.orElse page 1%Z));
     ("limit", toString (Js.orElse limit 10%Z))]
    None.

(** Get all posts (admin/instructor only) *)
Definition getAllPosts (page limit : option Z) (search : option string) : Call :=
  mkCall ForumRoutes.GET (API_URL ++ "/forum/all")%string
    ([("page", toString (Js.orElse page 1%Z));
      ("limit", toString (Js.orElse limit 10%Z))]
     ++ optional "search" search)
    None.

End ForumService.

(** The client against the router.  The application is taken to mount the
    forum router at [/forum] under [API_URL], where the URLs of the client
    look for it. *)
Module Wiring.

Definition mount : string := (ForumService.API_URL ++ "/forum")%string.

(** What is left of [s] after the prefix [pre]. *)
Fixpoint afterPrefix (pre s : string) : option string :=
  match pre, s with
  | EmptyString, _ => Some s
  | String c p, String d r => if Ascii.eqb c d then afterPrefix p r else None
  | String _ _, EmptyString => None
  end.

(** The path of a call below the mount point. *)
Definition pathOf (c : ForumService.Call) : option string :=
  afterPrefix mount (ForumService.url c).

(** The action a call of the client reaches, with its [req.params]. *)
Definition reaches (c : ForumService.Call) : option (ForumRoutes.Export * Params) :=
  match pathOf c with
  | None => None
  | Some path =>
      match ForumRoutes.dispatch (ForumService.verb c) path with
      | Some (r, bs) => Some (ForumRoutes.handler r, ForumRoutes.paramsOf bs)
      | None => None
      end
  end.

(** The request the server sees for a call that sends data, made by [u]. *)
Definition requestOf (u : User) (c : ForumService.Call) (ps : Params) : Request :=
  {| user := u; params := ps;
     body := Js.orElse (ForumService.data c) ForumService.nothing;
     query := {| q_page := None; q_limit := None; q_search := None;
                 q_category := None; q_courseId := None |} |}.

(** An ObjectId in print: twenty-four hexadecimal digits. *)
Definition isHexDigit (c : ascii) : bool :=
  let n := nat_of_ascii c in
  ((48 <=? n)%nat && (n <=? 57)%nat)
  || ((97 <=? n)%nat && (n <=? 102)%nat)
  || ((65 <=? n)%nat && (n <=? 70)%nat).

Definition isObjectId (s : string) : bool :=
  (String.length s =? 24)%nat && forallb isHexDigit (list_ascii_of_string s).

End Wiring.

(** The answer carries the status [n]. *)
Definition hasStatus (n : nat) (r : Response) : bool :=
  match r with
  | Json s _ => Nat.eqb s n
  | Next (HttpError s _) => Nat.eqb s n
  | Next _ => false
  end.

(* ================================================================== *)
(** * Properties *)

(** ** Reasoning about actions *)

Ltac unfold_action :=
  cbv beta iota delta
    [handle bind ret next rejectIf deref
     ForumPost_findById Course_findById ForumPost_findByIdAndUpdate
     ForumPost_create post_save post_remove
     Notification_new Notification_save Notification_insertMany
     ForumPost_find ForumPost_countDocuments
     getPosts getCourses getNotifications setPosts setNotifications
     Date_now newObjectId] in *.

Lemma idEq_refl (a : ObjectId) : idEq a a = true.
Proof. apply String.eqb_refl. Qed.

Lemma idEq_true (a b : ObjectId) : idEq a b = true <-> a = b.
Proof. apply String.eqb_eq. Qed.

Lemma idEq_false (a b : ObjectId) : idEq a b = false <-> a <> b.
Proof. apply String.eqb_neq. Qed.

(** A write that is not rejected leaves the three collections as they are. *)
Lemma write_ok (db : DB) :
  writeOk db = true ->
  exists db', write db = (Go tt, db')
              /\ posts db' = posts db /\ courses db' = courses db
              /\ notifications db' = notifications db
              /\ clock db' = clock db /\ nextId db' = nextId db
              /\ rejects db' = tl (rejects db).
Proof.
  unfold writeOk, write. destruct (rejects db) as [|[] rest] eqn:E; intros H.
  - exists db. rewrite E. auto 10.
  - discriminate.
  - eexists. split; [reflexivity|]. simpl. auto 10.
Qed.

(** ** Where a document stands in its collection *)

Lemma find_post_split (id : ObjectId) (ps : list ForumPost) (post : ForumPost) :
  find (fun p => idEq (post_id p) id) ps = Some post ->
  exists before after,
    ps = before ++ post :: after
    /\ post_id post = id
    /\ Forall (fun q => post_id q <> id) before.
Proof.
  induction ps as [|q ps IH]; simpl; [discriminate|].
  destruct (idEq (post_id q) id) eqn:E; intros H.
  - injection H as ->. apply idEq_true in E.
    exists [], ps. auto.
  - destruct (IH H) as (before & after & -> & Hid & Hall).
    apply idEq_false in E.
    exists (q :: before), after. auto.
Qed.

Lemma replacePost_split (p' : ForumPost) (before after : list ForumPost)
    (post : ForumPost) :
  post_id post = post_id p' ->
  Forall (fun q => post_id q <> post_id p') before ->
  replacePost p' (before ++ post :: after) = before ++ p' :: after.
Proof.
  intros Hid Hall. induction Hall as [|q before Hq _ IH]; simpl.
  - now rewrite Hid, idEq_refl.
  - apply idEq_false in Hq. now rewrite Hq, IH.
Qed.

Lemma find_reply_split (id : ObjectId) (rs : list Reply) (reply : Reply) :
  replies_id rs id = Some reply ->
  exists before after,
    rs = before ++ reply :: after
    /\ reply_id reply = id
    /\ Forall (fun r => reply_id r <> id) before.
Proof.
  unfold replies_id. induction rs as [|q rs IH]; simpl; [discriminate|].
  destruct (idEq (reply_id q) id) eqn:E; intros H.
  - injection H as ->. apply idEq_true in E. exists [], rs. auto.
  - destruct (IH H) as (before & after & -> & Hid & Hall).
    apply idEq_false in E. exists (q :: before), after. auto.
Qed.


Lemma replacePost_in_place (pid : ObjectId) (post post' : ForumPost) (db : DB) :
  find (fun p => idEq (post_id p) pid) (posts db) = Some post ->
  post_id post' = post_id post ->
  forall db',
    posts db' = replacePost post' (posts db) ->
    courses db' = courses db ->
    replacesPost pid post post' db db'.
Proof.
  intros Hf Hid db' Hp Hc.
  destruct (find_post_split _ _ Hf) as (before & after & Hps & Hpid & Hall).
  exists before, after. repeat (split; [assumption|]).
  split; [|exact Hc].
  rewrite Hp, Hps. apply replacePost_split; rewrite Hid, Hpid; auto.
Qed.

(** The post [updatePost] stores: field by field, what the update document
    built from the body [b] makes of [post]. *)
Lemma updated_fields (b : Body) (post : ForumPost) :
  let post' := applyUpdate {| u_title := b_title b; u_content := b_content b;
                              u_category := b_category b; u_tags := b_tags b;
                              u_attachments := b_attachments b |} post in
  ((forall v, b_title b = Some v -> title post' = Some v)
   /\ (forall v, b_content b = Some v -> content post' = Some v)
   /\ (forall v, b_category b = Some v -> category post' = Some v)
   /\ (forall v, b_tags b = Some v -> tags post' = Some v)
   /\ (forall v, b_attachments b = Some v -> attachments post' = v))
  /\ ((b_title b = None -> title post' = title post)
      /\ (b_content b = None -> content post' = content post)
      /\ (b_category b = None -> category post' = category post)
      /\ (b_tags b = None -> tags post' = tags post)
      /\ (b_attachments b = None -> attachments post' = attachments post))
  /\ (post_id post' = post_id post
      /\ author post' = author post
      /\ courseId post' = courseId post
      /\ likes post' = likes post
      /\ replies post' = replies post
      /\ isPinned post' = isPinned post
      /\ isAnnouncement post' = isAnnouncement post
      /\ createdAt post' = createdAt post).
Proof.
  simpl. split; [repeat split; intros v ->; reflexivity|].
  split; [repeat split; intros ->; reflexivity|repeat split].
Qed.

Lemma updatePost_in_place (req : Request) (db db' : DB) (post : ForumPost) :
  find (fun p => idEq (post_id p) (p_postId (params req))) (posts db) = Some post ->
  posts db'
  = replacePost
      (applyUpdate {| u_title := b_title (body req);
                      u_content := b_content (body req);
                      u_category := b_category (body req);
                      u_tags := b_tags (body req);
                      u_attachments := b_attachments (body req) |} post)
      (posts db) ->
  courses db' = courses db ->
  notifications db' = notifications db ->
  updatesInPlace req db db'
    (UpdatedPost (Some
       (applyUpdate {| u_title := b_title (body req);
                       u_content := b_content (body req);
                       u_category := b_category (body req);
                       u_tags := b_tags (body req);
                       u_attachments := b_attachments (body req) |} post))).
Proof.
  intros Hf Hp Hc Hn.
  destruct (find_post_split _ _ Hf) as (before & after & Hps & Hid & Hall).
  destruct (updated_fields (body req) post) as (Hset & Hkeep & Hrest).
  exists post. eexists. exists before, after.
  split; [reflexivity|]. split; [exact Hps|].
  split; [rewrite Hp, Hps; apply replacePost_split; simpl;
          [reflexivity|rewrite Hid; exact Hall]|].
  split; [exact Hid|]. split; [exact Hall|].
  split; [exact Hset|]. split; [exact Hkeep|]. split; [exact Hrest|].
  split; assumption.
Qed.

(** ** C1: only the author may edit *)

Section AuthorOnly.

Variables (req : Request) (db : DB) (post : ForumPost).

Hypothesis post_found :
  find (fun p => idEq (post_id p) (p_postId (params req))) (posts db) = Some post.

Let uid : ObjectId := user_id (user req).







End AuthorOnly.


(** ** C2: a looked-up course is read without an existence check *)

Section MissingCourse.

Variables (req : Request) (db : DB) (post : ForumPost).

Hypothesis post_found :
  find (fun p => idEq (post_id p) (p_postId (params req))) (posts db) = Some post.

Hypothesis course_missing :
  find (fun c => idEq (course_id c) (courseId post)) (courses db) = None.

Lemma getPostById_missing_course :
  getPostById req db
  = (Next (TypeError "Cannot read properties of null (reading 'enrolledStudents')"),
     db).
Proof.
  unfold getPostById. unfold_action. rewrite post_found, course_missing.
  reflexivity.
Qed.

Lemma addReply_missing_course :
  addReply req db
  = (Next (TypeError "Cannot read properties of null (reading 'enrolledStudents')"),
     db).
Proof.
  unfold addReply. unfold_action. rewrite post_found, course_missing.
  reflexivity.
Qed.

Lemma deletePost_missing_course :
  author post <> user_id (user req) ->
  deletePost req db
  = (Next (TypeError "Cannot read properties of null (reading 'instructor')"), db).
Proof.
  intros Hne. apply idEq_false in Hne.
  unfold deletePost. unfold_action. rewrite post_found, course_missing, Hne.
  reflexivity.
Qed.

Lemma pinPost_missing_course :
  pinPost req db
  = (Next (TypeError "Cannot read properties of null (reading 'instructor')"), db).
Proof.
  unfold pinPost. unfold_action. rewrite post_found, course_missing.
  reflexivity.
Qed.

(** C2.  When the post exists and the course it names does not,
    [getPostById] and [addReply] read [enrolledStudents] of null and
    [deletePost] (for a requester who is not the author) and [pinPost] read
    [instructor] of null: the action ends in a [TypeError] handed to [next],
    not in a 404 error. *)
Theorem missing_course_is_dereferenced :
  getPostById req db
  = (Next (TypeError "Cannot read properties of null (reading 'enrolledStudents')"),
     db)
  /\ addReply req db
     = (Next (TypeError "Cannot read properties of null (reading 'enrolledStudents')"),
        db)
  /\ (author post <> user_id (user req) ->
      deletePost req db
      = (Next (TypeError "Cannot read properties of null (reading 'instructor')"),
         db))
  /\ pinPost req db
     = (Next (TypeError "Cannot read properties of null (reading 'instructor')"),
        db).
Proof.
  split; [exact getPostById_missing_course|].
  split; [exact addReply_missing_course|].
  split; [exact deletePost_missing_course|exact pinPost_missing_course].
Qed.

End MissingCourse.

(** Bob asks for, replies to and deletes Alice's post [p3], whose course
    [c9] is gone. *)
Lemma missing_course_is_dereferenced_witness :
  getPostById (Sample.onPost Sample.bob "p3" EmptyString Sample.noBody) Sample.db
  = (Next (TypeError "Cannot read properties of null (reading 'enrolledStudents')"),
     Sample.db)
  /\ deletePost (Sample.onPost Sample.bob "p3" EmptyString Sample.noBody) Sample.db
     = (Next (TypeError "Cannot read properties of null (reading 'instructor')"),
        Sample.db).
Proof.
  pose proof (@missing_course_is_dereferenced
                (Sample.onPost Sample.bob "p3" EmptyString Sample.noBody)
                Sample.db Sample.orphanPost eq_refl eq_refl) as (H1 & _ & H3 & _).
  split; [exact H1|]. apply H3. discriminate.
Defined.

(** The actions that do test the course answer 404 when it is missing. *)
Lemma missing_course_404 (rx : string -> string -> string -> bool)
    (req : Request) (db : DB) :
  (find (fun c => idEq (course_id c) (p_courseId (params req))) (courses db) = None ->
   getCourseDiscussions rx req db
   = (Next (HttpError 404 "Course not found"), db))
  /\ ((forall cid, b_courseId (body req) = Some cid ->
         find (fun c => idEq (course_id c) cid) (courses db) = None) ->
      createForumPost req db = (Next (HttpError 404 "Course not found"), db)
      /\ createAnnouncement req db = (Next (HttpError 404 "Course not found"), db)).
Proof.
  split.
  - intros H. unfold getCourseDiscussions. unfold_action. rewrite H. reflexivity.
  - intros H. unfold createForumPost, createAnnouncement. unfold_action.
    destruct (b_courseId (body req)) as [cid|]; [rewrite (H cid eq_refl)|];
      split; reflexivity.
Qed.

(** ** C3: the post is stored before the notification is attempted *)

Section NotAtomic.

Variables (req : Request) (db : DB) (course : Course) (cid : ObjectId).

Let uid : ObjectId := user_id (user req).
Let b : Body := body req.

(** The post [createForumPost] stores in [db]. *)
Let created : ForumPost :=
  mkPost (NilZero.string_of_uint (Nat.to_uint (nextId db))) cid uid
         (b_title b) (b_content b) (b_category b) (b_tags b)
         (Js.orElse (b_attachments b) []) [] [] None
         (Some (isString (b_category b) "Announcement")) (clock db).

Hypothesis course_named : b_courseId b = Some cid.
Hypothesis course_found :
  find (fun c => idEq (course_id c) cid) (courses db) = Some course.
Hypothesis category_allowed :
  isInstructorRole (role (user req)) = isString (b_category b) "Announcement".
Hypothesis not_instructor_of_course : instructor course <> uid.

(** C3.  When the write of the post succeeds and the write of the
    instructor's notification is rejected, [createForumPost] hands the
    error to [next] and leaves a database that holds the new post and no
    new notification. *)
Theorem post_survives_failed_notification (rest : list bool) :
  rejects db = false :: true :: rest ->
  exists db',
    createForumPost req db = (Next (MongoError "write rejected"), db')
    /\ posts db' = posts db ++ [created]
    /\ notifications db' = notifications db.
Proof.
  intros Hr. subst uid b created.
  apply idEq_false in not_instructor_of_course.
  unfold createForumPost. unfold_action.
  rewrite course_named, course_found.
  replace (negb (isString (b_category (body req)) "Announcement"))
    with (negb (isInstructorRole (role (user req))))
    by (now rewrite category_allowed).
  rewrite <- category_allowed.
  destruct (isInstructorRole (role (user req))); simpl;
    unfold write; rewrite Hr; simpl; rewrite not_instructor_of_course; simpl;
    eexists; (split; [reflexivity|]); simpl; auto.
Qed.

End NotAtomic.

(** Alice posts a question in her course while the notification write
    fails. *)
Lemma post_survives_failed_notification_witness :
  exists db',
    createForumPost (Sample.onPost Sample.alice EmptyString EmptyString Sample.question)
                    Sample.flaky
    = (Next (MongoError "write rejected"), db')
    /\ posts db'
       = posts Sample.flaky
         ++ [mkPost "7" "c1" "u1" (Some "Homework 2") (Some "Is exercise 4 graded?")
                    (Some "Question") None [] [] [] None (Some false) 1000%Z]
    /\ notifications db' = [].
Proof.
  refine (@post_survives_failed_notification
            (Sample.onPost Sample.alice EmptyString EmptyString Sample.question)
            Sample.flaky Sample.logic "c1" eq_refl eq_refl eq_refl _ [] eq_refl).
  discriminate.
Defined.

(** ** C4: pagination *)

Lemma insertSorted_perm (keys : list SortKey) (x : ForumPost) (l : list ForumPost) :
  Permutation (insertSorted keys x l) (x :: l).
Proof.
  induction l as [|y l IH]; simpl; [reflexivity|].
  destruct (before keys x y); [reflexivity|].
  rewrite IH. apply perm_swap.
Qed.

Lemma sortPosts_perm (keys : list SortKey) (l : list ForumPost) :
  Permutation (sortPosts keys l) l.
Proof.
  induction l as [|x l IH]; simpl; [reflexivity|].
  rewrite insertSorted_perm. now constructor.
Qed.

Lemma sortPosts_length (keys : list SortKey) (l : list ForumPost) :
  List.length (sortPosts keys l) = List.length l.
Proof. apply Permutation_length, sortPosts_perm. Qed.

Lemma ceilDiv_pos (a b : Z) :
  (0 <= a)%Z -> (1 <= b)%Z ->
  exists k, Js.ceilDiv a b = Js.Finite k /\ (b * (k - 1) < a <= b * k)%Z.
Proof.
  intros Ha Hb. unfold Js.ceilDiv.
  destruct (Z.eqb_spec b 0) as [->|_]; [lia|].
  eexists. split; [reflexivity|].
  pose proof (Z.div_mod (- a) b ltac:(lia)) as E.
  pose proof (Z.mod_pos_bound (- a) b ltac:(lia)) as B.
  nia.
Qed.

Lemma skipLimit_pos {A : Type} (s l : Z) (xs : list A) :
  (1 <= l)%Z ->
  skipLimit s l xs = firstn (Z.to_nat l) (skipn (Z.to_nat s) xs).
Proof.
  intros Hl. unfold skipLimit.
  destruct (Z.eqb_spec l 0) as [->|_]; [lia|].
  now rewrite Z.abs_eq by lia.
Qed.

(** What [find] with [skip], [limit] and [sort], then [countDocuments] and
    the response give for a page [p >= 1] of size [l >= 1]. *)
Lemma find_then_count (rx : string -> string -> string -> bool) (db : DB)
    (p l : Z) (f : Filter) (keys : list SortKey) :
  (1 <= p)%Z -> (1 <= l)%Z ->
  isPage rx db f keys p l
    (fst (handle (
       posts <- ForumPost_find rx f keys ((p - 1) * l)%Z l ;;
       total <- ForumPost_countDocuments rx f ;;
       ret (Json 200 (PostPage posts
              {| total := total; page := p; pages := Js.ceilDiv total l |}))) db))
  /\ snd (handle (
       posts <- ForumPost_find rx f keys ((p - 1) * l)%Z l ;;
       total <- ForumPost_countDocuments rx f ;;
       ret (Json 200 (PostPage posts
              {| total := total; page := p; pages := Js.ceilDiv total l |}))) db)
     = db.
Proof.
  intros Hp Hl. unfold_action.
  destruct (Z.ltb_spec ((p - 1) * l) 0) as [Hneg|_]; [nia|].
  cbn [fst snd]. split; [|reflexivity].
  destruct (ceilDiv_pos (a := Z.of_nat (List.length (matchSet rx f (posts db))))
              (b := l) ltac:(lia) Hl) as (k & Hk & Hb).
  exists (skipLimit ((p - 1) * l) l (sortPosts keys (matchSet rx f (posts db)))), k.
  rewrite Hk. split; [reflexivity|].
  rewrite skipLimit_pos by assumption.
  split; [reflexivity|]. split; [apply firstn_le_length|exact Hb].
Qed.

(** C4 (amended).  Let [p] and [l] be the page and the limit of the request,
    1 and 10 where the query string has none, with [1 <= p], [1 <= l] and
    [p], [l] and [(p - 1) * l] no greater than [Number.MAX_SAFE_INTEGER].
    Then [getMyPosts] answers with the page [p] of size [l] of the posts of
    the requester: status 200, the matching posts in sort order after the
    first [(p - 1) * l], at most [l] of them, [total] the number of matching
    posts, [page] equal to [p] and [pages] the quotient of [total] by [l]
    rounded up.  Whenever [getAllPosts] or [getCourseDiscussions] answer with
    data, they answer with that page of the posts that match their query;
    and they do answer when the query has no search string and, for
    [getCourseDiscussions], the course exists and the requester has access
    to it.  No listing changes the database. *)
Theorem paginated_lists (rx : string -> string -> string -> bool)
    (req : Request) (db : DB) (p l : Z) :
  p = match q_page (query req) with Some v => v | None => 1%Z end ->
  l = match q_limit (query req) with Some v => v | None => 10%Z end ->
  (1 <= p <= Js.MAX_SAFE_INTEGER)%Z ->
  (1 <= l <= Js.MAX_SAFE_INTEGER)%Z ->
  ((p - 1) * l <= Js.MAX_SAFE_INTEGER)%Z ->
  (isPage rx db (myPostsQuery (user_id (user req))) [CreatedAtDesc] p l
     (fst (getMyPosts rx req db))
   /\ snd (getMyPosts rx req db) = db)
  /\ (forall st data db',
        getAllPosts rx req db = (Json st data, db') ->
        isPage rx db (allPostsQuery (query req)) [CreatedAtDesc] p l (Json st data)
        /\ db' = db)
  /\ (forall st data db',
        getCourseDiscussions rx req db = (Json st data, db') ->
        isPage rx db (courseDiscussionsQuery (p_courseId (params req)) (query req))
          [IsPinnedDesc; CreatedAtDesc] p l (Json st data)
        /\ db' = db)
  /\ (Js.truthy (q_search (query req)) = false ->
      exists data, getAllPosts rx req db = (Json 200 data, db))
  /\ (forall course,
        find (fun c => idEq (course_id c) (p_courseId (params req))) (courses db)
        = Some course ->
        noAccess course (user_id (user req)) = false ->
        Js.truthy (q_search (query req)) = false ->
        exists data, getCourseDiscussions rx req db = (Json 200 data, db)).
Proof.
  intros Ep El [Hp _] [Hl _] _.
  assert (Ep' : pageOf (query req) = p) by (now subst p).
  assert (El' : limitOf (query req) = l) by (now subst l).
  clear Ep El.
  pose proof (fun f keys => @find_then_count rx db p l f keys Hp Hl) as F.
  split; [|split; [|split; [|split]]].
  - unfold getMyPosts. rewrite Ep', El'. apply F.
  - intros st data db' H.
    pose proof (F (allPostsQuery (query req)) [CreatedAtDesc]) as [F1 F2].
    unfold getAllPosts in H. rewrite Ep', El' in H.
    rewrite H in F1, F2. simpl in F1, F2. auto.
  - intros st data db' H.
    pose proof (F (courseDiscussionsQuery (p_courseId (params req)) (query req))
                  [IsPinnedDesc; CreatedAtDesc]) as [F1 F2].
    unfold getCourseDiscussions in H. rewrite Ep', El' in H.
    revert H F1 F2. unfold_action.
    destruct (find _ (courses db)) as [course|]; [|discriminate].
    destruct (noAccess course (user_id (user req))); [discriminate|].
    cbn [rejectIf]. intros H. rewrite H. simpl. auto.
  - intros _.
    pose proof (F (allPostsQuery (query req)) [CreatedAtDesc]) as [F1 F2].
    unfold getAllPosts. rewrite Ep', El'.
    destruct F1 as (data & k & E & _).
    destruct (handle _ db) as [r d]. simpl in E, F2. subst r d. eauto.
  - intros course Hc Ha _.
    pose proof (F (courseDiscussionsQuery (p_courseId (params req)) (query req))
                  [IsPinnedDesc; CreatedAtDesc]) as [F1 F2].
    unfold getCourseDiscussions. rewrite Ep', El'.
    revert F1 F2. unfold_action. rewrite Hc, Ha. cbn [rejectIf].
    intros (data & k & E & _) F2.
    match goal with
    | |- exists _, ?x = _ => destruct x as [r d]
    end.
    simpl in E, F2. subst r d. eauto.
Qed.

(** The posts of Alice, page 2 of size 1; and the discussions of [c1] with
    the page and the limit left out, that is page 1 of size 10. *)
Lemma paginated_lists_witness :
  isPage Sample.literalTest Sample.db (myPostsQuery "u1") [CreatedAtDesc] 2 1
    (Json 200 (PostPage [Sample.examPost]
                 {| total := 2; page := 2; pages := Js.Finite 2 |}))
  /\ isPage Sample.literalTest Sample.db
       (courseDiscussionsQuery "c1" Sample.noQuery) [IsPinnedDesc; CreatedAtDesc]
       1 10
       (Json 200 (PostPage [Sample.examPost; Sample.notesPost]
                    {| total := 2; page := 1; pages := Js.Finite 1 |})).
Proof.
  split.
  - refine (proj1 (proj1 (@paginated_lists Sample.literalTest
              (Sample.listing Sample.alice EmptyString Sample.secondPage)
              Sample.db 2 1 eq_refl eq_refl _ _ _)));
      cbv; try split; discriminate.
  - refine (proj1 (proj1 (proj2 (proj2 (@paginated_lists Sample.literalTest
              (Sample.listing Sample.alice "c1" Sample.noQuery)
              Sample.db 1 10 eq_refl eq_refl _ _ _))) _ _ _ eq_refl));
      cbv; try split; discriminate.
Defined.

(** With [limit=0] the server applies no limit and the page count is not a
    number: Alice asks for her posts and the response holds two, more than
    the limit. *)
Lemma limit_zero_is_no_limit :
  getMyPosts Sample.literalTest
    (Sample.listing Sample.alice EmptyString Sample.limitZero) Sample.db
  = (Json 200 (PostPage [Sample.orphanPost; Sample.examPost]
                 {| total := 2; page := 1; pages := Js.Infinity |}),
     Sample.db)
  /\ q_limit Sample.limitZero = Some 0%Z
  /\ (0 < Z.of_nat (List.length [Sample.orphanPost; Sample.examPost]))%Z.
Proof. split; [reflexivity|]. split; reflexivity. Qed.

(** ** C5: search *)

Lemma truthy_some (s : string) :
  s <> EmptyString -> Js.truthy (Some s) = true.
Proof. destruct s; [congruence|reflexivity]. Qed.

Lemma isString_some (x : option string) (s : string) :
  isString x s = true <-> x = Some s.
Proof.
  destruct x as [y|]; simpl.
  - rewrite String.eqb_eq. split; congruence.
  - split; discriminate.
Qed.

Lemma searchClause_hit (rx : string -> string -> string -> bool) (s : string)
    (p : ForumPost) :
  existsb (fun c => condHolds rx c p) (searchClause s) = true <-> searchHit rx s p.
Proof.
  unfold searchClause, searchHit, condHolds. simpl.
  rewrite orb_false_r, orb_true_iff.
  split; intros [H|H].
  - left. destruct (title p) as [t|]; [eauto|discriminate].
  - right. destruct (content p) as [c|]; [eauto|discriminate].
  - left. destruct H as (t & -> & H). exact H.
  - right. destruct H as (c & -> & H). exact H.
Qed.

(** C5 (amended).  For a non-empty search string [s], a post is in the match
    set of [getAllPosts] exactly when [s] matches its title or its content,
    ignoring case; it is in the match set of [getCourseDiscussions] exactly
    when, besides, it belongs to the requested course and has the requested
    category, if one is given. *)
Theorem search_match_set (rx : string -> string -> string -> bool)
    (q : Query) (s : string) (ps : list ForumPost) (p : ForumPost) :
  q_search q = Some s ->
  s <> EmptyString ->
  (In p (matchSet rx (allPostsQuery q) ps) <-> In p ps /\ searchHit rx s p)
  /\ (forall course,
        In p (matchSet rx (courseDiscussionsQuery course q) ps)
        <-> In p ps
            /\ courseId p = course
            /\ (Js.truthy (q_category q) = true -> category p = q_category q)
            /\ searchHit rx s p).
Proof.
  intros Hs Hne. pose proof (truthy_some Hne) as Ht.
  unfold matchSet. split; [|intros course]; rewrite filter_In;
    unfold matches, allPostsQuery, courseDiscussionsQuery; simpl;
    rewrite Hs, Ht; simpl; rewrite <- (searchClause_hit rx s p).
  - tauto.
  - rewrite !andb_true_iff, String.eqb_eq.
    destruct (Js.truthy (q_category q)) eqn:Hc; simpl.
    + destruct (q_category q) as [cat|]; [|discriminate]. simpl.
      rewrite isString_some. intuition congruence.
    + intuition congruence.
Qed.

(** The search for [exam] over all posts and within the course [c1]. *)
Lemma search_match_set_witness :
  (In Sample.orphanPost (matchSet Sample.literalTest (allPostsQuery Sample.searchExam)
                           (posts Sample.db))
   <-> In Sample.orphanPost (posts Sample.db)
       /\ searchHit Sample.literalTest "exam" Sample.orphanPost)
  /\ matchSet Sample.literalTest (allPostsQuery Sample.searchExam) (posts Sample.db)
     = [Sample.examPost; Sample.orphanPost].
Proof.
  split; [|reflexivity].
  refine (proj1 (@search_match_set Sample.literalTest Sample.searchExam "exam"
                   (posts Sample.db) Sample.orphanPost eq_refl _)).
  discriminate.
Defined.

(** The title of [p3] matches [exam], yet the post belongs to another course
    and is not among the discussions of [c1] that match. *)
Lemma search_is_within_the_course :
  In Sample.orphanPost (posts Sample.db)
  /\ searchHit Sample.literalTest "exam" Sample.orphanPost
  /\ matchSet Sample.literalTest (courseDiscussionsQuery "c1" Sample.searchExam)
       (posts Sample.db)
     = [Sample.examPost]
  /\ getCourseDiscussions Sample.literalTest
       (Sample.listing Sample.alice "c1" Sample.searchExam) Sample.db
     = (Json 200 (PostPage [Sample.examPost]
                    {| total := 1; page := 1; pages := Js.Finite 1 |}),
        Sample.db).
Proof.
  split; [simpl; auto|]. split; [|split; reflexivity].
  left. exists "Exam room". split; reflexivity.
Qed.

(** ** C6: what [updatePost] changes *)

(** C6 (amended).  A successful [updatePost] replaces the post named by the
    request, in place, by a post in which each of the title, content,
    category, tags and attachments has the value the body supplies, or the
    value of the stored post where the body supplies none, and whose other
    fields are those of the stored post; the posts before and after it, the
    courses and the notifications are as they were. *)
Theorem updatePost_frame (req : Request) (db db' : DB) (st : nat) (data : Payload) :
  updatePost req db = (Json st data, db') ->
  st = 200 /\ updatesInPlace req db db' data.
Proof.
  unfold updatePost. unfold_action.
  destruct (find _ (posts db)) as [post|] eqn:Hf; [|discriminate].
  destruct (idEq (author post) (user_id (user req))); simpl; [|discriminate].
  unfold write.
  destruct (rejects db) as [|[] rest]; simpl; try discriminate;
    rewrite Hf; simpl; intros H; injection H as <- <- <-;
    (split; [reflexivity|]);
    apply updatePost_in_place; simpl; auto.
Qed.

(** Alice edits her post [p1]. *)
Lemma updatePost_frame_witness :
  200 = 200
  /\ updatesInPlace (Sample.onPost Sample.alice "p1" EmptyString Sample.edit)
       Sample.db
       (mkDB [Sample.editedPost; Sample.notesPost; Sample.orphanPost]
             [Sample.logic] [] [] 1000 7)
       (UpdatedPost (Some Sample.editedPost)).
Proof.
  exact (@updatePost_frame (Sample.onPost Sample.alice "p1" EmptyString Sample.edit)
           Sample.db _ _ _ eq_refl).
Defined.

(** A body that names the category only: the call succeeds, and the title,
    the content and the tags of [p1] are not replaced by the missing values
    of the body; they stay as they were stored. *)
Lemma updatePost_keeps_what_the_body_omits :
  b_title Sample.promote = None
  /\ b_content Sample.promote = None
  /\ b_tags Sample.promote = None
  /\ updatePost (Sample.onPost Sample.alice "p1" EmptyString Sample.promote) Sample.db
     = (Json 200 (UpdatedPost (Some
          (mkPost "p1" "c1" "u1" (Some "Exam dates") (Some "When is the exam?")
                  (Some "Announcement") (Some ["exam"]) [] ["u1"; "u2"]
                  [Sample.answer] (Some false) (Some false) 100))),
        mkDB [mkPost "p1" "c1" "u1" (Some "Exam dates") (Some "When is the exam?")
                     (Some "Announcement") (Some ["exam"]) [] ["u1"; "u2"]
                     [Sample.answer] (Some false) (Some false) 100;
              Sample.notesPost; Sample.orphanPost]
             [Sample.logic] [] [] 1000 7).
Proof. repeat split. Qed.

(** ** C7: the notifications of an announcement *)

Lemma studentNotifications_valid (c : Course) (ttl : option string) (now : Z)
    (students : list ObjectId) :
  forallb Notification.validate (map (studentNotification c ttl now) students) = true.
Proof. induction students as [|s l IH]; simpl; [reflexivity|exact IH]. Qed.

Lemma announcementNotifications_shape (c : Course) (ttl : option string) (now : Z) :
  List.length (announcementNotifications c ttl now)
  = List.length (enrolledStudents c) + 1
  /\ map Notification.userId (announcementNotifications c ttl now)
     = enrolledStudents c ++ [instructor c]
  /\ Forall (fun n => Notification.type n = "Announcement"
                      /\ Notification.inEnum (Notification.type n) = true
                      /\ Notification.isRead n = false)
            (announcementNotifications c ttl now).
Proof.
  unfold announcementNotifications. split; [|split].
  - now rewrite length_app, length_map.
  - rewrite map_app, map_map. simpl. now rewrite map_id.
  - apply Forall_app. split.
    + apply Forall_forall. intros n Hn. apply in_map_iff in Hn.
      destruct Hn as (s & <- & _). simpl. auto.
    + constructor; [simpl; auto|constructor].
Qed.

(** C7.  A successful [createAnnouncement] is a request of the instructor of
    the course and appends to the notifications one notification for each
    enrolled student, addressed to that student, and one addressed to the
    instructor: as many as there are enrolled students plus one, each of type
    [Announcement], a member of the schema's enum, and unread. *)
Theorem createAnnouncement_notifications (req : Request) (db db' : DB) (st : nat)
    (data : Payload) :
  createAnnouncement req db = (Json st data, db') ->
  exists cid course new,
    b_courseId (body req) = Some cid
    /\ find (fun c => idEq (course_id c) cid) (courses db) = Some course
    /\ instructor course = user_id (user req)
    /\ notifications db' = notifications db ++ new
    /\ new = announcementNotifications course (b_title (body req)) (clock db)
    /\ List.length new = List.length (enrolledStudents course) + 1
    /\ map Notification.userId new = enrolledStudents course ++ [instructor course]
    /\ Forall (fun n => Notification.type n = "Announcement"
                        /\ Notification.inEnum (Notification.type n) = true
                        /\ Notification.isRead n = false) new.
Proof.
  unfold createAnnouncement. unfold_action.
  destruct (b_courseId (body req)) as [cid|] eqn:Hb; [|discriminate].
  destruct (find _ (courses db)) as [course|] eqn:Hc; [|discriminate].
  destruct (idEq (instructor course) (user_id (user req))) eqn:Hi;
    simpl; [|discriminate].
  apply idEq_true in Hi. intros H.
  exists cid, course, (announcementNotifications course (b_title (body req)) (clock db)).
  destruct (announcementNotifications_shape course (b_title (body req)) (clock db))
    as (Hlen & Hids & Hall).
  repeat (split; [solve [reflexivity|assumption]|]).
  split; [|auto].
  revert H. unfold announcementNotifications, write.
  destruct (enrolledStudents course) as [|s students] eqn:Hs.
  - destruct (rejects db) as [|[] [|[] rest]] eqn:Hr; simpl; rewrite ?Hr; simpl;
      try discriminate; intros H; injection H as <- <- <-; reflexivity.
  - destruct (rejects db) as [|[] [|[] [|[] rest]]] eqn:Hr;
      repeat (simpl; rewrite ?Hr, ?studentNotifications_valid);
      try discriminate;
      intros H; injection H as <- <- <-; simpl; now rewrite <- app_assoc.
Qed.

(** Ines announces in her course [c1], which has two enrolled students. *)
Lemma createAnnouncement_notifications_witness :
  exists cid course new,
    Some "c1" = Some cid
    /\ find (fun c => idEq (course_id c) cid) [Sample.logic] = Some course
    /\ instructor course = "t1"
    /\ notifications
         (snd (createAnnouncement
                 (Sample.onPost Sample.ines EmptyString EmptyString Sample.announcement)
                 Sample.db))
       = [] ++ new
    /\ new = announcementNotifications course (Some "No lecture on Friday") 1000
    /\ List.length new = List.length (enrolledStudents course) + 1
    /\ map Notification.userId new = enrolledStudents course ++ [instructor course]
    /\ Forall (fun n => Notification.type n = "Announcement"
                        /\ Notification.inEnum (Notification.type n) = true
                        /\ Notification.isRead n = false) new.
Proof.
  exact (@createAnnouncement_notifications
           (Sample.onPost Sample.ines EmptyString EmptyString Sample.announcement)
           Sample.db _ _ _ eq_refl).
Defined.

(** ** C8: the route [/all] is shadowed by [/:postId] *)

Module RouteFacts.
Import ForumRoutes.

(** Whatever the literal route [GET /all] matches, the parameter route
    [GET /:postId], registered before it, matches too. *)
Lemma postId_covers_all (m : Method) (url : string) (bs : list (string * string)) :
  matchRoute (mkRoute GET "/all" [authorizeRoles ["Instructor"]] GetAllPosts) m url
  = Some bs ->
  matchRoute (mkRoute GET "/:postId" [] GetPostById) m url <> None.
Proof.
  unfold matchRoute. cbn [method pattern].
  destruct (methodEq GET m); [|discriminate].
  change (segments "/all") with ["all"].
  change (segments "/:postId") with [":postId"].
  destruct (segments url) as [|s [|s' rest]]; cbn [matchSegments].
  - discriminate.
  - intros _. cbn. discriminate.
  - destruct (matchSegment "all" s); discriminate.
Qed.

Lemma dispatch_never_getAllPosts (m : Method) (url : string) (r : Route)
    (bs : list (string * string)) :
  dispatch m url = Some (r, bs) -> handler r <> GetAllPosts.
Proof.
  unfold dispatch, forumRouter. cbn [dispatchIn].
  repeat match goal with
         | |- context [match matchRoute ?x m url with _ => _ end] =>
             let E := fresh "E" in
             destruct (matchRoute x m url) eqn:E;
             [first [ intros H; injection H as <- _; cbn; discriminate
                    | exfalso; apply (postId_covers_all _ _ E); assumption ]|]
         end.
  discriminate.
Qed.

End RouteFacts.

(** C8.  An authenticated [GET /all] is answered by [getPostById] with
    [postId] equal to [all], and no request at all is dispatched to
    [getAllPosts]. *)
Theorem all_route_is_shadowed :
  (forall rx refusal u b q db,
     ForumRoutes.serve rx refusal ForumRoutes.GET "/all" u b q db
     = Some (getPostById
               {| user := u;
                  params := {| p_postId := "all"; p_replyId := EmptyString;
                               p_courseId := EmptyString |};
                  body := b; query := q |} db))
  /\ (forall m url r bs,
        ForumRoutes.dispatch m url = Some (r, bs) ->
        ForumRoutes.handler r <> ForumRoutes.GetAllPosts).
Proof.
  split.
  - intros. reflexivity.
  - exact RouteFacts.dispatch_never_getAllPosts.
Qed.

(** [GET /all] by the instructor Ines. *)
Lemma all_route_is_shadowed_witness :
  ForumRoutes.handler
    (ForumRoutes.mkRoute ForumRoutes.GET "/:postId" [] ForumRoutes.GetPostById)
  <> ForumRoutes.GetAllPosts
  /\ ForumRoutes.serve Sample.literalTest (fun _ _ => None) ForumRoutes.GET "/all"
       Sample.ines Sample.noBody Sample.noQuery Sample.db
     = Some (getPostById (Sample.onPost Sample.ines "all" EmptyString Sample.noBody)
                         Sample.db).
Proof.
  split.
  - exact (proj2 all_route_is_shadowed ForumRoutes.GET "/all" _ _ eq_refl).
  - exact (proj1 all_route_is_shadowed Sample.literalTest (fun _ _ => None)
             Sample.ines Sample.noBody Sample.noQuery Sample.db).
Defined.

(** ** C9: toggling a like *)

Lemma indexOfFrom_absent (x : ObjectId) (l : list ObjectId) (i : Z) :
  ~ In x l -> Js.indexOfFrom x l i = (-1)%Z.
Proof.
  revert i. induction l as [|y l IH]; intros i H; simpl; [reflexivity|].
  destruct (String.eqb_spec y x) as [->|_].
  - exfalso. apply H. now left.
  - apply IH. intros Hin. apply H. now right.
Qed.

Lemma indexOfFrom_first (x : ObjectId) (l1 l2 : list ObjectId) (i : Z) :
  ~ In x l1 ->
  Js.indexOfFrom x (l1 ++ x :: l2) i = (i + Z.of_nat (List.length l1))%Z.
Proof.
  revert i. induction l1 as [|y l1 IH]; intros i H; simpl Js.indexOfFrom.
  - rewrite String.eqb_refl. simpl. lia.
  - destruct (String.eqb_spec y x) as [->|_].
    + exfalso. apply H. now left.
    + rewrite IH by (intros Hin; apply H; now right).
      simpl List.length. lia.
Qed.

Lemma in_first_split (x : ObjectId) (l : list ObjectId) :
  In x l -> exists l1 l2, l = l1 ++ x :: l2 /\ ~ In x l1.
Proof.
  induction l as [|y l IH]; intros H; [contradiction|].
  destruct (String.eqb_spec y x) as [->|Hne].
  - exists [], l. auto.
  - destruct H as [->|H]; [congruence|].
    destruct (IH H) as (l1 & l2 & -> & Hn).
    exists (y :: l1), l2. split; [reflexivity|].
    intros [E|E]; [congruence|contradiction].
Qed.

Lemma splice_one {A : Type} (l1 l2 : list A) (x : A) :
  Js.splice (l1 ++ x :: l2) (Z.of_nat (List.length l1)) 1 = l1 ++ l2.
Proof.
  unfold Js.splice.
  destruct (Z.ltb_spec (Z.of_nat (List.length l1)) 0) as [Hneg|_]; [lia|].
  rewrite length_app. simpl List.length.
  rewrite Z.min_l by lia. rewrite Nat2Z.id.
  rewrite firstn_app, firstn_all, Nat.sub_diag. simpl firstn.
  rewrite app_nil_r.
  rewrite skipn_app, skipn_all2 by lia.
  replace (List.length l1 + 1 - List.length l1) with 1 by lia.
  reflexivity.
Qed.

Lemma toggled_absent (ls : list ObjectId) (uid : ObjectId) :
  ~ In uid ls ->
  toggled ls uid = ls ++ [uid] /\ (Js.indexOf ls uid =? -1)%Z = true.
Proof.
  intros H. unfold toggled, Js.indexOf.
  rewrite (indexOfFrom_absent uid ls 0%Z H). split; reflexivity.
Qed.

Lemma toggled_present (l1 l2 : list ObjectId) (uid : ObjectId) :
  ~ In uid l1 ->
  toggled (l1 ++ uid :: l2) uid = l1 ++ l2
  /\ (Js.indexOf (l1 ++ uid :: l2) uid =? -1)%Z = false.
Proof.
  intros H. unfold toggled, Js.indexOf.
  rewrite (indexOfFrom_first uid l1 l2 0%Z H). simpl Z.add.
  destruct (Z.eqb_spec (Z.of_nat (List.length l1)) (-1)) as [E|_]; [lia|].
  split; [apply splice_one|reflexivity].
Qed.

(** Two toggles in a row on a list without repetition. *)
Lemma toggled_twice (ls : list ObjectId) (uid : ObjectId) :
  NoDup ls ->
  Permutation (toggled (toggled ls uid) uid) ls
  /\ (~ In uid ls -> toggled (toggled ls uid) uid = ls).
Proof.
  intros Hnd.
  destruct (in_dec string_dec uid ls) as [Hin|Hout].
  - split; [|contradiction].
    destruct (in_first_split uid ls Hin) as (l1 & l2 & -> & H1).
    destruct (toggled_present l1 l2 uid H1) as (-> & _).
    apply NoDup_remove_2 in Hnd.
    destruct (toggled_absent (l1 ++ l2) uid Hnd) as (-> & _).
    rewrite <- app_assoc. apply Permutation_app_head.
    symmetry. apply Permutation_cons_append.
  - destruct (toggled_absent ls uid Hout) as (-> & _).
    destruct (toggled_present ls [] uid Hout) as (-> & _).
    rewrite app_nil_r. split; [reflexivity|reflexivity].
Qed.

Lemma find_replacePost (id : ObjectId) (ps : list ForumPost) (p p' : ForumPost) :
  find (fun q => idEq (post_id q) id) ps = Some p ->
  post_id p' = post_id p ->
  find (fun q => idEq (post_id q) id) (replacePost p' ps) = Some p'.
Proof.
  intros Hf Hid.
  destruct (find_post_split _ _ Hf) as (before & after & -> & Hp & Hall).
  rewrite replacePost_split by (rewrite Hid, Hp; auto).
  clear Hf. induction Hall as [|q before Hq _ IH]; simpl.
  - now rewrite Hid, Hp, idEq_refl.
  - apply idEq_false in Hq. now rewrite Hq.
Qed.

Lemma replies_id_replaceReply (id : ObjectId) (rs : list Reply) (r r' : Reply) :
  replies_id rs id = Some r ->
  reply_id r' = reply_id r ->
  replies_id (replaceReply r' rs) id = Some r'.
Proof.
  unfold replies_id. intros Hf Hid.
  assert (Hr : reply_id r = id).
  { apply find_some in Hf. apply idEq_true, Hf. }
  revert Hf. induction rs as [|q rs IH]; simpl; [discriminate|].
  rewrite Hid, Hr.
  destruct (idEq (reply_id q) id) eqn:E; intros Hf; simpl.
  - now rewrite Hid, Hr, idEq_refl.
  - rewrite E. exact (IH Hf).
Qed.

Section ToggleLike.

Variable req : Request.

Let uid : ObjectId := user_id (user req).
Let pid : ObjectId := p_postId (params req).
Let rid : ObjectId := p_replyId (params req).

Lemma toggleLikePost_step (db : DB) (ls : list ObjectId) :
  rejects db = [] ->
  storedLikes pid db = Some ls ->
  fst (toggleLikePost req db)
  = Json 200 (LikeData (List.length (toggled ls uid))
                       (Js.indexOf ls uid =? -1)%Z)
  /\ storedLikes pid (snd (toggleLikePost req db)) = Some (toggled ls uid)
  /\ rejects (snd (toggleLikePost req db)) = [].
Proof.
  subst uid pid. unfold storedLikes, toggleLikePost, toggled. intros Hr Hs.
  unfold_action. unfold write.
  destruct (find _ (posts db)) as [post|] eqn:Hf; [|discriminate].
  injection Hs as <-. rewrite Hr. cbn [fst snd posts rejects].
  split; [destruct (Js.indexOf (likes post) (user_id (user req)) =? -1)%Z;
          reflexivity|].
  split; [|exact Hr].
  erewrite find_replacePost; [|exact Hf|].
  - destruct (Js.indexOf (likes post) (user_id (user req)) =? -1)%Z; reflexivity.
  - destruct (Js.indexOf (likes post) (user_id (user req)) =? -1)%Z; reflexivity.
Qed.

Lemma toggleLikeReply_step (db : DB) (ls : list ObjectId) :
  rejects db = [] ->
  storedReplyLikes pid rid db = Some ls ->
  fst (toggleLikeReply req db)
  = Json 200 (LikeData (List.length (toggled ls uid))
                       (Js.indexOf ls uid =? -1)%Z)
  /\ storedReplyLikes pid rid (snd (toggleLikeReply req db))
     = Some (toggled ls uid)
  /\ rejects (snd (toggleLikeReply req db)) = [].
Proof.
  subst uid pid rid. unfold storedReplyLikes, toggleLikeReply, toggled.
  intros Hr Hs. unfold_action. unfold write.
  destruct (find _ (posts db)) as [post|] eqn:Hf; [|discriminate].
  destruct (replies_id (replies post) (p_replyId (params req)))
    as [reply|] eqn:Hy; [|discriminate].
  injection Hs as <-. rewrite Hr. cbn [fst snd posts rejects].
  split; [destruct (Js.indexOf (reply_likes reply) (user_id (user req)) =? -1)%Z;
          reflexivity|].
  split; [|exact Hr].
  erewrite find_replacePost; [|exact Hf|reflexivity].
  cbn [replies setReplies].
  erewrite replies_id_replaceReply; [|exact Hy|].
  - destruct (Js.indexOf (reply_likes reply) (user_id (user req)) =? -1)%Z;
      reflexivity.
  - destruct (Js.indexOf (reply_likes reply) (user_id (user req)) =? -1)%Z;
      reflexivity.
Qed.

(** From one step of a like action to its effect over one and two
    applications. *)
Lemma togglesLikes_of_step (stored : DB -> option (list ObjectId))
    (act : DB -> Response * DB) :
  (forall db ls,
      rejects db = [] -> stored db = Some ls ->
      fst (act db)
      = Json 200 (LikeData (List.length (toggled ls uid))
                           (Js.indexOf ls uid =? -1)%Z)
      /\ stored (snd (act db)) = Some (toggled ls uid)
      /\ rejects (snd (act db)) = []) ->
  forall db ls,
    rejects db = [] -> stored db = Some ls ->
    togglesLikes uid stored act db ls.
Proof.
  intros Hstep db ls Hr Hs.
  destruct (Hstep db ls Hr Hs) as (H1 & H2 & H3).
  split; [|split].
  - intros Hout. destruct (toggled_absent ls uid Hout) as (Ht & Hi).
    rewrite H1, H2, Ht, Hi, length_app. simpl. split; reflexivity.
  - intros Hin.
    destruct (in_first_split uid ls Hin) as (l1 & l2 & E & Hn).
    exists l1, l2. subst ls.
    destruct (toggled_present l1 l2 uid Hn) as (Ht & Hi).
    rewrite H1, H2, Ht, Hi, !length_app. simpl List.length.
    split; [reflexivity|]. split; [exact Hn|].
    split; [|reflexivity]. do 2 f_equal. lia.
  - intros Hnd.
    destruct (Hstep _ _ H3 H2) as (_ & H5 & _).
    destruct (toggled_twice uid Hnd) as (Hp & He).
    exists (toggled (toggled ls uid) uid). auto.
Qed.

(** C9 (amended).  One toggle by a user who is not in the likes list
    appends the user and reports [isLiked] true with the count raised by
    one; one toggle by a user who is in it removes the user's first entry
    and reports [isLiked] false with the count lowered by one.  On a list
    that holds no id twice, two toggles in a row leave a list with the same
    members, and the very same list when the user was not in it. *)
Theorem toggle_like (db : DB) :
  rejects db = [] ->
  (forall ls,
      storedLikes pid db = Some ls ->
      togglesLikes uid (storedLikes pid) (toggleLikePost req) db ls)
  /\ (forall ls,
        storedReplyLikes pid rid db = Some ls ->
        togglesLikes uid (storedReplyLikes pid rid) (toggleLikeReply req) db ls).
Proof.
  intros Hr. split; intros ls Hs.
  - exact (togglesLikes_of_step _ _ toggleLikePost_step db Hr Hs).
  - exact (togglesLikes_of_step _ _ toggleLikeReply_step db Hr Hs).
Qed.

End ToggleLike.

(** Alice, who likes the post [p1], toggles her like. *)
Lemma toggle_like_witness :
  togglesLikes "u1" (storedLikes "p1")
    (toggleLikePost (Sample.onPost Sample.alice "p1" "r1" Sample.noBody))
    Sample.db ["u1"; "u2"].
Proof.
  exact (proj1 (@toggle_like (Sample.onPost Sample.alice "p1" "r1" Sample.noBody)
                  Sample.db eq_refl) ["u1"; "u2"] eq_refl).
Defined.

(** After two toggles by Alice the likes of [p1] are in another order, both
    for the post and for its reply [r1]. *)
Lemma toggle_twice_reorders :
  storedLikes "p1" Sample.db = Some ["u1"; "u2"]
  /\ storedLikes "p1"
       (snd (toggleLikePost (Sample.onPost Sample.alice "p1" "r1" Sample.noBody)
          (snd (toggleLikePost (Sample.onPost Sample.alice "p1" "r1" Sample.noBody)
                  Sample.db))))
     = Some ["u2"; "u1"]
  /\ storedReplyLikes "p1" "r1" Sample.db = Some ["u1"; "u2"]
  /\ storedReplyLikes "p1" "r1"
       (snd (toggleLikeReply (Sample.onPost Sample.alice "p1" "r1" Sample.noBody)
          (snd (toggleLikeReply (Sample.onPost Sample.alice "p1" "r1" Sample.noBody)
                  Sample.db))))
     = Some ["u2"; "u1"].
Proof. repeat split. Qed.

(** ** C10: who may create which category *)

Lemma isInstructorRole_true (r : option string) (s : string) :
  r = Some s -> Js.toLowerCase s = "instructor" -> isInstructorRole r = true.
Proof.
  intros -> H. unfold isInstructorRole. rewrite H.
  destruct s; [discriminate|reflexivity].
Qed.

Lemma isInstructorRole_false (r : option string) :
  (forall s, r = Some s -> Js.toLowerCase s <> "instructor") ->
  isInstructorRole r = false.
Proof.
  intros H. unfold isInstructorRole. destruct r as [s|]; [|reflexivity].
  apply andb_false_iff. right. apply String.eqb_neq. now apply H.
Qed.

Lemma isString_false (x : option string) (s : string) :
  x <> Some s -> isString x s = false.
Proof.
  intros H. destruct (isString x s) eqn:E; [|reflexivity].
  apply isString_some in E. contradiction.
Qed.

(** C10 (amended).  For a course that exists, [createForumPost] answers with
    a 400 error and leaves the database as it is when a user whose role is
    [instructor], in any case of letters, supplies a category other than
    [Announcement], and when any other user supplies [Announcement].  The
    post of a successful creation is stored and its flag [isAnnouncement] is
    true exactly when its category is [Announcement]. *)
Theorem createForumPost_category_rule (req : Request) (db : DB) :
  (forall cid course,
      b_courseId (body req) = Some cid ->
      find (fun c => idEq (course_id c) cid) (courses db) = Some course ->
      (forall r,
          role (user req) = Some r ->
          Js.toLowerCase r = "instructor" ->
          b_category (body req) <> Some "Announcement" ->
          createForumPost req db
          = (Next (HttpError 400 "Instructors can only create announcements. To answer questions, reply to a student post."),
             db))
      /\ ((forall r, role (user req) = Some r -> Js.toLowerCase r <> "instructor") ->
          b_category (body req) = Some "Announcement" ->
          createForumPost req db
          = (Next (HttpError 400 "Only instructors can create announcements."), db)))
  /\ (forall st data db',
        createForumPost req db = (Json st data, db') ->
        exists post,
          data = PostData post
          /\ posts db' = posts db ++ [post]
          /\ (isAnnouncement post = Some true
              <-> category post = Some "Announcement")).
Proof.
  split.
  - intros cid course Hb Hc. split.
    + intros r Hr Hl Hcat.
      unfold createForumPost. unfold_action.
      rewrite Hb, Hc, (isInstructorRole_true Hr Hl), (isString_false Hcat).
      reflexivity.
    + intros Hr Hcat.
      unfold createForumPost. unfold_action.
      rewrite Hb, Hc, (isInstructorRole_false Hr), Hcat.
      reflexivity.
  - intros st data db'. unfold createForumPost. unfold_action.
    destruct (b_courseId (body req)) as [cid|]; [|discriminate].
    destruct (find _ (courses db)) as [course|]; [|discriminate].
    unfold write.
    destruct (isInstructorRole (role (user req)));
      destruct (isString (b_category (body req)) "Announcement") eqn:Hcat;
      simpl; try discriminate;
      destruct (idEq (instructor course) (user_id (user req)));
      destruct (rejects db) as [|[] [|[] rest]] eqn:Hr; simpl; rewrite ?Hr; simpl;
      try discriminate;
      intros H; injection H as <- <- <-;
      eexists; (split; [reflexivity|]); (split; [reflexivity|]); simpl;
      rewrite <- isString_some, Hcat; split; intros E; congruence.
Qed.

(** Ines, an instructor, posts in the category [General] in her course
    [c1]. *)
Lemma createForumPost_category_rule_witness :
  createForumPost (Sample.onPost Sample.ines EmptyString EmptyString Sample.general)
                  Sample.db
  = (Next (HttpError 400 "Instructors can only create announcements. To answer questions, reply to a student post."),
     Sample.db).
Proof.
  refine (proj1 (proj1 (@createForumPost_category_rule
            (Sample.onPost Sample.ines EmptyString EmptyString Sample.general)
            Sample.db) "c1" Sample.logic eq_refl eq_refl)
          "Instructor" eq_refl eq_refl _).
  discriminate.
Defined.

(** The same post for a course that does not exist is refused with 404, not
    400. *)
Lemma missing_course_comes_first :
  createForumPost (Sample.onPost Sample.ines EmptyString EmptyString Sample.stray)
                  Sample.db
  = (Next (HttpError 404 "Course not found"), Sample.db)
  /\ isInstructorRole (role Sample.ines) = true
  /\ isString (b_category Sample.stray) "Announcement" = false.
Proof. repeat split. Qed.

(* ================================================================== *)
(** * Further properties of the controller *)

(** ** The order of a listing *)

Lemma before_total (keys : list SortKey) (a b : ForumPost) :
  before keys a b = false -> before keys b a = true.
Proof.
  induction keys as [|k keys IH]; simpl; [discriminate|].
  destruct k.
  - destruct (Z.ltb_spec (createdAt b) (createdAt a)); [discriminate|].
    destruct (Z.ltb_spec (createdAt a) (createdAt b)); [reflexivity|exact IH].
  - destruct (Z.ltb_spec (boolRank (isPinned b)) (boolRank (isPinned a)));
      [discriminate|].
    destruct (Z.ltb_spec (boolRank (isPinned a)) (boolRank (isPinned b)));
      [reflexivity|exact IH].
Qed.

Lemma before_trans (keys : list SortKey) (a b c : ForumPost) :
  before keys a b = true -> before keys b c = true -> before keys a c = true.
Proof.
  induction keys as [|k keys IH]; simpl; [reflexivity|].
  destruct k.
  - destruct (Z.ltb_spec (createdAt b) (createdAt a));
      destruct (Z.ltb_spec (createdAt a) (createdAt b));
      destruct (Z.ltb_spec (createdAt c) (createdAt b));
      destruct (Z.ltb_spec (createdAt b) (createdAt c));
      destruct (Z.ltb_spec (createdAt c) (createdAt a));
      destruct (Z.ltb_spec (createdAt a) (createdAt c));
      try discriminate; try reflexivity; try lia; exact IH.
  - destruct (Z.ltb_spec (boolRank (isPinned b)) (boolRank (isPinned a)));
      destruct (Z.ltb_spec (boolRank (isPinned a)) (boolRank (isPinned b)));
      destruct (Z.ltb_spec (boolRank (isPinned c)) (boolRank (isPinned b)));
      destruct (Z.ltb_spec (boolRank (isPinned b)) (boolRank (isPinned c)));
      destruct (Z.ltb_spec (boolRank (isPinned c)) (boolRank (isPinned a)));
      destruct (Z.ltb_spec (boolRank (isPinned a)) (boolRank (isPinned c)));
      try discriminate; try reflexivity; try lia; exact IH.
Qed.

Lemma insertSorted_sorted (keys : list SortKey) (x : ForumPost)
    (l : list ForumPost) :
  Sorted (fun a b => before keys a b = true) l ->
  Sorted (fun a b => before keys a b = true) (insertSorted keys x l).
Proof.
  induction 1 as [|y l Hs IH Hhd]; simpl.
  - repeat constructor.
  - destruct (before keys x y) eqn:E.
    + constructor; [constructor; assumption|constructor; exact E].
    + constructor; [exact IH|].
      apply before_total in E.
      destruct l as [|z l]; simpl.
      * constructor. exact E.
      * inversion Hhd; subst.
        destruct (before keys x z); constructor; assumption.
Qed.

Lemma sortPosts_sorted (keys : list SortKey) (l : list ForumPost) :
  StronglySorted (fun a b => before keys a b = true) (sortPosts keys l).
Proof.
  apply Sorted_StronglySorted.
  - intros a b c. apply before_trans.
  - induction l as [|x l IH]; simpl; [constructor|].
    now apply insertSorted_sorted.
Qed.

Lemma StronglySorted_skipn {A : Type} (R : A -> A -> Prop) (n : nat) (l : list A) :
  StronglySorted R l -> StronglySorted R (skipn n l).
Proof.
  revert l. induction n as [|n IH]; intros l H; [exact H|].
  destruct l as [|x l]; [constructor|]. simpl. apply IH.
  now inversion H.
Qed.

Lemma StronglySorted_firstn {A : Type} (R : A -> A -> Prop) (n : nat) (l : list A) :
  StronglySorted R l -> StronglySorted R (firstn n l).
Proof.
  revert l. induction n as [|n IH]; intros l H; [constructor|].
  destruct l as [|x l]; [constructor|]. simpl.
  inversion H as [|? ? Hl Hx]; subst. constructor; [now apply IH|].
  apply Forall_forall. intros y Hy.
  rewrite Forall_forall in Hx. apply Hx.
  rewrite <- (firstn_skipn n l). apply in_or_app. now left.
Qed.

Lemma skipLimit_sorted {A : Type} (R : A -> A -> Prop) (s l : Z) (xs : list A) :
  StronglySorted R xs -> StronglySorted R (skipLimit s l xs).
Proof.
  intros H. unfold skipLimit.
  destruct (l =? 0)%Z;
    [|apply StronglySorted_firstn]; now apply StronglySorted_skipn.
Qed.

Lemma StronglySorted_weaken {A : Type} (R S : A -> A -> Prop) (l : list A) :
  (forall a b, R a b -> S a b) -> StronglySorted R l -> StronglySorted S l.
Proof.
  intros HRS. induction 1 as [|x l Hl IH Hx]; constructor; [exact IH|].
  eapply Forall_impl; [|exact Hx]. intros b. apply HRS.
Qed.

Lemma before_newest (a b : ForumPost) :
  before [CreatedAtDesc] a b = true -> newestFirst a b.
Proof.
  unfold newestFirst. simpl.
  destruct (Z.ltb_spec (createdAt b) (createdAt a)); [lia|].
  destruct (Z.ltb_spec (createdAt a) (createdAt b)); [discriminate|lia].
Qed.

Lemma before_pinned (a b : ForumPost) :
  before [IsPinnedDesc; CreatedAtDesc] a b = true -> pinnedThenNewest a b.
Proof.
  unfold pinnedThenNewest. intros H.
  pose proof (@before_newest a b) as N. unfold newestFirst in N.
  cbn [before] in H, N.
  destruct (isPinned a) as [[]|], (isPinned b) as [[]|]; simpl in H;
    try exact I; try discriminate H; now apply N.
Qed.

(** ** What a listing holds *)

Lemma skipLimit_incl {A : Type} (s l : Z) (xs : list A) (x : A) :
  In x (skipLimit s l xs) -> In x xs.
Proof.
  unfold skipLimit. intros H.
  assert (Hs : In x (skipn (Z.to_nat s) xs)).
  { destruct (l =? 0)%Z; [exact H|].
    rewrite <- (firstn_skipn (Z.to_nat (Z.abs l)) (skipn (Z.to_nat s) xs)).
    apply in_or_app. now left. }
  rewrite <- (firstn_skipn (Z.to_nat s) xs). apply in_or_app. now right.
Qed.

(** A post of a listing is a stored post that matches the query. *)
Lemma listed_matches (rx : string -> string -> string -> bool) (f : Filter)
    (keys : list SortKey) (s l : Z) (ps : list ForumPost) (p : ForumPost) :
  In p (skipLimit s l (sortPosts keys (matchSet rx f ps))) ->
  In p ps /\ matches rx f p = true.
Proof.
  intros H. apply skipLimit_incl in H.
  apply (Permutation_in _ (sortPosts_perm keys _)) in H.
  unfold matchSet in H. now apply filter_In in H.
Qed.

Section Listings.

Variable rx : string -> string -> string -> bool.
Variables (req : Request) (db : DB).

Let q : Query := query req.
Let uid : ObjectId := user_id (user req).

Lemma getAllPosts_inv (st : nat) (data : Payload) (db' : DB) :
  getAllPosts rx req db = (Json st data, db') ->
  exists pg,
    data = PostPage
             (skipLimit ((pageOf q - 1) * limitOf q) (limitOf q)
                (sortPosts [CreatedAtDesc] (matchSet rx (allPostsQuery q) (posts db))))
             pg.
Proof.
  subst q. unfold getAllPosts. unfold_action.
  destruct ((pageOf (query req) - 1) * limitOf (query req) <? 0)%Z;
    [discriminate|].
  intros H. injection H as <- <- <-. eexists. reflexivity.
Qed.

Lemma getMyPosts_inv (st : nat) (data : Payload) (db' : DB) :
  getMyPosts rx req db = (Json st data, db') ->
  exists pg,
    data = PostPage
             (skipLimit ((pageOf q - 1) * limitOf q) (limitOf q)
                (sortPosts [CreatedAtDesc] (matchSet rx (myPostsQuery uid) (posts db))))
             pg.
Proof.
  subst q uid. unfold getMyPosts. unfold_action.
  destruct ((pageOf (query req) - 1) * limitOf (query req) <? 0)%Z;
    [discriminate|].
  intros H. injection H as <- <- <-. eexists. reflexivity.
Qed.

Lemma getCourseDiscussions_inv (st : nat) (data : Payload) (db' : DB) :
  getCourseDiscussions rx req db = (Json st data, db') ->
  exists course pg,
    find (fun c => idEq (course_id c) (p_courseId (params req))) (courses db)
    = Some course
    /\ noAccess course uid = false
    /\ data = PostPage
                (skipLimit ((pageOf q - 1) * limitOf q) (limitOf q)
                   (sortPosts [IsPinnedDesc; CreatedAtDesc]
                      (matchSet rx (courseDiscussionsQuery (p_courseId (params req)) q)
                         (posts db))))
                pg.
Proof.
  subst q uid. unfold getCourseDiscussions. unfold_action.
  destruct (find _ (courses db)) as [course|]; [|discriminate].
  destruct (noAccess course (user_id (user req))) eqn:Ha; [discriminate|].
  destruct ((pageOf (query req) - 1) * limitOf (query req) <? 0)%Z;
    [discriminate|].
  intros H. injection H as <- <- <-. exists course. eexists.
  split; [reflexivity|]. split; [exact Ha|reflexivity].
Qed.

Lemma getAnnouncements_inv (st : nat) (data : Payload) (db' : DB) :
  getAnnouncements rx req db = (Json st data, db') ->
  data = PostList
           (sortPosts [CreatedAtDesc]
              (matchSet rx
                 (announcementsQuery
                    (if Js.truthy (q_courseId q) then q_courseId q else None))
                 (posts db)))
  /\ (Js.truthy (q_courseId q) = true ->
      exists course,
        find (fun c => idEq (course_id c) (Js.orElse (q_courseId q) EmptyString))
             (courses db) = Some course
        /\ noAccess course uid = false).
Proof.
  subst q uid. unfold getAnnouncements. unfold_action.
  destruct (Js.truthy (q_courseId (query req))) eqn:Ht.
  - destruct (q_courseId (query req)) as [cid|]; [|discriminate]. simpl.
    destruct (find _ (courses db)) as [course|]; [|discriminate].
    destruct (noAccess course (user_id (user req))) eqn:Ha; [discriminate|].
    simpl. intros H. injection H as <- <- <-.
    split; [reflexivity|]. intros _. exists course. split; [reflexivity|exact Ha].
  - simpl. intros H. injection H as <- <- <-.
    split; [reflexivity|discriminate].
Qed.

(** X1.  The posts of a listing come in the order asked of the database,
    whatever the page and the limit: [getAllPosts], [getMyPosts] and
    [getAnnouncements] answer newest first; [getCourseDiscussions] answers
    with the pinned posts first, then the posts whose flag [isPinned] is
    false, then the posts without the flag, newest first within each of the
    three groups. *)
Theorem listings_are_sorted :
  (forall st ps pg db',
      getAllPosts rx req db = (Json st (PostPage ps pg), db') ->
      StronglySorted newestFirst ps)
  /\ (forall st ps pg db',
        getMyPosts rx req db = (Json st (PostPage ps pg), db') ->
        StronglySorted newestFirst ps)
  /\ (forall st ps pg db',
        getCourseDiscussions rx req db = (Json st (PostPage ps pg), db') ->
        StronglySorted pinnedThenNewest ps)
  /\ (forall st ps db',
        getAnnouncements rx req db = (Json st (PostList ps), db') ->
        StronglySorted newestFirst ps).
Proof.
  split; [|split; [|split]].
  - intros st ps pg db' H. apply getAllPosts_inv in H as (pg' & E).
    injection E as -> _. apply skipLimit_sorted.
    eapply StronglySorted_weaken; [exact before_newest|apply sortPosts_sorted].
  - intros st ps pg db' H. apply getMyPosts_inv in H as (pg' & E).
    injection E as -> _. apply skipLimit_sorted.
    eapply StronglySorted_weaken; [exact before_newest|apply sortPosts_sorted].
  - intros st ps pg db' H.
    apply getCourseDiscussions_inv in H as (course & pg' & _ & _ & E).
    injection E as -> _. apply skipLimit_sorted.
    eapply StronglySorted_weaken; [exact before_pinned|apply sortPosts_sorted].
  - intros st ps db' H. apply getAnnouncements_inv in H as (E & _).
    injection E as ->.
    eapply StronglySorted_weaken; [exact before_newest|apply sortPosts_sorted].
Qed.

(** X2.  A listing holds stored posts only, and only posts of the kind asked
    for: [getMyPosts] answers with posts of the requester, never with a post
    of another author; [getCourseDiscussions] with posts of the course of the
    request, of the category of the query if it has one; [getAnnouncements]
    with posts of category [Announcement], of the course of the query if it
    has one. *)
Theorem listings_hold_what_was_asked :
  (forall st ps pg db' p,
      getMyPosts rx req db = (Json st (PostPage ps pg), db') ->
      In p ps -> In p (posts db) /\ author p = uid)
  /\ (forall st ps pg db' p,
        getCourseDiscussions rx req db = (Json st (PostPage ps pg), db') ->
        In p ps ->
        In p (posts db)
        /\ courseId p = p_courseId (params req)
        /\ (Js.truthy (q_category q) = true -> category p = q_category q))
  /\ (forall st ps db' p,
        getAnnouncements rx req db = (Json st (PostList ps), db') ->
        In p ps ->
        In p (posts db)
        /\ category p = Some "Announcement"
        /\ (Js.truthy (q_courseId q) = true -> Some (courseId p) = q_courseId q)).
Proof.
  split; [|split].
  - intros st ps pg db' p H Hin. apply getMyPosts_inv in H as (pg' & E).
    injection E as -> _. apply listed_matches in Hin as (Hp & Hm).
    split; [exact Hp|]. unfold matches in Hm. simpl in Hm.
    rewrite andb_true_r in Hm. now apply String.eqb_eq in Hm.
  - intros st ps pg db' p H Hin.
    apply getCourseDiscussions_inv in H as (course & pg' & _ & _ & E).
    injection E as -> _. apply listed_matches in Hin as (Hp & Hm).
    split; [exact Hp|]. unfold matches in Hm. simpl in Hm.
    rewrite !andb_true_iff in Hm. destruct Hm as (((Hc & Hcat) & _) & _).
    apply String.eqb_eq in Hc. split; [exact Hc|].
    intros Ht. subst q. rewrite Ht in Hcat.
    destruct (q_category (query req)) as [cat|]; [|discriminate].
    simpl in Hcat. now apply isString_some in Hcat.
  - intros st ps db' p H Hin. apply getAnnouncements_inv in H as (E & _).
    injection E as ->.
    apply (Permutation_in _ (sortPosts_perm _ _)) in Hin.
    unfold matchSet in Hin. apply filter_In in Hin as (Hp & Hm).
    split; [exact Hp|]. unfold matches in Hm. simpl in Hm.
    rewrite !andb_true_iff in Hm. destruct Hm as (((Hc & Hcat) & _) & _).
    apply isString_some in Hcat. split; [exact Hcat|].
    intros Ht. subst q. rewrite Ht in Hc.
    destruct (q_courseId (query req)) as [cid|]; [|discriminate].
    simpl in Hc. apply String.eqb_eq in Hc. now rewrite Hc.
Qed.

End Listings.

(** The discussions of [c1] as Alice sees them, and her own posts: the
    pinned post [p5] comes first though it is the oldest, then [p1] and [p6],
    whose flag is false, the newer one first, and last [p2], which has no
    flag, though it is newer than [p1]. *)
Lemma listings_are_sorted_witness :
  fst (getCourseDiscussions Sample.literalTest
         (Sample.listing Sample.alice "c1" Sample.noQuery) Sample.pinned)
  = Json 200 (PostPage [Sample.pinnedPost; Sample.latePost; Sample.examPost;
                        Sample.notesPost]
                {| total := 4; page := 1; pages := Js.Finite 1 |})
  /\ StronglySorted pinnedThenNewest
       [Sample.pinnedPost; Sample.latePost; Sample.examPost; Sample.notesPost]
  /\ StronglySorted newestFirst [Sample.latePost; Sample.examPost].
Proof.
  pose proof (@listings_are_sorted Sample.literalTest
                (Sample.listing Sample.alice "c1" Sample.noQuery) Sample.pinned)
    as (_ & H2 & H3 & _).
  split; [reflexivity|]. split.
  - exact (H3 _ _ _ _ eq_refl).
  - exact (H2 _ _ _ _ eq_refl).
Defined.

Lemma listings_hold_what_was_asked_witness :
  In Sample.orphanPost (posts Sample.db) /\ author Sample.orphanPost = "u1".
Proof.
  refine (proj1 (@listings_hold_what_was_asked Sample.literalTest
                   (Sample.listing Sample.alice "c1" Sample.noQuery) Sample.db)
            _ _ _ _ Sample.orphanPost eq_refl _).
  simpl. auto.
Defined.

(** ** What the actions never write *)

(** Case analysis on what an action branches on: the documents it finds, its
    tests and the schedule of the writes. *)
Ltac split_action :=
  repeat (match goal with
          | |- context [match ?x with _ => _ end] =>
              lazymatch x with
              | context [match _ with _ => _ end] => fail
              | _ => destruct x eqn:?
              end
          end; cbn [fst snd posts courses notifications rejects clock nextId];
          try congruence).

(** X3.  Every route of the forum router with the method GET is read-only:
    whatever the request, its action leaves the database as it found it. *)
Theorem get_routes_are_read_only (rx : string -> string -> string -> bool)
    (r : ForumRoutes.Route) (req : Request) (db : DB) :
  In r ForumRoutes.forumRouter ->
  ForumRoutes.method r = ForumRoutes.GET ->
  snd (ForumRoutes.controller rx (ForumRoutes.handler r) req db) = db.
Proof.
  unfold ForumRoutes.forumRouter. simpl In.
  intros Hin Hm.
  repeat (destruct Hin as [<-|Hin]; [try discriminate Hm|]);
    try contradiction; cbn [ForumRoutes.handler ForumRoutes.controller];
    clear Hm.
  - unfold getCourseDiscussions. unfold_action. split_action; try reflexivity.
  - unfold getMyPosts. unfold_action. split_action; try reflexivity.
  - unfold getAnnouncements. unfold_action. split_action; try reflexivity.
  - unfold getPostById. unfold_action. split_action; try reflexivity.
  - unfold getAllPosts. unfold_action. split_action; try reflexivity.
Qed.

Lemma get_routes_are_read_only_witness :
  snd (getPostById (Sample.onPost Sample.carol "p1" EmptyString Sample.noBody)
         Sample.db)
  = Sample.db.
Proof.
  refine (@get_routes_are_read_only Sample.literalTest
            (ForumRoutes.mkRoute ForumRoutes.GET "/:postId" [] ForumRoutes.GetPostById)
            (Sample.onPost Sample.carol "p1" EmptyString Sample.noBody)
            Sample.db _ eq_refl).
  simpl. auto.
Defined.

(** X4.  An error the controller makes itself with [createError] (the 400,
    403 and 404 answers) is always raised before anything is written: when
    any of the fifteen actions ends in such an error the database is exactly
    as it was. *)
Theorem refusals_write_nothing (rx : string -> string -> string -> bool)
    (e : ForumRoutes.Export) (req : Request) (db db' : DB)
    (status : nat) (msg : string) :
  ForumRoutes.controller rx e req db = (Next (HttpError status msg), db') ->
  db' = db.
Proof.
  destruct e; cbn [ForumRoutes.controller].
  - unfold createForumPost. unfold_action. unfold write. split_action.
  - unfold getAllPosts. unfold_action. split_action.
  - unfold getPostById. unfold_action. split_action.
  - unfold updatePost. unfold_action. unfold write. split_action.
  - unfold deletePost. unfold_action. unfold write. split_action.
  - unfold addReply. unfold_action. unfold write. split_action.
  - unfold updateReply. unfold_action. unfold write. split_action.
  - unfold deleteReply. unfold_action. unfold write. split_action.
  - unfold getCourseDiscussions. unfold_action. split_action.
  - unfold toggleLikePost. unfold_action. unfold write. split_action.
  - unfold toggleLikeReply. unfold_action. unfold write. split_action.
  - unfold getAnnouncements. unfold_action. split_action.
  - unfold createAnnouncement. unfold_action. unfold write. split_action.
  - unfold pinPost. unfold_action. unfold write. split_action.
  - unfold getMyPosts. unfold_action. split_action.
Qed.

(** Carol may not read the post [p1] of the course [c1]. *)
Lemma refusals_write_nothing_witness :
  fst (getPostById (Sample.onPost Sample.carol "p1" EmptyString Sample.noBody)
         Sample.db)
  = Next (HttpError 403 "You do not have access to this post")
  /\ snd (getPostById (Sample.onPost Sample.carol "p1" EmptyString Sample.noBody)
            Sample.db)
     = Sample.db.
Proof.
  split; [reflexivity|].
  exact (@refusals_write_nothing Sample.literalTest ForumRoutes.GetPostById
           (Sample.onPost Sample.carol "p1" EmptyString Sample.noBody)
           Sample.db _ 403 "You do not have access to this post" eq_refl).
Defined.

(** ** Deleting and pinning a post *)

Lemma removePost_split (id : ObjectId) (before after : list ForumPost)
    (post : ForumPost) :
  post_id post = id ->
  Forall (fun q => post_id q <> id) before ->
  removePost id (before ++ post :: after) = before ++ after.
Proof.
  intros Hid Hall. induction Hall as [|q before Hq _ IH]; simpl.
  - now rewrite Hid, idEq_refl.
  - apply idEq_false in Hq. now rewrite Hq, IH.
Qed.

(** X5.  A successful [deletePost] was asked by the author of the post or by
    the instructor of its course, and removes that post and nothing else:
    the posts before and after it keep their places, and the courses and the
    notifications are as they were. *)
Theorem deletePost_effect (req : Request) (db db' : DB) (st : nat) (data : Payload) :
  deletePost req db = (Json st data, db') ->
  exists post,
    removesPost (p_postId (params req)) post db db'
    /\ (author post = user_id (user req)
        \/ instructsCourseOf db post (user_id (user req))).
Proof.
  unfold deletePost, removesPost, instructsCourseOf. unfold_action.
  destruct (find _ (posts db)) as [post|] eqn:Hf; [|discriminate].
  destruct (find_post_split _ _ Hf) as (before & after & Hps & Hid & Hall).
  assert (Hrm : removePost (post_id post) (posts db) = before ++ after).
  { rewrite Hps. apply removePost_split; [reflexivity|now rewrite Hid]. }
  unfold write.
  destruct (idEq (author post) (user_id (user req))) eqn:Ha; simpl.
  - apply idEq_true in Ha.
    destruct (rejects db) as [|[] rest]; simpl; try discriminate;
      intros H; injection H as <- <- <-; exists post;
      (split; [exists before, after; simpl; rewrite Hrm; auto 10|now left]).
  - destruct (find _ (courses db)) as [course|] eqn:Hc; [|discriminate].
    destruct (idEq (instructor course) (user_id (user req))) eqn:Hi;
      simpl; [|discriminate].
    apply idEq_true in Hi.
    destruct (rejects db) as [|[] rest]; simpl; try discriminate;
      intros H; injection H as <- <- <-; exists post;
      (split; [exists before, after; simpl; rewrite Hrm; auto 10
              |right; exists course; auto]).
Qed.

(** Bob deletes his post [p2]. *)
Lemma deletePost_effect_witness :
  exists post,
    removesPost "p2" post Sample.db
      (mkDB [Sample.examPost; Sample.orphanPost] [Sample.logic] [] [] 1000 7)
    /\ (author post = "u2" \/ instructsCourseOf Sample.db post "u2").
Proof.
  exact (@deletePost_effect (Sample.onPost Sample.bob "p2" EmptyString Sample.noBody)
           Sample.db _ _ _ eq_refl).
Defined.

(** X6.  Who may delete a post that exists.  Its author may, and the course
    is not consulted for that: the post goes even when its course is gone.
    A requester who is neither the author nor the instructor of the course
    that exists is refused with 403 and the post stays. *)
Theorem deletePost_permission (req : Request) (db : DB) (post : ForumPost) :
  find (fun p => idEq (post_id p) (p_postId (params req))) (posts db) = Some post ->
  (author post = user_id (user req) ->
   writeOk db = true ->
   exists db',
     deletePost req db = (Json 200 (Message "Post deleted successfully"), db')
     /\ posts db' = removePost (post_id post) (posts db))
  /\ (forall course,
        author post <> user_id (user req) ->
        find (fun c => idEq (course_id c) (courseId post)) (courses db)
        = Some course ->
        instructor course <> user_id (user req) ->
        deletePost req db
        = (Next (HttpError 403 "You are not authorized to delete this post"), db)).
Proof.
  intros Hf. split.
  - intros Ha Hw. apply idEq_true in Ha.
    destruct (write_ok db Hw) as (db1 & W & P & _).
    unfold deletePost. unfold_action. rewrite Hf, Ha. simpl. rewrite W. simpl.
    rewrite P. eexists. split; reflexivity.
  - intros course Ha Hc Hi. apply idEq_false in Ha, Hi.
    unfold deletePost. unfold_action. rewrite Hf, Hc, Ha. simpl. rewrite Hi.
    reflexivity.
Qed.

(** Alice deletes her post [p3], whose course no longer exists. *)
Lemma deletePost_permission_witness :
  exists db',
    deletePost (Sample.onPost Sample.alice "p3" EmptyString Sample.noBody) Sample.db
    = (Json 200 (Message "Post deleted successfully"), db')
    /\ posts db' = [Sample.examPost; Sample.notesPost].
Proof.
  exact (proj1 (@deletePost_permission
                  (Sample.onPost Sample.alice "p3" EmptyString Sample.noBody)
                  Sample.db Sample.orphanPost eq_refl) eq_refl eq_refl).
Defined.

(** X7.  A successful [pinPost] was asked by the instructor of the course of
    the post; it negates the flag [isPinned] of that post, where a missing
    flag counts as false, reports the new flag and changes nothing else of
    the post, no other post and no course. *)
Theorem pinPost_effect (req : Request) (db db' : DB) (st : nat) (data : Payload) :
  pinPost req db = (Json st data, db') ->
  exists post,
    instructsCourseOf db post (user_id (user req))
    /\ data = PinData (Some (jsNot (isPinned post)))
    /\ replacesPost (p_postId (params req)) post
         (setIsPinned post (Some (jsNot (isPinned post)))) db db'
    /\ notifications db' = notifications db.
Proof.
  unfold pinPost, replacesPost, instructsCourseOf. unfold_action.
  destruct (find _ (posts db)) as [post|] eqn:Hf; [|discriminate].
  destruct (find_post_split _ _ Hf) as (before & after & Hps & Hid & Hall).
  destruct (find _ (courses db)) as [course|] eqn:Hc; [|discriminate].
  destruct (idEq (instructor course) (user_id (user req))) eqn:Hi;
    simpl; [|discriminate].
  apply idEq_true in Hi.
  assert (Hrp : replacePost (setIsPinned post (Some (jsNot (isPinned post))))
                  (posts db)
                = before ++ setIsPinned post (Some (jsNot (isPinned post))) :: after).
  { rewrite Hps. apply replacePost_split; simpl; [reflexivity|now rewrite Hid]. }
  unfold write.
  destruct (rejects db) as [|[] rest]; simpl; try discriminate;
    intros H; injection H as <- <- <-; exists post;
    (split; [exists course; auto|]); (split; [reflexivity|]);
    (split; [exists before, after; simpl; rewrite Hrp; auto 10|reflexivity]).
Qed.

(** Ines pins the post [p2] of her course. *)
Lemma pinPost_effect_witness :
  exists post,
    instructsCourseOf Sample.db post "t1"
    /\ PinData (Some true) = PinData (Some (jsNot (isPinned post)))
    /\ replacesPost "p2" post (setIsPinned post (Some (jsNot (isPinned post))))
         Sample.db
         (mkDB [Sample.examPost; setIsPinned Sample.notesPost (Some true);
                Sample.orphanPost]
               [Sample.logic] [] [] 1000 7)
    /\ @nil Notification.t = [].
Proof.
  exact (@pinPost_effect (Sample.onPost Sample.ines "p2" EmptyString Sample.noBody)
           Sample.db _ _ _ eq_refl).
Defined.

(** X8.  [pinPost] undoes itself: after two requests of the course
    instructor the post has the flag [isPinned] it had, a missing flag
    having become false. *)
Theorem pinPost_twice (req : Request) (db : DB) (post : ForumPost) :
  find (fun p => idEq (post_id p) (p_postId (params req))) (posts db) = Some post ->
  instructsCourseOf db post (user_id (user req)) ->
  rejects db = [] ->
  storedPinned (p_postId (params req)) (snd (pinPost req db))
  = Some (Some (jsNot (isPinned post)))
  /\ storedPinned (p_postId (params req)) (snd (pinPost req (snd (pinPost req db))))
     = Some (Some (Js.orElse (isPinned post) false)).
Proof.
  intros Hf (course & Hc & Hi) Hr. apply idEq_true in Hi.
  assert (Hf1 : find (fun p => idEq (post_id p) (p_postId (params req)))
                  (replacePost (setIsPinned post (Some (jsNot (isPinned post))))
                     (posts db))
                = Some (setIsPinned post (Some (jsNot (isPinned post))))).
  { now apply find_replacePost with (p := post). }
  assert (E1 : pinPost req db
               = (Json 200 (PinData (Some (jsNot (isPinned post)))),
                  mkDB (replacePost (setIsPinned post (Some (jsNot (isPinned post))))
                          (posts db))
                       (courses db) (notifications db) (rejects db) (clock db)
                       (nextId db))).
  { unfold pinPost. unfold_action. unfold write.
    rewrite Hf, Hc, Hi. repeat (simpl; rewrite ?Hr). reflexivity. }
  rewrite E1. cbn [snd]. unfold storedPinned at 1. cbn [posts].
  rewrite Hf1. split; [reflexivity|].
  unfold pinPost. unfold_action. unfold write. cbn [posts courses rejects].
  rewrite Hf1. simpl. rewrite Hc, Hi.
  repeat (simpl; rewrite ?Hr). unfold storedPinned. cbn [posts].
  erewrite find_replacePost; [|exact Hf1|reflexivity].
  simpl. destruct (isPinned post) as [[]|]; reflexivity.
Qed.

(** Ines pins and unpins [p2], which had no flag. *)
Lemma pinPost_twice_witness :
  storedPinned "p2"
    (snd (pinPost (Sample.onPost Sample.ines "p2" EmptyString Sample.noBody)
            Sample.db))
  = Some (Some true)
  /\ storedPinned "p2"
       (snd (pinPost (Sample.onPost Sample.ines "p2" EmptyString Sample.noBody)
          (snd (pinPost (Sample.onPost Sample.ines "p2" EmptyString Sample.noBody)
                  Sample.db))))
     = Some (Some false).
Proof.
  refine (@pinPost_twice (Sample.onPost Sample.ines "p2" EmptyString Sample.noBody)
            Sample.db Sample.notesPost eq_refl _ eq_refl).
  exists Sample.logic. split; reflexivity.
Defined.

(** ** Replies *)

Lemma last_some_app {A : Type} (l : list A) (x : A) :
  last (map Some (l ++ [x])) None = Some x.
Proof. rewrite map_app. apply last_last. Qed.

Lemma removeReply_filter (id : ObjectId) (rs : list Reply) :
  removeReply id rs = filter (fun r => negb (String.eqb (reply_id r) id)) rs.
Proof.
  induction rs as [|q rs IH]; simpl; [reflexivity|].
  unfold idEq. destruct (String.eqb (reply_id q) id); simpl; now rewrite IH.
Qed.

Lemma filter_others (id : ObjectId) (rs : list Reply) :
  Forall (fun r => reply_id r <> id) rs ->
  filter (fun r => negb (String.eqb (reply_id r) id)) rs = rs.
Proof.
  induction 1 as [|q rs Hq _ IH]; simpl; [reflexivity|].
  apply String.eqb_neq in Hq. now rewrite Hq, IH.
Qed.

Lemma removeReply_split (id : ObjectId) (before after : list Reply) (reply : Reply) :
  reply_id reply = id ->
  Forall (fun q => reply_id q <> id) before ->
  removeReply id (before ++ reply :: after)
  = before ++ filter (fun r => negb (String.eqb (reply_id r) id)) after.
Proof.
  intros Hid Hall. rewrite removeReply_filter, filter_app, filter_others by exact Hall.
  simpl. now rewrite Hid, String.eqb_refl.
Qed.

(** X9.  A successful [addReply] was asked by a student enrolled in the
    course of the post or by its instructor.  It appends one reply to the
    replies of the post: the requester's, with the content and attachments
    of the body and no likes; it answers with that reply; and it adds one
    unread notification of type [Forum Reply] for the author of the post,
    also when the author replies to the own post. *)
Theorem addReply_effect (req : Request) (db db' : DB) (st : nat) (data : Payload) :
  addReply req db = (Json st data, db') ->
  exists post course reply,
    find (fun c => idEq (course_id c) (courseId post)) (courses db) = Some course
    /\ noAccess course (user_id (user req)) = false
    /\ reply = mkReply (NilZero.string_of_uint (Nat.to_uint (nextId db)))
                 (user_id (user req)) (b_content (body req))
                 (Js.orElse (b_attachments (body req)) []) [] None
    /\ data = ReplyData (Some reply)
    /\ replacesPost (p_postId (params req)) post
         (setReplies post (replies post ++ [reply])) db db'
    /\ notifications db'
       = notifications db
         ++ [Notification.make (author post) (replyMessage post (user req) course)
               "Forum Reply" false (clock db)].
Proof.
  unfold addReply. unfold_action.
  destruct (find _ (posts db)) as [post|] eqn:Hf; [|discriminate].
  destruct (find _ (courses db)) as [course|] eqn:Hc; [|discriminate].
  destruct (noAccess course (user_id (user req))) eqn:Ha; [discriminate|].
  set (reply := mkReply (NilZero.string_of_uint (Nat.to_uint (nextId db)))
                  (user_id (user req)) (b_content (body req))
                  (Js.orElse (b_attachments (body req)) []) [] None).
  set (post' := setReplies post (Js.push (replies post) reply)).
  assert (Hid : post_id post = p_postId (params req)).
  { apply find_some in Hf. apply idEq_true, Hf. }
  assert (Hf1 : find (fun p => idEq (post_id p) (post_id post))
                  (replacePost post' (posts db)) = Some post').
  { rewrite Hid. now apply find_replacePost with (p := post). }
  intros H. exists post, course, reply.
  split; [exact Hc|]. split; [exact Ha|]. split; [reflexivity|].
  revert H. unfold write.
  destruct (rejects db) as [|[] [|[] rest]] eqn:Hr;
    repeat (cbn [fst snd posts courses notifications rejects clock nextId];
            rewrite ?Hr, ?Hf1);
    try discriminate; simpl;
    intros H; injection H as <- <- <-;
    (split; [unfold post', Js.push; simpl; now rewrite last_some_app|]);
    (split; [apply replacePost_in_place; auto|reflexivity]).
Qed.

(** Alice replies to her own post [p1] and is notified of it. *)
Lemma addReply_effect_witness :
  exists post course reply,
    find (fun c => idEq (course_id c) (courseId post)) [Sample.logic] = Some course
    /\ noAccess course "u1" = false
    /\ reply = mkReply "7" "u1" (Some "Thanks!") [] [] None
    /\ ReplyData (Some (mkReply "7" "u1" (Some "Thanks!") [] [] None))
       = ReplyData (Some reply)
    /\ replacesPost "p1" post (setReplies post (replies post ++ [reply]))
         Sample.db
         (snd (addReply (Sample.onPost Sample.alice "p1" EmptyString Sample.thanks)
                 Sample.db))
    /\ notifications
         (snd (addReply (Sample.onPost Sample.alice "p1" EmptyString Sample.thanks)
                 Sample.db))
       = [] ++ [Notification.make (author post)
                  (replyMessage post Sample.alice course) "Forum Reply" false 1000].
Proof.
  exact (@addReply_effect (Sample.onPost Sample.alice "p1" EmptyString Sample.thanks)
           Sample.db _ _ _ eq_refl).
Defined.

(** X10.  A successful [deleteReply] was asked by the author of the reply
    named by the request, the first of that name, or by the instructor of
    the course of the post.  It takes out of the replies of the post every
    reply of that name, which is that reply alone when no other reply shares
    its id, and leaves the other replies in their order, the other posts,
    the courses and the notifications as they were. *)
Theorem deleteReply_effect (req : Request) (db db' : DB) (st : nat) (data : Payload) :
  deleteReply req db = (Json st data, db') ->
  exists post post' reply,
    removesReply (p_replyId (params req)) reply post post'
    /\ replacesPost (p_postId (params req)) post post' db db'
    /\ notifications db' = notifications db
    /\ (reply_author reply = user_id (user req)
        \/ instructsCourseOf db post (user_id (user req))).
Proof.
  unfold deleteReply, instructsCourseOf. unfold_action.
  destruct (find _ (posts db)) as [post|] eqn:Hf; [|discriminate].
  destruct (replies_id (replies post) (p_replyId (params req)))
    as [reply|] eqn:Hy; [|discriminate].
  destruct (find_reply_split _ _ Hy) as (rb & ra & Hrs & Hrid & Hrall).
  assert (Hrm : removesReply (p_replyId (params req)) reply post
                  (setReplies post (removeReply (reply_id reply) (replies post)))).
  { assert (E : removeReply (reply_id reply) (replies post)
                = rb ++ filter (fun r => negb (String.eqb (reply_id r)
                                                 (p_replyId (params req)))) ra).
    { rewrite Hrs at 1. rewrite Hrid. now apply removeReply_split. }
    exists rb, ra. repeat (split; [assumption|]). rewrite E.
    split; [reflexivity|]. intros Hra. now rewrite filter_others. }
  intros H.
  exists post, (setReplies post (removeReply (reply_id reply) (replies post))), reply.
  split; [exact Hrm|]. revert H. unfold write.
  destruct (idEq (reply_author reply) (user_id (user req))) eqn:Ha; simpl.
  - apply idEq_true in Ha.
    destruct (rejects db) as [|[] rest]; simpl; try discriminate;
      intros H; injection H as <- <- <-;
      (split; [apply replacePost_in_place; auto|]);
      (split; [reflexivity|now left]).
  - destruct (find _ (courses db)) as [course|] eqn:Hc; [|discriminate].
    destruct (idEq (instructor course) (user_id (user req))) eqn:Hi;
      simpl; [|discriminate].
    apply idEq_true in Hi.
    destruct (rejects db) as [|[] rest]; simpl; try discriminate;
      intros H; injection H as <- <- <-;
      (split; [apply replacePost_in_place; auto|]);
      (split; [reflexivity|right; exists course; auto]).
Qed.

(** Ines, the instructor, deletes the reply [r1] of Bob; and Alice deletes
    her reply [r2] from a post that holds it twice, around a reply of Bob. *)
Lemma deleteReply_effect_witness :
  (exists post post' reply,
      removesReply "r1" reply post post'
      /\ replacesPost "p1" post post' Sample.db
           (mkDB [setReplies Sample.examPost []; Sample.notesPost; Sample.orphanPost]
                 [Sample.logic] [] [] 1000 7)
      /\ @nil Notification.t = []
      /\ (reply_author reply = "t1" \/ instructsCourseOf Sample.db post "t1"))
  /\ (exists post post' reply,
        removesReply "r2" reply post post'
        /\ replacesPost "p2" post post' Sample.twice
             (mkDB [Sample.examPost; setReplies Sample.notesPost [Sample.answer];
                    Sample.orphanPost]
                   [Sample.logic] [] [] 1000 7)
        /\ @nil Notification.t = []
        /\ (reply_author reply = "u1" \/ instructsCourseOf Sample.twice post "u1")).
Proof.
  split.
  - exact (@deleteReply_effect (Sample.onPost Sample.ines "p1" "r1" Sample.noBody)
             Sample.db _ _ _ eq_refl).
  - exact (@deleteReply_effect (Sample.onPost Sample.alice "p2" "r2" Sample.noBody)
             Sample.twice _ _ _ eq_refl).
Defined.



(** ** Creating a post *)

(** X12.  A successful [createForumPost] stores one new post at the end of
    the collection: the requester's, in the course of the body, with the
    title, content, category and tags of the body, its attachments or none,
    no likes and no replies.  The requester is an instructor by role exactly
    when the category is [Announcement].  The instructor of the course gets
    one unread notification of type [Forum Post], unless the instructor is
    the requester, who gets none. *)
Theorem createForumPost_effect (req : Request) (db db' : DB) (st : nat)
    (data : Payload) :
  createForumPost req db = (Json st data, db') ->
  exists cid course post,
    b_courseId (body req) = Some cid
    /\ find (fun c => idEq (course_id c) cid) (courses db) = Some course
    /\ isInstructorRole (role (user req))
       = isString (b_category (body req)) "Announcement"
    /\ post = mkPost (NilZero.string_of_uint (Nat.to_uint (nextId db))) cid
                (user_id (user req)) (b_title (body req)) (b_content (body req))
                (b_category (body req)) (b_tags (body req))
                (Js.orElse (b_attachments (body req)) []) [] [] None
                (Some (isString (b_category (body req)) "Announcement")) (clock db)
    /\ st = 201 /\ data = PostData post
    /\ posts db' = posts db ++ [post]
    /\ notifications db'
       = notifications db
         ++ (if idEq (instructor course) (user_id (user req)) then []
             else [Notification.make (instructor course)
                     (forumPostMessage course (user req) (b_title (body req)))
                     "Forum Post" false (clock db)]).
Proof.
  unfold createForumPost. unfold_action.
  destruct (b_courseId (body req)) as [cid|] eqn:Hb; [|discriminate].
  destruct (find _ (courses db)) as [course|] eqn:Hc; [|discriminate].
  intros H.
  exists cid, course,
    (mkPost (NilZero.string_of_uint (Nat.to_uint (nextId db))) cid
       (user_id (user req)) (b_title (body req)) (b_content (body req))
       (b_category (body req)) (b_tags (body req))
       (Js.orElse (b_attachments (body req)) []) [] [] None
       (Some (isString (b_category (body req)) "Announcement")) (clock db)).
  split; [reflexivity|]. split; [exact Hc|].
  revert H. unfold write.
  destruct (isInstructorRole (role (user req)));
    destruct (isString (b_category (body req)) "Announcement");
    simpl; try discriminate;
    destruct (idEq (instructor course) (user_id (user req)));
    destruct (rejects db) as [|[] [|[] rest]] eqn:Hr;
    repeat (simpl; rewrite ?Hr); try discriminate;
    intros H; injection H as <- <- <-;
    repeat (split; [reflexivity|]); simpl; now rewrite ?app_nil_r.
Qed.

(** Alice asks a question in [c1]; Ines is notified. *)
Lemma createForumPost_effect_witness :
  exists cid course post,
    Some "c1" = Some cid
    /\ find (fun c => idEq (course_id c) cid) [Sample.logic] = Some course
    /\ false = false
    /\ post = mkPost "7" cid "u1" (Some "Homework 2") (Some "Is exercise 4 graded?")
                (Some "Question") None [] [] [] None (Some false) 1000%Z
    /\ 201 = 201
    /\ PostData (mkPost "7" "c1" "u1" (Some "Homework 2")
                   (Some "Is exercise 4 graded?") (Some "Question") None [] [] []
                   None (Some false) 1000%Z)
       = PostData post
    /\ posts (snd (createForumPost
                     (Sample.onPost Sample.alice EmptyString EmptyString
                        Sample.question) Sample.db))
       = posts Sample.db ++ [post]
    /\ notifications (snd (createForumPost
                             (Sample.onPost Sample.alice EmptyString EmptyString
                                Sample.question) Sample.db))
       = [] ++ (if idEq (instructor course) "u1" then []
                else [Notification.make (instructor course)
                        (forumPostMessage course Sample.alice (Some "Homework 2"))
                        "Forum Post" false 1000]).
Proof.
  exact (@createForumPost_effect
           (Sample.onPost Sample.alice EmptyString EmptyString Sample.question)
           Sample.db _ _ _ eq_refl).
Defined.

(** X13.  [createForumPost] tests that the course exists, not that the
    requester belongs to it: whoever the requester is, enrolled or not, the
    post is stored when the course exists, the category agrees with the role
    and no write is rejected. *)
Theorem createForumPost_ignores_enrollment (req : Request) (db : DB)
    (cid : ObjectId) (course : Course) :
  b_courseId (body req) = Some cid ->
  find (fun c => idEq (course_id c) cid) (courses db) = Some course ->
  isInstructorRole (role (user req))
  = isString (b_category (body req)) "Announcement" ->
  rejects db = [] ->
  exists post db',
    createForumPost req db = (Json 201 (PostData post), db')
    /\ posts db' = posts db ++ [post]
    /\ author post = user_id (user req)
    /\ courseId post = cid.
Proof.
  intros Hb Hc Hcat Hr.
  unfold createForumPost. unfold_action. unfold write.
  rewrite Hb, Hc, Hcat.
  destruct (isString (b_category (body req)) "Announcement");
    destruct (idEq (instructor course) (user_id (user req)));
    repeat (simpl; rewrite ?Hr);
    do 2 eexists; (split; [reflexivity|]); simpl; auto.
Qed.

(** Carol, who is not enrolled in [c1], posts a question there. *)
Lemma createForumPost_ignores_enrollment_witness :
  isEnrolled Sample.logic (user_id Sample.carol) = false
  /\ exists post db',
       createForumPost
         (Sample.onPost Sample.carol EmptyString EmptyString Sample.question)
         Sample.db
       = (Json 201 (PostData post), db')
       /\ posts db' = posts Sample.db ++ [post]
       /\ author post = "u3"
       /\ courseId post = "c1".
Proof.
  split; [reflexivity|].
  exact (@createForumPost_ignores_enrollment
           (Sample.onPost Sample.carol EmptyString EmptyString Sample.question)
           Sample.db "c1" Sample.logic eq_refl eq_refl eq_refl eq_refl).
Defined.

(** ** Access to a course *)

Lemma noAccess_false (c : Course) (uid : ObjectId) :
  noAccess c uid = false <-> In uid (enrolledStudents c) \/ instructor c = uid.
Proof.
  unfold noAccess, isEnrolled.
  rewrite andb_false_iff, !negb_false_iff, existsb_exists.
  split; intros [H|H].
  - left. destruct H as (s & Hs & E). apply idEq_true in E. now subst.
  - right. now apply idEq_true.
  - left. exists uid. split; [exact H|apply idEq_refl].
  - right. now apply idEq_true.
Qed.

(** X14.  Reading a post, listing the discussions of a course and replying
    are open to the students enrolled in the course and to its instructor,
    and to nobody else: for a post and a course that exist, [getPostById]
    answers with the post when the requester is one of them, and otherwise
    [getPostById], [getCourseDiscussions] and [addReply] answer 403. *)
Theorem course_access (rx : string -> string -> string -> bool)
    (req : Request) (db : DB) (post : ForumPost) (course : Course) :
  find (fun p => idEq (post_id p) (p_postId (params req))) (posts db) = Some post ->
  find (fun c => idEq (course_id c) (courseId post)) (courses db) = Some course ->
  (In (user_id (user req)) (enrolledStudents course)
   \/ instructor course = user_id (user req) ->
   getPostById req db = (Json 200 (PostData post), db))
  /\ (~ In (user_id (user req)) (enrolledStudents course) ->
      instructor course <> user_id (user req) ->
      getPostById req db
      = (Next (HttpError 403 "You do not have access to this post"), db)
      /\ addReply req db
         = (Next (HttpError 403 "You are not authorized to reply to this post"), db)
      /\ (p_courseId (params req) = courseId post ->
          getCourseDiscussions rx req db
          = (Next (HttpError 403 "You do not have access to this course"), db))).
Proof.
  intros Hf Hc. split.
  - intros Hin. apply noAccess_false in Hin.
    unfold getPostById. unfold_action. rewrite Hf, Hc, Hin. reflexivity.
  - intros Hout Hne.
    assert (Hno : noAccess course (user_id (user req)) = true).
    { destruct (noAccess course (user_id (user req))) eqn:E; [reflexivity|].
      apply noAccess_false in E. tauto. }
    split; [|split].
    + unfold getPostById. unfold_action. rewrite Hf, Hc, Hno. reflexivity.
    + unfold addReply. unfold_action. rewrite Hf, Hc, Hno. reflexivity.
    + intros Hp. unfold getCourseDiscussions. unfold_action.
      rewrite Hp, Hc, Hno. reflexivity.
Qed.

(** Bob, enrolled in [c1], reads [p1]. *)
Lemma course_access_witness :
  getPostById (Sample.onPost Sample.bob "p1" EmptyString Sample.noBody) Sample.db
  = (Json 200 (PostData Sample.examPost), Sample.db).
Proof.
  refine (proj1 (@course_access Sample.literalTest
                   (Sample.onPost Sample.bob "p1" EmptyString Sample.noBody)
                   Sample.db Sample.examPost Sample.logic eq_refl eq_refl) _).
  left. simpl. auto.
Defined.

(** X15.  Without a [courseId] in the query, [getAnnouncements] makes no
    access test: any requester gets the announcements of all courses, newest
    first. *)
Theorem getAnnouncements_of_all_courses (rx : string -> string -> string -> bool)
    (req : Request) (db : DB) :
  Js.truthy (q_courseId (query req)) = false ->
  getAnnouncements rx req db
  = (Json 200 (PostList
       (sortPosts [CreatedAtDesc]
          (filter (fun p => isString (category p) "Announcement") (posts db)))),
     db).
Proof.
  intros Ht. unfold getAnnouncements. unfold_action. rewrite Ht. simpl.
  unfold skipLimit, matchSet. simpl. do 4 f_equal. apply filter_ext. intros p.
  unfold matches. simpl. now rewrite !andb_true_r.
Qed.

(** Carol, a member of no course, reads the announcement of [c1]. *)
Lemma getAnnouncements_of_all_courses_witness :
  getAnnouncements Sample.literalTest
    (Sample.listing Sample.carol EmptyString Sample.noQuery) Sample.db3
  = (Json 200 (PostList [Sample.noticePost]), Sample.db3).
Proof.
  exact (@getAnnouncements_of_all_courses Sample.literalTest
           (Sample.listing Sample.carol EmptyString Sample.noQuery) Sample.db3
           eq_refl).
Defined.

(** ** The notifications pass the schema *)

Ltac split_validated :=
  repeat (match goal with
          | |- context [match ?x with _ => _ end] =>
              lazymatch x with
              | context [match _ with _ => _ end] => fail
              | _ => destruct x eqn:?
              end
          end; cbn [fst snd posts courses notifications rejects clock nextId];
          rewrite ?studentNotifications_valid in *;
          try (simpl in *; congruence)).

(** X16.  No action ever ends in a validation error of the notification
    schema: the three types the controller writes, [Forum Post],
    [Forum Reply] and [Announcement], are members of the enum of the schema
    and no message it builds is empty. *)
Theorem notifications_always_validate (rx : string -> string -> string -> bool)
    (e : ForumRoutes.Export) (req : Request) (db : DB) :
  isValidationError (fst (ForumRoutes.controller rx e req db)) = false.
Proof.
  destruct e; cbn [ForumRoutes.controller].
  - unfold createForumPost. unfold_action. unfold write. split_validated.
  - unfold getAllPosts. unfold_action. split_validated.
  - unfold getPostById. unfold_action. split_validated.
  - unfold updatePost. unfold_action. unfold write. split_validated.
  - unfold deletePost. unfold_action. unfold write. split_validated.
  - unfold addReply. unfold_action. unfold write. split_validated.
  - unfold updateReply. unfold_action. unfold write. split_validated.
  - unfold deleteReply. unfold_action. unfold write. split_validated.
  - unfold getCourseDiscussions. unfold_action. split_validated.
  - unfold toggleLikePost. unfold_action. unfold write. split_validated.
  - unfold toggleLikeReply. unfold_action. unfold write. split_validated.
  - unfold getAnnouncements. unfold_action. split_validated.
  - unfold createAnnouncement. unfold_action. unfold write. split_validated.
  - unfold pinPost. unfold_action. unfold write. split_validated.
  - unfold getMyPosts. unfold_action. split_validated.
Qed.

(* ================================================================== *)
(** * Further properties of the routers *)

(** X17.  [getAllPosts] is the only action of the forum controller that no
    request reaches: for every other export there is a method and a path
    the router dispatches to it. *)
Theorem only_getAllPosts_is_unreachable (e : ForumRoutes.Export) :
  (exists m url r bs,
      ForumRoutes.dispatch m url = Some (r, bs) /\ ForumRoutes.handler r = e)
  <-> e <> ForumRoutes.GetAllPosts.
Proof.
  split.
  - intros (m & url & r & bs & Hd & <-).
    exact (RouteFacts.dispatch_never_getAllPosts _ _ Hd).
  - intros Hne. destruct e; try congruence.
    + exists ForumRoutes.POST, "/create". do 2 eexists. split; reflexivity.
    + exists ForumRoutes.GET, "/p1". do 2 eexists. split; reflexivity.
    + exists ForumRoutes.PUT, "/p1". do 2 eexists. split; reflexivity.
    + exists ForumRoutes.DELETE, "/p1". do 2 eexists. split; reflexivity.
    + exists ForumRoutes.POST, "/p1/reply". do 2 eexists. split; reflexivity.
    + exists ForumRoutes.PUT, "/p1/reply/r1". do 2 eexists. split; reflexivity.
    + exists ForumRoutes.DELETE, "/p1/reply/r1". do 2 eexists. split; reflexivity.
    + exists ForumRoutes.GET, "/course/c1". do 2 eexists. split; reflexivity.
    + exists ForumRoutes.POST, "/p1/like". do 2 eexists. split; reflexivity.
    + exists ForumRoutes.POST, "/p1/reply/r1/like". do 2 eexists.
      split; reflexivity.
    + exists ForumRoutes.GET, "/announcements". do 2 eexists. split; reflexivity.
    + exists ForumRoutes.POST, "/announcement". do 2 eexists. split; reflexivity.
    + exists ForumRoutes.PUT, "/p1/pin". do 2 eexists. split; reflexivity.
    + exists ForumRoutes.GET, "/my-posts". do 2 eexists. split; reflexivity.
Qed.

(** The instructor-only [pinPost] is reached. *)
Lemma only_getAllPosts_is_unreachable_witness :
  exists m url r bs,
    ForumRoutes.dispatch m url = Some (r, bs)
    /\ ForumRoutes.handler r = ForumRoutes.PinPost.
Proof.
  apply (proj2 (only_getAllPosts_is_unreachable ForumRoutes.PinPost)).
  discriminate.
Defined.

(** ** The chat router *)

Module ChatFacts.
Import ChatRoutes.

Lemma matchSegments_length (pats segs : list string) :
  ForumRoutes.matchSegments pats segs <> None ->
  List.length pats = List.length segs.
Proof.
  revert segs. induction pats as [|p pats IH]; intros [|s segs]; simpl;
    try congruence.
  intros H. f_equal. apply IH. intros E. rewrite E in H.
  destruct (ForumRoutes.matchSegment p s); congruence.
Qed.

Lemma matchSegment_literal (c : ascii) (lit s : string) :
  c <> ":"%char ->
  ForumRoutes.matchSegment (String c lit) s
  = if String.eqb (Js.toLowerCase (String c lit)) (Js.toLowerCase s)
    then Some [] else None.
Proof.
  intros Hc. unfold ForumRoutes.matchSegment.
  destruct c as [[] [] [] [] [] [] [] []]; try reflexivity. congruence.
Qed.

(** A pattern that starts with a literal matches only paths that start with
    the same word, up to case. *)
Lemma matchSegments_head (c : ascii) (lit : string) (pats segs : list string) :
  c <> ":"%char ->
  ForumRoutes.matchSegments (String c lit :: pats) segs <> None ->
  Js.toLowerCase (hd EmptyString segs) = Js.toLowerCase (String c lit).
Proof.
  intros Hc. destruct segs as [|s segs]; cbn [ForumRoutes.matchSegments hd];
    [congruence|].
  rewrite (matchSegment_literal lit s Hc).
  destruct (String.eqb_spec (Js.toLowerCase (String c lit)) (Js.toLowerCase s))
    as [->|_]; [reflexivity|congruence].
Qed.

Lemma recent_or_participants (segs : list string) :
  ForumRoutes.matchSegments ["recent"; ":courseId"] segs <> None ->
  ForumRoutes.matchSegments ["participants"; ":courseId"] segs <> None ->
  False.
Proof.
  intros H1 H2.
  apply matchSegments_head in H1; [|discriminate].
  apply matchSegments_head in H2; [|discriminate].
  rewrite H1 in H2. discriminate H2.
Qed.

(** A route that matches has the method of the request and as many
    segments as its path. *)
Lemma matchRoute_shape (r : Route) (m : ForumRoutes.Method) (url : string) :
  matchRoute r m url <> None ->
  method r = m
  /\ List.length (ForumRoutes.segments (pattern r))
     = List.length (ForumRoutes.segments url).
Proof.
  unfold matchRoute. intros H. split.
  - destruct (method r), m; simpl in H; congruence.
  - apply matchSegments_length.
    destruct (ForumRoutes.methodEq (method r) m); congruence.
Qed.

Lemma no_overlap (m : ForumRoutes.Method) (url : string) (r1 r2 : Route) :
  In r1 chatRouter ->
  In r2 chatRouter ->
  matchRoute r1 m url <> None ->
  matchRoute r2 m url <> None ->
  r1 = r2.
Proof.
  intros H1 H2 M1 M2.
  destruct (@matchRoute_shape _ _ _ M1) as (E1 & L1).
  destruct (@matchRoute_shape _ _ _ M2) as (E2 & L2).
  assert (Hm : method r1 = method r2) by congruence.
  assert (Hl : List.length (ForumRoutes.segments (pattern r1))
               = List.length (ForumRoutes.segments (pattern r2))) by congruence.
  clear L1 L2 E2. unfold chatRouter in H1, H2. simpl In in H1, H2.
  repeat (destruct H1 as [<-|H1]); try contradiction;
    repeat (destruct H2 as [<-|H2]); try contradiction;
    try reflexivity; try discriminate Hm; try discriminate Hl; exfalso;
    unfold matchRoute in M1, M2; cbn [method pattern] in M1, M2, E1;
    subst m; cbn [ForumRoutes.methodEq] in M1, M2;
    first [ exact (@recent_or_participants _ M1 M2)
          | exact (@recent_or_participants _ M2 M1) ].
Qed.

(** The route [dispatchIn] returns is one of the list and matches; it
    returns one as soon as a route of the list matches. *)
Lemma dispatchIn_some (rs : list Route) (m : ForumRoutes.Method) (url : string)
    (r : Route) (bs : list (string * string)) :
  dispatchIn rs m url = Some (r, bs) ->
  In r rs /\ matchRoute r m url = Some bs.
Proof.
  induction rs as [|r0 rs IH]; simpl; [discriminate|].
  destruct (matchRoute r0 m url) as [b0|] eqn:E.
  - intros H. injection H as <- <-. auto.
  - intros H. destruct (IH H). auto.
Qed.

Lemma dispatchIn_none (rs : list Route) (m : ForumRoutes.Method) (url : string)
    (r : Route) :
  dispatchIn rs m url = None -> In r rs -> matchRoute r m url = None.
Proof.
  induction rs as [|r0 rs IH]; simpl; [contradiction|].
  destruct (matchRoute r0 m url) as [b0|] eqn:E; [discriminate|].
  intros H [<-|Hin]; [exact E|now apply IH].
Qed.

End ChatFacts.

(** X18.  The routes of the chat router do not overlap: a method and a path
    are matched by at most one route.  So the order in which the routes are
    registered does not matter: a route that matches a request is the route
    the request is dispatched to. *)
Theorem chat_routes_do_not_overlap (m : ForumRoutes.Method) (url : string) :
  (forall r1 r2,
      In r1 ChatRoutes.chatRouter ->
      In r2 ChatRoutes.chatRouter ->
      ChatRoutes.matchRoute r1 m url <> None ->
      ChatRoutes.matchRoute r2 m url <> None ->
      r1 = r2)
  /\ (forall r bs,
        In r ChatRoutes.chatRouter ->
        ChatRoutes.matchRoute r m url = Some bs ->
        ChatRoutes.dispatch m url = Some (r, bs)).
Proof.
  split; [intros r1 r2; apply ChatFacts.no_overlap|].
  intros r bs Hin Hm. unfold ChatRoutes.dispatch.
  destruct (ChatRoutes.dispatchIn ChatRoutes.chatRouter m url) as [[r' bs']|] eqn:E.
  - apply ChatFacts.dispatchIn_some in E as (Hin' & Hm').
    assert (r' = r).
    { apply (@ChatFacts.no_overlap m url); auto; congruence. }
    subst r'. congruence.
  - rewrite (@ChatFacts.dispatchIn_none _ _ _ _ E Hin) in Hm. discriminate.
Qed.

(** [GET /participants/c1] matches the last route of the router and is
    dispatched to it. *)
Lemma chat_routes_do_not_overlap_witness :
  ChatRoutes.dispatch ForumRoutes.GET "/participants/c1"
  = Some (ChatRoutes.mkRoute ForumRoutes.GET "/participants/:courseId"
            ChatRoutes.GetCourseParticipants, [("courseId", "c1")]).
Proof.
  refine (proj2 (@chat_routes_do_not_overlap ForumRoutes.GET "/participants/c1")
            (ChatRoutes.mkRoute ForumRoutes.GET "/participants/:courseId"
               ChatRoutes.GetCourseParticipants)
            [("courseId", "c1")] _ eq_refl).
  simpl. auto 10.
Defined.

(* ================================================================== *)
(** * The client against the router *)

Module WiringFacts.
Import Wiring.

Lemma toLowerCase_length (s : string) :
  String.length (Js.toLowerCase s) = String.length s.
Proof. induction s as [|c s IH]; simpl; [reflexivity|now rewrite IH]. Qed.

Lemma append_assoc (a b c : string) :
  ((a ++ b) ++ c)%string = (a ++ (b ++ c))%string.
Proof. induction a as [|x a IH]; simpl; [reflexivity|now rewrite IH]. Qed.

Lemma hex_not_slash (c : ascii) :
  isHexDigit c = true -> Ascii.eqb c "/" = false.
Proof.
  intros H. destruct (Ascii.eqb_spec c "/") as [->|_]; [discriminate H|reflexivity].
Qed.

(** Splitting runs over a word of hexadecimal digits without a cut. *)
Lemma splitAcc_hex (s rest cur : string) :
  forallb isHexDigit (list_ascii_of_string s) = true ->
  ForumRoutes.splitAcc (s ++ rest) cur = ForumRoutes.splitAcc rest (cur ++ s).
Proof.
  revert cur. induction s as [|c s IH]; intros cur H.
  - simpl. f_equal. clear. induction cur as [|x cur IH]; simpl; congruence.
  - simpl in H. apply andb_true_iff in H as (Hc & Hs).
    simpl. rewrite (hex_not_slash _ Hc), (IH _ Hs), append_assoc. reflexivity.
Qed.

Section Ids.

Variable a : string.
Hypothesis a_id : isObjectId a = true.

Lemma id_hex : forallb isHexDigit (list_ascii_of_string a) = true.
Proof. unfold isObjectId in a_id. now apply andb_true_iff in a_id. Qed.

Lemma id_length : String.length a = 24.
Proof.
  unfold isObjectId in a_id. apply andb_true_iff in a_id as (H & _).
  now apply Nat.eqb_eq.
Qed.

Lemma id_cons : exists c r, a = String c r.
Proof.
  pose proof id_length as H. destruct a as [|c r]; [discriminate H|eauto].
Qed.

(** The segments of a path that goes on after an id, and of one that ends
    with it. *)
Lemma segments_id_more (rest : string) :
  ForumRoutes.splitAcc (a ++ String "/" rest) EmptyString
  = a :: ForumRoutes.splitAcc rest EmptyString.
Proof.
  rewrite (splitAcc_hex _ _ _ id_hex). simpl.
  destruct id_cons as (c & r & ->). reflexivity.
Qed.

Lemma segments_id_last : ForumRoutes.splitAcc a EmptyString = [a].
Proof.
  replace a with (a ++ EmptyString)%string at 1.
  - rewrite (splitAcc_hex _ _ _ id_hex). simpl.
    destruct id_cons as (c & r & ->). reflexivity.
  - clear. induction a as [|x s IH]; simpl; congruence.
Qed.

(** A literal of a route is not an id: its length is not twenty-four. *)
Lemma literal_is_no_id (c : ascii) (lit : string) :
  c <> ":"%char ->
  String.length (String c lit) <> 24 ->
  ForumRoutes.matchSegment (String c lit) a = None.
Proof.
  intros Hc Hl. rewrite (ChatFacts.matchSegment_literal lit a Hc).
  destruct (String.eqb_spec (Js.toLowerCase (String c lit)) (Js.toLowerCase a))
    as [E|_]; [|reflexivity].
  exfalso. apply Hl.
  rewrite <- (toLowerCase_length (String c lit)), E, toLowerCase_length.
  exact id_length.
Qed.

End Ids.

End WiringFacts.

Section ClientReaches.

Import ForumService Wiring.

Variables pid rid cid : ObjectId.
Hypothesis pid_id : isObjectId pid = true.
Hypothesis rid_id : isObjectId rid = true.
Hypothesis cid_id : isObjectId cid = true.

(** The path of a call below the mount point, then the route it takes:
    the segments of the path are computed, an id being one segment, and the
    routes are tried in order, a literal of a route matching no id. *)
Ltac follow :=
  unfold reaches, pathOf, mount,
    getCourseDiscussions, createPost, getPostById, updatePost, deletePost,
    addReply, updateReply, deleteReply, toggleLikePost, toggleLikeReply,
    getAnnouncements, createAnnouncement, togglePinPost, getMyPosts, getAllPosts;
  unfold API_URL;
  cbn [url verb afterPrefix String.append Ascii.eqb Bool.eqb andb];
  unfold ForumRoutes.dispatch, ForumRoutes.forumRouter;
  cbn [ForumRoutes.dispatchIn]; unfold ForumRoutes.matchRoute;
  cbn [ForumRoutes.method ForumRoutes.pattern ForumRoutes.methodEq];
  unfold ForumRoutes.segments;
  repeat (cbn [ForumRoutes.splitAcc String.append Ascii.eqb Bool.eqb andb];
          rewrite ?(@WiringFacts.segments_id_more pid pid_id),
            ?(@WiringFacts.segments_id_more rid rid_id),
            ?(@WiringFacts.segments_id_more cid cid_id),
            ?(@WiringFacts.segments_id_last pid pid_id),
            ?(@WiringFacts.segments_id_last rid rid_id),
            ?(@WiringFacts.segments_id_last cid cid_id));
  cbn [ForumRoutes.matchSegments];
  repeat match goal with
         | |- context [ForumRoutes.matchSegment (String ?c ?lit) ?y] =>
             is_var y;
             lazymatch c with
             | ":"%char => fail
             | _ => idtac
             end;
             rewrite (@WiringFacts.literal_is_no_id y ltac:(assumption) c lit
                        ltac:(discriminate) ltac:(cbn; congruence))
         end;
  repeat match goal with
         | |- context [ForumRoutes.matchSegment ?x ?y] =>
             let v := eval vm_compute in (ForumRoutes.matchSegment x y) in
             change (ForumRoutes.matchSegment x y) with v
         end;
  reflexivity.

Let onPost : Params :=
  {| p_postId := pid; p_replyId := EmptyString; p_courseId := EmptyString |}.
Let onReply : Params :=
  {| p_postId := pid; p_replyId := rid; p_courseId := EmptyString |}.
Let onCourse : Params :=
  {| p_postId := EmptyString; p_replyId := EmptyString; p_courseId := cid |}.
Let onNothing : Params :=
  {| p_postId := EmptyString; p_replyId := EmptyString; p_courseId := EmptyString |}.

(** X19.  With ids as the database prints them, every call of the client
    reaches the action of the controller it is named after, with the ids it
    was given as [req.params]; except [getAllPosts], whose call reaches
    [getPostById] with [all] for the id of the post. *)
Theorem client_reaches_the_controller :
  (forall page limit category search,
      reaches (getCourseDiscussions cid page limit category search)
      = Some (ForumRoutes.GetCourseDiscussions, onCourse))
  /\ (forall r d,
        reaches (createPost r d) = Some (ForumRoutes.CreateForumPost, onNothing))
  /\ reaches (getPostById pid) = Some (ForumRoutes.GetPostById, onPost)
  /\ (forall d, reaches (updatePost pid d) = Some (ForumRoutes.UpdatePost, onPost))
  /\ reaches (deletePost pid) = Some (ForumRoutes.DeletePost, onPost)
  /\ (forall d, reaches (addReply pid d) = Some (ForumRoutes.AddReply, onPost))
  /\ (forall d,
        reaches (updateReply pid rid d) = Some (ForumRoutes.UpdateReply, onReply))
  /\ reaches (deleteReply pid rid) = Some (ForumRoutes.DeleteReply, onReply)
  /\ reaches (toggleLikePost pid) = Some (ForumRoutes.ToggleLikePost, onPost)
  /\ reaches (toggleLikeReply pid rid) = Some (ForumRoutes.ToggleLikeReply, onReply)
  /\ (forall c,
        reaches (getAnnouncements c) = Some (ForumRoutes.GetAnnouncements, onNothing))
  /\ (forall d,
        reaches (createAnnouncement d)
        = Some (ForumRoutes.CreateAnnouncement, onNothing))
  /\ reaches (togglePinPost pid) = Some (ForumRoutes.PinPost, onPost)
  /\ (forall page limit,
        reaches (getMyPosts page limit) = Some (ForumRoutes.GetMyPosts, onNothing))
  /\ (forall page limit search,
        reaches (getAllPosts page limit search)
        = Some (ForumRoutes.GetPostById,
                {| p_postId := "all"; p_replyId := EmptyString;
                   p_courseId := EmptyString |})).
Proof.
  subst onPost onReply onCourse onNothing.
  repeat match goal with |- _ /\ _ => split end; intros; follow.
Qed.

End ClientReaches.

(** The calls of the client on a post, a reply and a course. *)
Lemma client_reaches_the_controller_witness :
  Wiring.reaches (ForumService.toggleLikeReply Sample.postOid Sample.replyOid)
  = Some (ForumRoutes.ToggleLikeReply,
          {| p_postId := Sample.postOid; p_replyId := Sample.replyOid;
             p_courseId := EmptyString |})
  /\ Wiring.reaches (ForumService.getAllPosts None None None)
     = Some (ForumRoutes.GetPostById,
             {| p_postId := "all"; p_replyId := EmptyString;
                p_courseId := EmptyString |}).
Proof.
  pose proof (@client_reaches_the_controller Sample.postOid Sample.replyOid
                Sample.courseOid eq_refl eq_refl eq_refl)
    as (_ & _ & _ & _ & _ & _ & _ & _ & _ & H10 & _ & _ & _ & _ & H15).
  split; [exact H10|exact (H15 None None None)].
Defined.

(** ** The client and the rule on categories *)

Lemma role_test_agrees (r : option string) :
  isInstructorRole r
  = String.eqb (Js.toLowerCase (Js.orElse r EmptyString)) "instructor".
Proof.
  destruct r as [[|c s]|]; reflexivity.
Qed.

(** X20.  The client and the server test the role in the same way, so a post
    an instructor creates through [ForumService.createPost] reaches the
    server with the category [Announcement], whatever category was given,
    and is never refused with a 400; the post of any other user is sent as
    it was given. *)
Theorem client_post_of_an_instructor (u : User) (d : Body) (ps : Params) (db : DB) :
  (isInstructorRole (role u) = true ->
   b_category (body (Wiring.requestOf u (ForumService.createPost (role u) d) ps))
   = Some "Announcement"
   /\ hasStatus 400
        (fst (createForumPost
                (Wiring.requestOf u (ForumService.createPost (role u) d) ps) db))
      = false)
  /\ (isInstructorRole (role u) = false ->
      body (Wiring.requestOf u (ForumService.createPost (role u) d) ps) = d).
Proof.
  unfold Wiring.requestOf, ForumService.createPost.
  rewrite <- role_test_agrees.
  split; intros Hr; rewrite Hr; cbn [ForumService.data Js.orElse body];
    [|reflexivity].
  split; [reflexivity|].
  unfold createForumPost. unfold_action. unfold write.
  cbn [body user ForumService.withCategory b_category b_courseId b_title
       b_content b_tags b_attachments isString].
  rewrite Hr. cbn [String.eqb Ascii.eqb Bool.eqb andb negb].
  split_action; reflexivity.
Qed.

(** Ines posts a general remark through the client. *)
Lemma client_post_of_an_instructor_witness :
  b_category
    (body (Wiring.requestOf Sample.ines
             (ForumService.createPost (role Sample.ines) Sample.general)
             (params (Sample.onPost Sample.ines EmptyString EmptyString
                        Sample.noBody))))
  = Some "Announcement"
  /\ hasStatus 400
       (fst (createForumPost
               (Wiring.requestOf Sample.ines
                  (ForumService.createPost (role Sample.ines) Sample.general)
                  (params (Sample.onPost Sample.ines EmptyString EmptyString
                             Sample.noBody)))
               Sample.db))
     = false.
Proof.
  exact (proj1 (@client_post_of_an_instructor Sample.ines Sample.general
                  (params (Sample.onPost Sample.ines EmptyString EmptyString
                             Sample.noBody))
                  Sample.db) eq_refl).
Defined.

(** ** More on what is stored *)

(** X21.  [updatePost] does not apply the rule of [createForumPost] on
    categories: the author of a post, whatever the role, can give it the
    category [Announcement].  The flag [isAnnouncement] stays as it was, and
    the post is from then on among the announcements [getAnnouncements]
    lists. *)
Theorem updatePost_can_announce (rx : string -> string -> string -> bool)
    (req req' : Request) (db : DB) (post : ForumPost) :
  find (fun p => idEq (post_id p) (p_postId (params req))) (posts db) = Some post ->
  author post = user_id (user req) ->
  b_category (body req) = Some "Announcement" ->
  rejects db = [] ->
  Js.truthy (q_courseId (query req')) = false ->
  exists post' ps,
    fst (updatePost req db) = Json 200 (UpdatedPost (Some post'))
    /\ category post' = Some "Announcement"
    /\ isAnnouncement post' = isAnnouncement post
    /\ fst (getAnnouncements rx req' (snd (updatePost req db)))
       = Json 200 (PostList ps)
    /\ In post' ps.
Proof.
  intros Hf Ha Hc Hr Ht. apply idEq_true in Ha.
  set (post' := applyUpdate
                  {| u_title := b_title (body req);
                     u_content := b_content (body req);
                     u_category := b_category (body req);
                     u_tags := b_tags (body req);
                     u_attachments := b_attachments (body req) |} post).
  assert (E : updatePost req db
              = (Json 200 (UpdatedPost (Some post')),
                 mkDB (replacePost post' (posts db)) (courses db)
                      (notifications db) (rejects db) (clock db) (nextId db))).
  { unfold updatePost. unfold_action. unfold write.
    rewrite Hf, Ha. repeat (simpl; rewrite ?Hr, ?Hf). reflexivity. }
  rewrite E. cbn [fst snd].
  exists post'. eexists.
  split; [reflexivity|].
  split; [unfold post'; simpl; now rewrite Hc|].
  split; [reflexivity|].
  unfold getAnnouncements. unfold_action. rewrite Ht. cbn [fst posts].
  split; [reflexivity|].
  unfold skipLimit. simpl.
  apply (Permutation_in _ (Permutation_sym (sortPosts_perm _ _))).
  unfold matchSet. apply filter_In. split.
  - destruct (find_post_split _ _ Hf) as (before & after & Hps & Hid & Hall).
    rewrite Hps, replacePost_split; [apply in_elt|reflexivity|].
    simpl. now rewrite Hid.
  - unfold matches. simpl. rewrite Hc. reflexivity.
Qed.

(** Alice, a student, turns her question [p1] into an announcement. *)
Lemma updatePost_can_announce_witness :
  exists post' ps,
    fst (updatePost (Sample.onPost Sample.alice "p1" EmptyString Sample.promote)
           Sample.db)
    = Json 200 (UpdatedPost (Some post'))
    /\ category post' = Some "Announcement"
    /\ isAnnouncement post' = Some false
    /\ fst (getAnnouncements Sample.literalTest
              (Sample.listing Sample.carol EmptyString Sample.noQuery)
              (snd (updatePost
                      (Sample.onPost Sample.alice "p1" EmptyString Sample.promote)
                      Sample.db)))
       = Json 200 (PostList ps)
    /\ In post' ps.
Proof.
  exact (@updatePost_can_announce Sample.literalTest
           (Sample.onPost Sample.alice "p1" EmptyString Sample.promote)
           (Sample.listing Sample.carol EmptyString Sample.noQuery)
           Sample.db Sample.examPost eq_refl eq_refl eq_refl eq_refl eq_refl).
Defined.

(** X22.  The post a successful [createAnnouncement] stores is the
    requester's, in the course of the body, with its title and content, the
    category [Announcement], no tags, no likes and no replies; unlike
    [createForumPost] it passes no flag [isAnnouncement], which is left to
    the schema. *)
Theorem createAnnouncement_post (req : Request) (db db' : DB) (st : nat)
    (data : Payload) :
  createAnnouncement req db = (Json st data, db') ->
  exists cid post,
    b_courseId (body req) = Some cid
    /\ post = mkPost (NilZero.string_of_uint (Nat.to_uint (nextId db))) cid
                (user_id (user req)) (b_title (body req)) (b_content (body req))
                (Some "Announcement") None
                (Js.orElse (b_attachments (body req)) []) [] [] None None (clock db)
    /\ st = 201 /\ data = PostData post
    /\ posts db' = posts db ++ [post]
    /\ courses db' = courses db.
Proof.
  unfold createAnnouncement. unfold_action.
  destruct (b_courseId (body req)) as [cid|] eqn:Hb; [|discriminate].
  destruct (find _ (courses db)) as [course|] eqn:Hc; [|discriminate].
  destruct (idEq (instructor course) (user_id (user req))); simpl; [|discriminate].
  intros H. exists cid. eexists. split; [reflexivity|]. split; [reflexivity|].
  revert H. unfold write.
  destruct (enrolledStudents course) as [|s students].
  - destruct (rejects db) as [|[] [|[] rest]] eqn:Hr; repeat (simpl; rewrite ?Hr);
      try discriminate; intros H; injection H as <- <- <-; repeat split.
  - destruct (rejects db) as [|[] [|[] [|[] rest]]] eqn:Hr;
      repeat (simpl; rewrite ?Hr, ?studentNotifications_valid);
      try discriminate;
      intros H; injection H as <- <- <-; repeat split.
Qed.

Lemma createAnnouncement_post_witness :
  exists cid post,
    Some "c1" = Some cid
    /\ post = mkPost "7" cid "t1" (Some "No lecture on Friday")
                (Some "The lecture moves to Monday.") (Some "Announcement") None
                [] [] [] None None 1000%Z
    /\ 201 = 201
    /\ PostData (mkPost "7" "c1" "t1" (Some "No lecture on Friday")
                   (Some "The lecture moves to Monday.") (Some "Announcement")
                   None [] [] [] None None 1000%Z)
       = PostData post
    /\ posts (snd (createAnnouncement
                     (Sample.onPost Sample.ines EmptyString EmptyString
                        Sample.announcement) Sample.db))
       = posts Sample.db ++ [post]
    /\ [Sample.logic] = [Sample.logic].
Proof.
  exact (@createAnnouncement_post
           (Sample.onPost Sample.ines EmptyString EmptyString Sample.announcement)
           Sample.db _ _ _ eq_refl).
Defined.

(** X23.  The like actions make no test of access to the course and write
    nothing but the likes: a successful [toggleLikePost], by any requester,
    replaces the post by the same post with the toggled likes and leaves the
    other posts, the courses and the notifications as they were. *)
Theorem toggleLikePost_frame (req : Request) (db db' : DB) (st : nat)
    (data : Payload) :
  toggleLikePost req db = (Json st data, db') ->
  exists post,
    replacesPost (p_postId (params req)) post
      (setLikes post (toggled (likes post) (user_id (user req)))) db db'
    /\ notifications db' = notifications db
    /\ data = LikeData
                (List.length (toggled (likes post) (user_id (user req))))
                (negb (existsb (fun l => idEq l (user_id (user req))) (likes post))).
Proof.
  unfold toggleLikePost. unfold_action.
  destruct (find _ (posts db)) as [post|] eqn:Hf; [|discriminate].
  intros H. exists post.
  assert (Hi : (Js.indexOf (likes post) (user_id (user req)) =? -1)%Z
               = negb (existsb (fun l => idEq l (user_id (user req))) (likes post))).
  { destruct (in_dec string_dec (user_id (user req)) (likes post)) as [Hin|Hout].
    - destruct (in_first_split _ _ Hin) as (l1 & l2 & E & Hn).
      rewrite E at 1. rewrite (proj2 (toggled_present l1 l2 _ Hn)).
      symmetry. apply negb_false_iff, existsb_exists.
      exists (user_id (user req)). split; [exact Hin|apply idEq_refl].
    - rewrite (proj2 (toggled_absent _ _ Hout)).
      symmetry. apply negb_true_iff.
      destruct (existsb _ (likes post)) eqn:Ex; [|reflexivity].
      apply existsb_exists in Ex as (l & Hl & El). apply idEq_true in El.
      subst l. contradiction. }
  revert H. unfold write, toggled.
  destruct (Js.indexOf (likes post) (user_id (user req)) =? -1)%Z eqn:Ei;
    destruct (rejects db) as [|[] rest]; simpl; try discriminate;
    intros H; injection H as <- <- <-;
    (split; [apply replacePost_in_place; auto|]);
    (split; [reflexivity|]); now rewrite <- Hi.
Qed.

(** Carol, a member of no course, likes the post [p1]. *)
Lemma toggleLikePost_frame_witness :
  exists post,
    replacesPost "p1" post (setLikes post (toggled (likes post) "u3")) Sample.db
      (mkDB [setLikes Sample.examPost ["u1"; "u2"; "u3"]; Sample.notesPost;
             Sample.orphanPost]
            [Sample.logic] [] [] 1000 7)
    /\ @nil Notification.t = []
    /\ LikeData 3 true
       = LikeData (List.length (toggled (likes post) "u3"))
           (negb (existsb (fun l => idEq l "u3") (likes post))).
Proof.
  exact (@toggleLikePost_frame
           (Sample.onPost Sample.carol "p1" EmptyString Sample.noBody)
           Sample.db _ _ _ eq_refl).
Defined.

(** ** Pages and their number *)

Lemma skipLimit_length {A : Type} (s l : Z) (xs : list A) :
  (0 <= s)%Z -> (1 <= l)%Z ->
  Z.of_nat (List.length (skipLimit s l xs))
  = Z.max 0 (Z.min l (Z.of_nat (List.length xs) - s)).
Proof.
  intros Hs Hl. rewrite skipLimit_pos by assumption.
  rewrite length_firstn, length_skipn. lia.
Qed.

(** X24.  How full the pages are.  For a page [p >= 1] and a limit [l >= 1],
    [getAllPosts], [getMyPosts] and [getCourseDiscussions] answer with as
    many posts as are left after the first [(p - 1) * l] matching posts, and
    at most [l]; and the page is empty exactly when [p] is beyond the number
    [pages] of the answer. *)
Theorem pages_are_filled_in_order (rx : string -> string -> string -> bool)
    (req : Request) (db db' : DB) (st : nat) (ps : list ForumPost)
    (pg : Pagination) :
  (1 <= pageOf (query req))%Z ->
  (1 <= limitOf (query req))%Z ->
  getAllPosts rx req db = (Json st (PostPage ps pg), db')
  \/ getMyPosts rx req db = (Json st (PostPage ps pg), db')
  \/ getCourseDiscussions rx req db = (Json st (PostPage ps pg), db') ->
  Z.of_nat (List.length ps)
  = Z.max 0 (Z.min (limitOf (query req))
                   (total pg - (pageOf (query req) - 1) * limitOf (query req)))
  /\ exists k, pages pg = Js.Finite k /\ (ps = [] <-> (k < page pg)%Z).
Proof.
  intros Hp Hl H.
  assert (E : exists f keys,
             ps = skipLimit ((pageOf (query req) - 1) * limitOf (query req))
                    (limitOf (query req))
                    (sortPosts keys (matchSet rx f (posts db)))
             /\ pg = {| total := Z.of_nat (List.length (matchSet rx f (posts db)));
                        page := pageOf (query req);
                        pages := Js.ceilDiv
                                   (Z.of_nat (List.length (matchSet rx f (posts db))))
                                   (limitOf (query req)) |}).
  { destruct H as [H|[H|H]]; revert H;
      [unfold getAllPosts|unfold getMyPosts|unfold getCourseDiscussions];
      unfold_action;
      try (destruct (find _ (courses db)) as [course|]; [|discriminate];
           destruct (noAccess course (user_id (user req))); [discriminate|]);
      (destruct ((pageOf (query req) - 1) * limitOf (query req) <? 0)%Z;
       [discriminate|]);
      intros H; injection H as <- <- <- <-; do 2 eexists; split; reflexivity. }
  destruct E as (f & keys & -> & ->). cbn [total page pages].
  set (T := Z.of_nat (List.length (matchSet rx f (posts db)))).
  assert (HT : (0 <= T)%Z) by (subst T; lia).
  assert (Hlen : Z.of_nat (List.length
                   (skipLimit ((pageOf (query req) - 1) * limitOf (query req))
                      (limitOf (query req))
                      (sortPosts keys (matchSet rx f (posts db)))))
                 = Z.max 0 (Z.min (limitOf (query req))
                              (T - (pageOf (query req) - 1) * limitOf (query req)))).
  { rewrite skipLimit_length by nia. now rewrite sortPosts_length. }
  split; [exact Hlen|].
  destruct (ceilDiv_pos HT Hl) as (k & Hk & Hb).
  exists k. split; [exact Hk|].
  rewrite <- length_zero_iff_nil.
  split; intros H0.
  - rewrite H0 in Hlen. simpl in Hlen. nia.
  - apply Nat2Z.inj. rewrite Hlen. simpl. nia.
Qed.

(** The second page of size two of the three posts holds one post. *)
Lemma pages_are_filled_in_order_witness :
  Z.of_nat (List.length [Sample.examPost]) = Z.max 0 (Z.min 2 (3 - (2 - 1) * 2))
  /\ exists k, Js.Finite 2 = Js.Finite k /\ ([Sample.examPost] = [] <-> (k < 2)%Z).
Proof.
  refine (@pages_are_filled_in_order Sample.literalTest
            (Sample.listing Sample.ines EmptyString
               {| q_page := Some 2%Z; q_limit := Some 2%Z; q_search := None;
                  q_category := None; q_courseId := None |})
            Sample.db Sample.db 200 [Sample.examPost]
            {| total := 3; page := 2; pages := Js.Finite 2 |} _ _ _);
    [cbv; discriminate|cbv; discriminate|left; reflexivity].
Defined.

(** ** An invariant of the likes *)

Lemma toggled_NoDup (ls : list ObjectId) (uid : ObjectId) :
  NoDup ls -> NoDup (toggled ls uid).
Proof.
  intros Hnd. destruct (in_dec string_dec uid ls) as [Hin|Hout].
  - destruct (in_first_split _ _ Hin) as (l1 & l2 & -> & Hn).
    rewrite (proj1 (toggled_present l1 l2 uid Hn)).
    now apply NoDup_remove_1 in Hnd.
  - rewrite (proj1 (toggled_absent ls uid Hout)).
    apply NoDup_app; [exact Hnd|repeat constructor; auto|].
    intros x Hx [<-|[]]. contradiction.
Qed.

(** X25.  No user is counted twice: when the likes of a post, or of a
    reply, hold no id twice, they hold no id twice after [toggleLikePost],
    or [toggleLikeReply], whoever asks and whether or not the write goes
    through. *)
Theorem likes_stay_without_repetition (req : Request) (db : DB)
    (ls : list ObjectId) :
  NoDup ls ->
  (storedLikes (p_postId (params req)) db = Some ls ->
   exists ls',
     storedLikes (p_postId (params req)) (snd (toggleLikePost req db)) = Some ls'
     /\ NoDup ls')
  /\ (storedReplyLikes (p_postId (params req)) (p_replyId (params req)) db = Some ls ->
      exists ls',
        storedReplyLikes (p_postId (params req)) (p_replyId (params req))
          (snd (toggleLikeReply req db)) = Some ls'
        /\ NoDup ls').
Proof.
  intros Hnd. split.
  - unfold storedLikes, toggleLikePost. unfold_action. unfold write.
    destruct (find _ (posts db)) as [post|] eqn:Hf; [|discriminate].
    intros H. injection H as <-.
    assert (Hf1 : forall l,
               find (fun p => idEq (post_id p) (p_postId (params req)))
                 (replacePost (setLikes post l) (posts db))
               = Some (setLikes post l)).
    { intros l. now apply find_replacePost with (p := post). }
    fold (toggled (likes post) (user_id (user req))).
    destruct (rejects db) as [|[] rest]; cbn [fst snd posts].
    + exists (toggled (likes post) (user_id (user req))).
      split; [|now apply toggled_NoDup].
      unfold toggled.
      destruct (Js.indexOf (likes post) (user_id (user req)) =? -1)%Z;
        cbn [fst snd posts]; now rewrite Hf1.
    + exists (likes post). split; [|exact Hnd].
      unfold toggled.
      destruct (Js.indexOf (likes post) (user_id (user req)) =? -1)%Z;
        cbn [fst snd posts]; now rewrite Hf.
    + exists (toggled (likes post) (user_id (user req))).
      split; [|now apply toggled_NoDup].
      unfold toggled.
      destruct (Js.indexOf (likes post) (user_id (user req)) =? -1)%Z;
        cbn [fst snd posts]; now rewrite Hf1.
  - unfold storedReplyLikes, toggleLikeReply. unfold_action. unfold write.
    destruct (find _ (posts db)) as [post|] eqn:Hf; [|discriminate].
    destruct (replies_id (replies post) (p_replyId (params req)))
      as [reply|] eqn:Hy; [|discriminate].
    intros H. injection H as <-.
    assert (Hf1 : forall l,
               find (fun p => idEq (post_id p) (p_postId (params req)))
                 (replacePost
                    (setReplies post
                       (replaceReply (setReplyLikes reply l) (replies post)))
                    (posts db))
               = Some (setReplies post
                         (replaceReply (setReplyLikes reply l) (replies post)))).
    { intros l. now apply find_replacePost with (p := post). }
    assert (Hy1 : forall l,
               replies_id (replaceReply (setReplyLikes reply l) (replies post))
                 (p_replyId (params req))
               = Some (setReplyLikes reply l)).
    { intros l. now apply replies_id_replaceReply with (r := reply). }
    destruct (rejects db) as [|[] rest]; cbn [fst snd posts].
    + exists (toggled (reply_likes reply) (user_id (user req))).
      split; [|now apply toggled_NoDup].
      unfold toggled.
      destruct (Js.indexOf (reply_likes reply) (user_id (user req)) =? -1)%Z;
        cbn [fst snd posts]; rewrite Hf1; cbn [replies setReplies];
        now rewrite Hy1.
    + exists (reply_likes reply). split; [|exact Hnd].
      destruct (Js.indexOf (reply_likes reply) (user_id (user req)) =? -1)%Z;
        cbn [fst snd posts]; now rewrite Hf, Hy.
    + exists (toggled (reply_likes reply) (user_id (user req))).
      split; [|now apply toggled_NoDup].
      unfold toggled.
      destruct (Js.indexOf (reply_likes reply) (user_id (user req)) =? -1)%Z;
        cbn [fst snd posts]; rewrite Hf1; cbn [replies setReplies];
        now rewrite Hy1.
Qed.

(** Carol likes the post [p1]. *)
Lemma likes_stay_without_repetition_witness :
  exists ls',
    storedLikes "p1"
      (snd (toggleLikePost (Sample.onPost Sample.carol "p1" "r1" Sample.noBody)
              Sample.db))
    = Some ls'
    /\ NoDup ls'.
Proof.
  refine (proj1 (@likes_stay_without_repetition
                   (Sample.onPost Sample.carol "p1" "r1" Sample.noBody)
                   Sample.db ["u1"; "u2"] _) eq_refl).
  repeat constructor; simpl; intuition discriminate.
Defined.
